(** * illuminator: differentially methylated probes and regions (dm.py)

    A shallow embedding of [src/illuminator/dm.py]: [get_dmp] (per-probe
    regression) and [get_dmr] (segmentation of the genome into regions and
    region-level statistics), with the pandas operations they are written in.

    Conventions of the model
    - a float is a rational or NaN ([nan]); arithmetic on floats is exact:
      rounding and overflow are not modelled;
    - a pandas index is a list of labels, in row order, duplicates allowed;
      a table is the list of its rows, each row carrying its label;
    - logging and calls of the regression library are recorded in a trace;
      an uncaught Python exception ends the run with [Raise];
    - functions of numpy, scipy, statsmodels, patsy and joblib, and
      [remove_probe_suffix] of [illuminator.utils], are variables of a
      section; sample columns are not named as the columns of coordinates.

    After [dm.py] come the samples: [src/sample.py] (reading idat files, the
    required columns, the beta values) and [read_samples] of
    [src/pylluminator/samples.py], with runs of their own (module [py]). *)

From Stdlib Require Import List ZArith QArith Qround Bool String Ascii Lia.
From Stdlib Require Import Permutation Sorted.
Import ListNotations.

Local Open Scope string_scope.
Local Open Scope list_scope.
Local Open Scope Z_scope.

(** ** Floats *)

Module Float.

Inductive float : Type :=
| nan
| fin (q : Q).

Definition isna (x : float) : bool :=
  match x with nan => true | fin _ => false end.

Definition notna (x : float) : bool := negb (isna x).

(** [a - b] *)
Definition sub (a b : float) : float :=
  match a, b with
  | fin x, fin y => fin (x - y)
  | _, _ => nan
  end.

(** [a ** 2] *)
Definition square (a : float) : float :=
  match a with
  | fin x => fin (x * x)
  | nan => nan
  end.

(** [a <= b]; every comparison with NaN is false *)
Definition le (a b : float) : bool :=
  match a, b with
  | fin x, fin y => Qle_bool x y
  | _, _ => false
  end.

(** [a < b] *)
Definition lt (a b : float) : bool :=
  match a, b with
  | fin x, fin y => negb (Qle_bool y x)
  | _, _ => false
  end.

(** [a > b] *)
Definition gt (a b : float) : bool := lt b a.

(** [Series.sum()] / [DataFrame.sum(axis=1)]: NaN entries are skipped, the
    sum of nothing is 0. *)
Definition sum_skipna (l : list float) : float :=
  fin (fold_left (fun acc x => match x with fin q => (acc + q)%Q | nan => acc end) l 0%Q).

(** [mean] of a group: NaN entries are skipped, the mean of nothing is NaN. *)
Definition mean_skipna (l : list float) : float :=
  match filter notna l with
  | [] => nan
  | present =>
      match sum_skipna present with
      | fin s => fin (s / inject_Z (Z.of_nat (List.length present)))
      | nan => nan
      end
  end.

Definition of_Z (z : Z) : float := fin (inject_Z z).

End Float.

Abbreviation float := Float.float.
Abbreviation nan := Float.nan.
Abbreviation fin := Float.fin.

(** ** Runs: a trace of effects and an outcome *)

Inductive level : Type := DEBUG | INFO | WARNING | ERROR.

(** The messages of [dm.py], with the values their f-strings print. *)
Inductive message : Type :=
| start_get_dmp
| sample_sheet_must_have_sample_name
| get_dmp_done
| start_get_dmr
| no_match_found
| invalid_seg_per_locus (seg_per_locus : float)
| segments_per_locus (seg_per_locus : float)
| cutoff_should_be_positive
| distance_cutoff (dist_cutoff : float)
| number_of_segments (last_segment_id : Z)
| adding_na_segments (nb_na_segments : nat)
| combining_p_values
| significant_segments (nb_significant : nat)
| significant_segments_adjusted (nb_significant : nat).

Inductive event : Type :=
| Log (lvl : level) (msg : message)
| OLS_fit (endog : list float).

Inductive exn : Type :=
| KeyError (labels : list string)
| IndexError
| ValueError
| LibraryError (what : string).

Inductive outcome (A : Type) : Type :=
| Return (a : A)
| Raise (e : exn).

Arguments Return {A} a.
Arguments Raise {A} e.

Definition run (A : Type) : Type := (list event * outcome A)%type.

Definition ret {A : Type} (a : A) : run A := ([], Return a).

Definition raise {A : Type} (e : exn) : run A := ([], Raise e).

Definition bind {A B : Type} (m : run A) (k : A -> run B) : run B :=
  match m with
  | (t, Return a) => let (t', r) := k a in (t ++ t', r)
  | (t, Raise e) => (t, Raise e)
  end.

Definition emit (e : event) : run unit := ([e], Return tt).

Definition lift {A : Type} (o : outcome A) : run A := ([], o).

Definition trace {A : Type} (m : run A) : list event := fst m.

Definition result {A : Type} (m : run A) : outcome A := snd m.

Declare Scope run_scope.
Delimit Scope run_scope with run.

Notation "x <- m ;; k" := (bind m (fun x => k))
  (at level 61, m at next level, right associativity) : run_scope.
Notation "m ;; k" := (bind m (fun _ => k))
  (at level 61, right associativity) : run_scope.

Local Open Scope run_scope.

Module LOGGER.
Definition debug (m : message) : run unit := emit (Log DEBUG m).
Definition info (m : message) : run unit := emit (Log INFO m).
Definition warning (m : message) : run unit := emit (Log WARNING m).
Definition error (m : message) : run unit := emit (Log ERROR m).
End LOGGER.

(** ** Tables: the pandas operations used by dm.py *)

Module pd.

(** A labelled table: one entry per row, the row's label first. *)
Definition labelled (A : Type) : Type := list (string * A).

(** [t.index] *)
Definition index {A : Type} (t : labelled A) : list string := map fst t.

(** [t.index = t.index.map(f)] *)
Definition index_map {A : Type} (f : string -> string) (t : labelled A) : labelled A :=
  map (fun r => (f (fst r), snd r)) t.

(** A frame of floats: named columns and labelled rows of one value per
    column. The beta matrix, the design matrix and the DMP table are frames. *)
Record DataFrame : Type := {
  columns : list string;
  rows : labelled (list float)
}.

(** [s[mask]], [df[mask]]: the entries at the positions where the mask holds *)
Fixpoint select {A : Type} (mask : list bool) (l : list A) : list A :=
  match mask, l with
  | b :: mask', x :: l' => if b then x :: select mask' l' else select mask' l'
  | _, _ => []
  end.

Definition mem (s : string) (l : list string) : bool := existsb (String.eqb s) l.

(** [df.drop(columns=names, errors='ignore')] *)
Definition drop (names : list string) (df : DataFrame) : DataFrame :=
  let keep := map (fun c => negb (mem c names)) (columns df) in
  {| columns := select keep (columns df);
     rows := map (fun r => (fst r, select keep (snd r))) (rows df) |}.

(** [df.dropna()]: the rows without a missing value *)
Definition dropna (df : DataFrame) : DataFrame :=
  {| columns := columns df;
     rows := filter (fun r => forallb Float.notna (snd r)) (rows df) |}.

(** The rows of [t] labelled [key], in order. *)
Definition lookup_all {A : Type} (key : string) (t : labelled A) : list A :=
  map snd (filter (fun r => String.eqb (fst r) key) t).

Inductive how : Type := inner | left.

(** [l.join(r, how=...)] on the index: every row of [l], in order, paired
    with each row of [r] of the same label; a row of [l] without a match is
    dropped by an inner join and kept, filled with [fill], by a left join. *)
Definition join {A B : Type} (h : how) (fill : B) (l : labelled A) (r : labelled B)
  : labelled (A * B) :=
  flat_map (fun x =>
    match lookup_all (fst x) r with
    | [] => match h with inner => [] | left => [(fst x, (snd x, fill))] end
    | matches => map (fun b => (fst x, (snd x, b))) matches
    end) l.

(** The row of missing values a left join fills in. *)
Definition na_row (df : DataFrame) : list float := map (fun _ => nan) (columns df).

(** [t.loc[labels]]: for each label, in order, the rows labelled so; a label
    that is not in the index raises [KeyError]. *)
Definition loc {A : Type} (t : labelled A) (labels : list string) : outcome (labelled A) :=
  match filter (fun l => negb (mem l (index t))) labels with
  | [] => Return (flat_map (fun l => filter (fun r => String.eqb (fst r) l) t) labels)
  | missing => Raise (KeyError missing)
  end.

(** Stable sort by insertion, for [sort_ranges] and [sort_values]. *)
Fixpoint insert {A : Type} (leb : A -> A -> bool) (x : A) (l : list A) : list A :=
  match l with
  | [] => [x]
  | y :: l' => if leb x y then x :: l else y :: insert leb x l'
  end.

Definition sort {A : Type} (leb : A -> A -> bool) (l : list A) : list A :=
  fold_right (insert leb) [] l.

(** [s.shift(-1)]: every entry replaced by the next one, the last by a
    missing value *)
Definition shift_up {A : Type} (s : list A) : list (option A) :=
  match s with
  | [] => []
  | _ :: rest => map Some rest ++ [None]
  end.

(** [s.shift(fill_value=fill)]: every entry replaced by the previous one, the
    first by [fill] *)
Definition shift {A : Type} (fill : A) (s : list A) : list A :=
  match s with
  | [] => []
  | _ :: _ => fill :: removelast s
  end.

(** [s.cumsum()] of a boolean series, [True] counting 1 *)
Fixpoint cumsum_from (acc : Z) (s : list bool) : list Z :=
  match s with
  | [] => []
  | b :: rest => (acc + Z.b2z b) :: cumsum_from (acc + Z.b2z b) rest
  end.

Definition cumsum (s : list bool) : list Z := cumsum_from 0 s.

(** [df.diff(-1)]: every row minus the next one, the last row all missing *)
Definition diff_next (df : list (list float)) : list (list float) :=
  map (fun p =>
         match snd p with
         | Some next => map (fun ab => Float.sub (fst ab) (snd ab)) (combine (fst p) next)
         | None => map (fun _ => nan) (fst p)
         end)
      (combine df (shift_up df)).

(** [s.iloc[-1] = v] *)
Definition set_last {A : Type} (v : A) (s : list A) : list A :=
  match s with
  | [] => []
  | _ :: _ => removelast s ++ [v]
  end.

(** [s.max()] of a series of integers that is not empty *)
Definition max (s : list Z) : Z :=
  match s with
  | [] => 0
  | x :: rest => fold_left Z.max rest x
  end.

(** [s1 | s2], [s1 != s2], ...: entry by entry *)
Definition zip_with {A B C : Type} (f : A -> B -> C) (s1 : list A) (s2 : list B) : list C :=
  map (fun p => f (fst p) (snd p)) (combine s1 s2).

(** [mask.sum()] *)
Definition count_true (mask : list bool) : nat := List.length (filter (fun b => b) mask).

(** [t.loc[mask, col] = values]: the values go, in order, to the rows where
    the mask holds, the other rows keep what they have ([keep]); pandas
    refuses values that are not as many as the rows selected. *)
Fixpoint scatter {A : Type} (mask : list bool) (values : list A) (keep : list A) : list A :=
  match mask, keep with
  | true :: mask', k :: keep' =>
      match values with
      | v :: values' => v :: scatter mask' values' keep'
      | [] => k :: scatter mask' [] keep'
      end
  | false :: mask', k :: keep' => k :: scatter mask' values keep'
  | _, _ => []
  end.

Definition assign {A : Type} (mask : list bool) (values : list A) (keep : list A)
  : outcome (list A) :=
  if Nat.eqb (List.length values) (count_true mask)
  then Return (scatter mask values keep)
  else Raise ValueError.

(** [s.astype(int)]: a missing value cannot be cast. A column without
    missing values is a column of integers already. *)
Fixpoint astype_int (s : list (option Z)) : outcome (list Z) :=
  match s with
  | [] => Return []
  | None :: _ => Raise ValueError
  | Some x :: rest =>
      match astype_int rest with
      | Return xs => Return (x :: xs)
      | Raise e => Raise e
      end
  end.

(** [groupby(keys)[col].transform(f)]: every row gets [f] of the values of
    the rows that share its key. *)
Definition transform {A B : Type} (f : list A -> B) (keys : list Z) (col : list A) : list B :=
  map (fun k => f (select (map (Z.eqb k) keys) col)) keys.

(** [s.drop_duplicates()], of which dm.py takes the length *)
Definition drop_duplicates (s : list Z) : list Z := nodup Z.eq_dec s.

(** Position of a column name. *)
Fixpoint position (name : string) (cols : list string) : option nat :=
  match cols with
  | [] => None
  | c :: rest => if String.eqb c name then Some O
                 else option_map S (position name rest)
  end.

(** [row[col]] for the column at position [i]. *)
Definition cell (i : nat) (row : list float) : float := nth i row nan.

End pd.

(** ** Inputs of dm.py *)

(** A row of [annotation.genomic_ranges]: the coordinates of a probe.
    [Strand = None] is a table without a Strand column. *)
Record grange : Type := {
  Chromosome : string;
  Start : Z;
  End_ : Z;
  Strand : option string
}.

(** [illuminator.annotations.Annotations], as far as dm.py reads it. *)
Record Annotations : Type := {
  genomic_ranges : pd.labelled grange
}.

(** A row of the table [get_dmr] returns. *)
Record dmr_row : Type := {
  dmr_probe_id : string;
  dmr_range : grange;
  dmr_segment_id : Z;
  dmr_dmp : list float;
  dmr_segment_start : Z;
  dmr_segment_end : Z;
  dmr_segment_p_value : float;
  dmr_segment_p_value_adjusted : float;
  dmr_segment_estimates : list float
}.

Record dmr_table : Type := {
  dmr_columns : list string;
  dmr_rows : list dmr_row
}.

(** [pd.DataFrame()], the result of a run that found no match *)
Definition empty_table : dmr_table := {| dmr_columns := []; dmr_rows := [] |}.

(** The probe-to-segment mapping of a result. *)
Definition probe_segments (t : dmr_table) : pd.labelled Z :=
  map (fun r => (dmr_probe_id r, dmr_segment_id r)) (dmr_rows t).

(** Modelled from the spec: [illuminator.utils.set_level_as_index] is not in
    src/. The spec's beta matrix is "indexed by probe identifier" with one
    column per sample; a frame of the model has that one index level
    already, so making [probe_id] the index and dropping the other levels
    leaves it as it is. *)
Definition set_level_as_index (df : pd.DataFrame) (level : string) (drop_others : bool)
  : pd.DataFrame := df.

(** Modelled from the spec: [illuminator.utils.remove_probe_suffix] is not
    in src/, and the properties below hold for any function in its place.
    The spec says that annotation probe ids "may carry a suffix that must be
    strippable"; for concrete runs, [strip_suffix] cuts an id at its last
    underscore. *)
Fixpoint cut_last_underscore (s : string) : option string :=
  match s with
  | EmptyString => None
  | String c rest =>
      match cut_last_underscore rest with
      | Some kept => Some (String c kept)
      | None => if Ascii.eqb c "_"%char then Some EmptyString else None
      end
  end.

(** Modelled from the spec: the instance of [remove_probe_suffix] for
    concrete runs (see [cut_last_underscore]); an id without an underscore
    is left as it is. *)
Definition strip_suffix (probe_id : string) : string :=
  match cut_last_underscore probe_id with
  | Some kept => kept
  | None => probe_id
  end.

(** ** get_dmr (dm.py, lines 114-230) *)

Section get_dmr.

(** [illuminator.utils.remove_probe_suffix] (not in src/) *)
Variable remove_probe_suffix : string -> string.

(** [np.quantile(a, q)] *)
Variable np_quantile : list float -> float -> outcome float.

(** [scipy.stats.combine_pvalues(p_values, method='stouffer')]: the statistic
    and the combined p-value *)
Variable combine_pvalues : list float -> float * float.

(** [multipletests(pvals, method='fdr_bh')[1]]: the adjusted p-values, or the
    exception of the call (statsmodels divides by the number of p-values) *)
Variable multipletests_fdr_bh : list float -> outcome (list float).

(** Lines 23-31. *)
Definition combine_p_values_stouffer (p_values : list float) : float :=
  snd (combine_pvalues p_values).

(** Lines 139-140: [betas] as the rest of the function reads it. *)
Definition betas_by_probe (betas : pd.DataFrame) : pd.DataFrame :=
  pd.drop ["type"; "channel"; "probe_type"; "index"]
          (set_level_as_index betas "probe_id" true).

(** Line 143. *)
Definition probe_coords_df (annotation : Annotations) : pd.labelled grange :=
  map (fun r => (fst r, {| Chromosome := Chromosome (snd r); Start := Start (snd r);
                           End_ := End_ (snd r); Strand := None |}))
      (genomic_ranges annotation).

(** Line 144: the ranges that are not of width 0. *)
Definition non_empty_coords_df (annotation : Annotations) : pd.labelled grange :=
  filter (fun r => End_ (snd r) >? Start (snd r)) (probe_coords_df annotation).

(** Line 146. *)
Definition betas_no_na (betas : pd.DataFrame) : pd.DataFrame :=
  pd.dropna (betas_by_probe betas).

(** Line 147: the first join. *)
Definition cpg_ids_exact (betas : pd.DataFrame) (annotation : Annotations)
  : pd.labelled (grange * list float) :=
  pd.join pd.inner (pd.na_row (betas_no_na betas))
          (non_empty_coords_df annotation) (pd.rows (betas_no_na betas)).

(** Lines 150-152: the join again, on the annotation ids without their
    suffix; [join] is called without [how], which is pandas' left join. *)
Definition cpg_ids_retry (betas : pd.DataFrame) (annotation : Annotations)
  : pd.labelled (grange * list float) :=
  pd.join pd.left (pd.na_row (betas_no_na betas))
          (pd.index_map remove_probe_suffix (non_empty_coords_df annotation))
          (pd.rows (betas_no_na betas)).

(** Lines 147-152. *)
Definition cpg_ids (betas : pd.DataFrame) (annotation : Annotations)
  : pd.labelled (grange * list float) :=
  match cpg_ids_exact betas annotation with
  | [] => cpg_ids_retry betas annotation
  | matched => matched
  end.

(** Order of [sort_ranges]: chromosome (as a string), then start, then end. *)
Definition range_leb (a b : grange) : bool :=
  match String.compare (Chromosome a) (Chromosome b) with
  | Lt => true
  | Gt => false
  | Eq =>
      match Z.compare (Start a) (Start b) with
      | Lt => true
      | Gt => false
      | Eq => End_ a <=? End_ b
      end
  end.

(** Line 160: [pr.PyRanges(cpg_ids).sort_ranges()]. *)
Definition sort_ranges (t : pd.labelled (grange * list float))
  : pd.labelled (grange * list float) :=
  pd.sort (fun r1 r2 => range_leb (fst (snd r1)) (fst (snd r2))) t.

Definition cpg_ranges (betas : pd.DataFrame) (annotation : Annotations)
  : pd.labelled (grange * list float) :=
  sort_ranges (cpg_ids betas annotation).

(** Lines 161-162. *)
Definition last_probe_in_chromosome (cpg_ranges : pd.labelled (grange * list float))
  : list bool :=
  let chromosome := map (fun r => Chromosome (fst (snd r))) cpg_ranges in
  let next_chromosome := pd.shift_up chromosome in
  pd.zip_with (fun c next =>
                 match next with
                 | Some c' => negb (String.eqb c c')
                 | None => true
                 end)
              chromosome next_chromosome.

(** Lines 165-167: the squared Euclidian distance between the beta values of
    a probe and of the next one; the last probe has none. *)
Definition beta_euclidian_dist (cpg_ranges : pd.labelled (grange * list float))
  : list float :=
  let samples := map (fun r => snd (snd r)) cpg_ranges in
  pd.set_last nan
    (map (fun d => Float.sum_skipna (map Float.square d)) (pd.diff_next samples)).

(** Lines 169-180: the cutoff in use. *)
Definition determine_cutoff (dist_cutoff : option float) (seg_per_locus : float)
    (dist : list float) (last_probe : list bool) : run float :=
  dist_cutoff <-
    match dist_cutoff with
    | None =>
        seg_per_locus <-
          (if negb (Float.lt (Float.of_Z 0) seg_per_locus && Float.lt seg_per_locus (Float.of_Z 1))
           then LOGGER.warning (invalid_seg_per_locus seg_per_locus) ;; ret (fin (1 # 2))
           else ret seg_per_locus) ;;
        dist_cutoff <-
          lift (np_quantile (pd.select (map negb last_probe) dist)
                            (Float.sub (Float.of_Z 1) seg_per_locus)) ;;
        LOGGER.debug (segments_per_locus seg_per_locus) ;;
        ret dist_cutoff
    | Some given => ret given
    end ;;
  (if Float.le dist_cutoff (Float.of_Z 0)
   then LOGGER.warning cutoff_should_be_positive
   else ret tt) ;;
  LOGGER.debug (distance_cutoff dist_cutoff) ;;
  ret dist_cutoff.

(** Line 183. *)
Definition change_points (cpg_ranges : pd.labelled (grange * list float))
    (dist_cutoff : float) : list bool :=
  pd.zip_with orb
    (last_probe_in_chromosome cpg_ranges)
    (map (fun d => Float.gt d dist_cutoff) (beta_euclidian_dist cpg_ranges)).

(** Lines 186-187: the series of segment ids, labelled by probe. *)
Definition segment_id (cpg_ranges : pd.labelled (grange * list float))
    (dist_cutoff : float) : pd.labelled Z :=
  combine (pd.index cpg_ranges)
          (pd.cumsum (pd.shift true (change_points cpg_ranges dist_cutoff))).

(** Order of [sort_values('segment_id')]: missing ids last. *)
Definition segment_id_leb (a b : option Z) : bool :=
  match a, b with
  | Some x, Some y => x <=? y
  | Some _, None => true
  | None, Some _ => false
  | None, None => true
  end.

(** Lines 190-201: all the probes of the beta matrix with their segment;
    the probes that got none in the segmentation get new ids. *)
Definition segments (probe_coords_df : pd.labelled grange) (betas_index : list string)
    (segment_id : pd.labelled Z) : run (pd.labelled (grange * Z)) :=
  located <- lift (pd.loc probe_coords_df betas_index) ;;
  let segments :=
    pd.sort (fun r1 r2 => segment_id_leb (snd (snd r1)) (snd (snd r2)))
            (pd.join pd.left None located (map (fun r => (fst r, Some (snd r))) segment_id)) in
  let last_segment_id := pd.max (map snd segment_id) in
  LOGGER.info (number_of_segments last_segment_id) ;;
  let na_segments_indexes :=
    map (fun r => match snd (snd r) with None => true | Some _ => false end) segments in
  let nb_na_segments := pd.count_true na_segments_indexes in
  ids <-
    (if (0 <? nb_na_segments)%nat
     then
       LOGGER.info (adding_na_segments nb_na_segments) ;;
       filled <-
         lift (pd.assign na_segments_indexes
                 (map (fun n => Some (Z.of_nat n + last_segment_id + 1))
                      (seq 0 nb_na_segments))
                 (map (fun r => snd (snd r)) segments)) ;;
       lift (pd.astype_int filled)
     else lift (pd.astype_int (map (fun r => snd (snd r)) segments))) ;;
  ret (pd.zip_with (fun r id => (fst r, (fst (snd r), id))) segments ids).

(** [min] and [max] of a group of coordinates (a group is never empty). *)
Definition group_min (l : list Z) : Z :=
  match l with
  | [] => 0
  | x :: rest => fold_left Z.min rest x
  end.

(** The columns of the DMP table whose name starts with [estimate_]. *)
Definition estimate_columns (dmp : pd.DataFrame) : list (nat * string) :=
  filter (fun c => String.prefix "estimate_" (snd c))
         (combine (seq 0 (List.length (pd.columns dmp))) (pd.columns dmp)).

(** Lines 204-230: the statistics of each segment, on every row of it. *)
Definition aggregate (segments : pd.labelled (grange * Z)) (dmp : pd.DataFrame)
  : run dmr_table :=
  let dmr := pd.join pd.left (pd.na_row dmp) segments (pd.rows dmp) in
  let ids := map (fun r => snd (fst (snd r))) dmr in
  let segment_start := pd.transform group_min ids (map (fun r => Start (fst (fst (snd r)))) dmr) in
  let segment_end := pd.transform pd.max ids (map (fun r => End_ (fst (fst (snd r)))) dmr) in
  LOGGER.info combining_p_values ;;
  p_value <-
    match pd.position "p_value" (pd.columns dmp) with
    | Some i => ret (map (fun r => pd.cell i (snd (snd r))) dmr)
    | None => raise (KeyError ["p_value"])
    end ;;
  let segment_p_value := pd.transform combine_p_values_stouffer ids p_value in
  let nb_significant :=
    List.length (pd.drop_duplicates
      (pd.select (map (fun p => Float.lt p (fin (1 # 20))) segment_p_value) ids)) in
  LOGGER.info (significant_segments nb_significant) ;;
  let idxs := map Float.notna segment_p_value in
  adjusted <- lift (multipletests_fdr_bh (pd.select idxs segment_p_value)) ;;
  segment_p_value_adjusted <-
    lift (pd.assign idxs adjusted (map (fun _ => nan) dmr)) ;;
  let nb_significant :=
    List.length (pd.drop_duplicates
      (pd.select (map (fun p => Float.lt p (fin (1 # 20))) segment_p_value_adjusted) ids)) in
  LOGGER.info (significant_segments_adjusted nb_significant) ;;
  let segment_estimates :=
    map (fun c => pd.transform Float.mean_skipna ids
                    (map (fun r => pd.cell (fst c) (snd (snd r))) dmr))
        (estimate_columns dmp) in
  ret {| dmr_columns :=
           ["Chromosome"; "Start"; "End"; "segment_id"] ++ pd.columns dmp
           ++ ["segment_start"; "segment_end"; "segment_p_value"; "segment_p_value_adjusted"]
           ++ map (fun c => String.append "segment_" (snd c)) (estimate_columns dmp);
         dmr_rows :=
           map (fun i =>
                  let r := nth i dmr (EmptyString, (({| Chromosome := EmptyString; Start := 0;
                                                        End_ := 0; Strand := None |}, 0), [])) in
                  {| dmr_probe_id := fst r;
                     dmr_range := fst (fst (snd r));
                     dmr_segment_id := snd (fst (snd r));
                     dmr_dmp := snd (snd r);
                     dmr_segment_start := nth i segment_start 0;
                     dmr_segment_end := nth i segment_end 0;
                     dmr_segment_p_value := nth i segment_p_value nan;
                     dmr_segment_p_value_adjusted := nth i segment_p_value_adjusted nan;
                     dmr_segment_estimates := map (fun col => nth i col nan) segment_estimates |})
               (seq 0 (List.length dmr)) |}.

(** Lines 114-230. *)
Definition get_dmr (betas : pd.DataFrame) (annotation : Annotations) (dmp : pd.DataFrame)
    (dist_cutoff : option float) (seg_per_locus : float) : run dmr_table :=
  LOGGER.info start_get_dmr ;;
  match cpg_ids betas annotation with
  | [] =>
      LOGGER.error no_match_found ;;
      ret empty_table
  | _ :: _ =>
      let cpg_ranges := cpg_ranges betas annotation in
      dist_cutoff <-
        determine_cutoff dist_cutoff seg_per_locus
          (beta_euclidian_dist cpg_ranges) (last_probe_in_chromosome cpg_ranges) ;;
      segments <-
        segments (probe_coords_df annotation) (pd.index (pd.rows (betas_by_probe betas)))
                 (segment_id cpg_ranges dist_cutoff) ;;
      aggregate segments dmp
  end.

End get_dmr.

(** ** get_dmp (dm.py, lines 33-111) *)

(** [sample_sheet]: a table of sample metadata, one row per sample. *)
Record SampleSheet : Type := {
  sheet_columns : list string;
  sheet_rows : list (list string)
}.

(** [OLS(endog, exog, missing='drop').fit()]: what dm.py reads of the
    fitted model. The three series are indexed by the columns of the design
    matrix. *)
Record RegressionResults : Type := {
  f_pvalue : float;
  tvalues : string -> float;
  params : string -> float;
  bse : string -> float
}.

Module str.

(** [s.lower()] on the letters A-Z; the other characters do not become
    letters of "intercept". *)
Definition lower_char (c : ascii) : ascii :=
  let n := nat_of_ascii c in
  if (65 <=? n)%nat && (n <=? 90)%nat then ascii_of_nat (n + 32) else c.

Fixpoint lower (s : string) : string :=
  match s with
  | EmptyString => EmptyString
  | String c rest => String (lower_char c) (lower rest)
  end.

(** [sub in s] *)
Fixpoint contains (sub s : string) : bool :=
  String.prefix sub s ||
  match s with
  | EmptyString => false
  | String _ rest => contains sub rest
  end.

End str.

Section get_dmp.

(** [patsy.dmatrix(formula, data, return_type='dataframe')] *)
Variable dmatrix : string -> pd.labelled (list string) * list string -> outcome pd.DataFrame.

(** [OLS(endog, exog, missing='drop').fit()] *)
Variable OLS : list float -> pd.DataFrame -> outcome RegressionResults.

(** The order in which joblib's workers take the [n] tasks of a call. *)
Variable schedule : nat -> list nat.

(** Lines 33-50. *)
Definition get_model_parameters (betas_values : list float) (design_matrix : pd.DataFrame)
    (factor_names : list string) : run (list float) :=
  emit (OLS_fit betas_values) ;;
  fitted_ols <- lift (OLS betas_values design_matrix) ;;
  ret (fold_left
         (fun results factor =>
            results ++ [tvalues fitted_ols factor; params fitted_ols factor; bse fitted_ols factor])
         factor_names
         [f_pvalue fitted_ols]).

(** [sample_sheet.set_index('sample_name')]: the rows labelled by that
    column, and the other columns. *)
Definition set_index (name : string) (sheet : SampleSheet)
  : outcome (pd.labelled (list string) * list string) :=
  match pd.position name (sheet_columns sheet) with
  | None => Raise (KeyError [name])
  | Some i =>
      Return (map (fun r => (nth i r EmptyString, firstn i r ++ skipn (S i) r)) (sheet_rows sheet),
              firstn i (sheet_columns sheet) ++ skipn (S i) (sheet_columns sheet))
  end.

(** Line 102: the fits one after the other, in the order of the rows. *)
Fixpoint sequential {A B : Type} (f : A -> run B) (tasks : list A) : run (list B) :=
  match tasks with
  | [] => ret []
  | x :: rest =>
      y <- f x ;;
      ys <- sequential f rest ;;
      ret (y :: ys)
  end.

(** Line 107: [Parallel(n_jobs=-1)(delayed(f)(x) for x in tasks)]. The
    tasks are run in the order of the schedule; every result is kept with the
    position of its task, and the list returned has the results by position. *)
Fixpoint run_tasks {A B : Type} (f : A -> run B) (tasks : list A) (order : list nat)
  : run (list (nat * B)) :=
  match order with
  | [] => ret []
  | i :: rest =>
      match nth_error tasks i with
      | Some x =>
          y <- f x ;;
          completed <- run_tasks f tasks rest ;;
          ret ((i, y) :: completed)
      | None => run_tasks f tasks rest
      end
  end.

Definition collect {B : Type} (n : nat) (completed : list (nat * B)) : list B :=
  flat_map (fun i =>
              match find (fun c => Nat.eqb (fst c) i) completed with
              | Some c => [snd c]
              | None => []
              end)
           (seq 0 n).

Definition Parallel {A B : Type} (f : A -> run B) (tasks : list A) : run (list B) :=
  completed <- run_tasks f tasks (schedule (List.length tasks)) ;;
  ret (collect (List.length tasks) completed).

(** Line 93. *)
Definition factor_names (design_matrix : pd.DataFrame) : list string :=
  filter (fun f => negb (str.contains "intercept" (str.lower f))) (pd.columns design_matrix).

(** Lines 96-98. *)
Definition column_names (factor_names : list string) : list string :=
  fold_left
    (fun column_names factor =>
       column_names ++ [String.append "t_value_" factor;
                        String.append "estimate_" factor;
                        String.append "std_err_" factor])
    factor_names
    ["p_value"].

(** Line 111: [pd.DataFrame(data, index=index, columns=columns)]; the shape
    of the data has to be that of the index and the columns. *)
Definition DataFrame_of (data : list (list float)) (index columns : list string)
  : outcome pd.DataFrame :=
  if Nat.eqb (List.length data) (List.length index)
     && forallb (fun r => Nat.eqb (List.length r) (List.length columns)) data
  then Return {| pd.columns := columns; pd.rows := combine index data |}
  else Raise ValueError.

(** Lines 100-107: the two ways of fitting all the rows. *)
Definition fit_rows (betas : pd.DataFrame) (design_matrix : pd.DataFrame)
    (factor_names : list string) : run (list (list float)) :=
  if Z.of_nat (List.length (pd.rows betas)) <=? 10000
  then sequential (fun row => get_model_parameters (snd row) design_matrix factor_names)
                  (pd.rows betas)
  else Parallel (fun row => get_model_parameters (snd row) design_matrix factor_names)
                (pd.rows betas).

(** Lines 53-111. *)
Definition get_dmp (betas : pd.DataFrame) (formula : string) (sample_sheet : SampleSheet)
    (keep_na : bool) : run (option pd.DataFrame) :=
  LOGGER.info start_get_dmp ;;
  if negb (pd.mem "sample_name" (sheet_columns sample_sheet))
  then
    LOGGER.error sample_sheet_must_have_sample_name ;;
    ret None
  else
    let betas := if negb keep_na then pd.dropna betas else betas in
    let betas := set_level_as_index betas "probe_id" true in
    sample_info <- lift (set_index "sample_name" sample_sheet) ;;
    design_matrix <- lift (dmatrix formula sample_info) ;;
    let factor_names := factor_names design_matrix in
    let column_names := column_names factor_names in
    result_array <- fit_rows betas design_matrix factor_names ;;
    LOGGER.info get_dmp_done ;;
    df <- lift (DataFrame_of result_array (pd.index (pd.rows betas)) column_names) ;;
    ret (Some df).

End get_dmp.

(** A task with its result, when the fit returns one. *)
Definition returns {A B : Type} (fit : A -> run B) (x : A) (y : B) : Prop :=
  result (fit x) = Return y.

(** What the workers have completed after the tasks of [order], when the
    results of the tasks are [ys]. *)
Definition completed_of {B : Type} (ys : list B) (order : list nat) : list (nat * B) :=
  flat_map (fun i => match nth_error ys i with
                     | Some y => [(i, y)]
                     | None => []
                     end) order.

(** The statistics [get_model_parameters] reads from a fitted model. *)
Definition model_parameters (fitted_ols : RegressionResults) (factor_names : list string)
  : list float :=
  f_pvalue fitted_ols
  :: flat_map (fun factor => [tvalues fitted_ols factor; params fitted_ols factor;
                              bse fitted_ols factor])
              factor_names.

(** The columns of the DMP table, as the spec lists them: [p_value], then
    for every factor its t-value, estimate and standard error. *)
Definition dmp_columns (factors : list string) : list string :=
  "p_value"
  :: flat_map (fun factor => [String.append "t_value_" factor;
                              String.append "estimate_" factor;
                              String.append "std_err_" factor])
              factors.

(** The design-matrix columns that are factors, as the spec has them: those
    whose name does not contain "intercept", whatever the case. *)
Definition non_intercept (design_matrix : pd.DataFrame) : list string :=
  filter (fun c => negb (str.contains "intercept" (str.lower c))) (pd.columns design_matrix).

(** [s.isna()] on a segment id *)
Definition is_missing (id : option Z) : bool :=
  match id with
  | None => true
  | Some _ => false
  end.

(** The segment ids after lines 196-201, read in one pass: an id that is
    missing is replaced by the next new id. *)
Fixpoint fill_na (next : Z) (ids : list (option Z)) : list Z :=
  match ids with
  | [] => []
  | Some s :: rest => s :: fill_na next rest
  | None :: rest => next :: fill_na (next + 1) rest
  end.

(** Lines 204-215: the column [segment_p_value] of the segments joined with
    the DMP table; no column when the DMP table has no [p_value]. *)
Definition segment_p_values (combine_pvalues : list float -> float * float)
    (segments : pd.labelled (grange * Z)) (dmp : pd.DataFrame) : list float :=
  let dmr := pd.join pd.left (pd.na_row dmp) segments (pd.rows dmp) in
  let ids := map (fun r : string * (grange * Z * list float) => snd (fst (snd r))) dmr in
  match pd.position "p_value" (pd.columns dmp) with
  | Some i =>
      pd.transform (combine_p_values_stouffer combine_pvalues) ids
        (map (fun r : string * (grange * Z * list float) => pd.cell i (snd (snd r))) dmr)
  | None => []
  end.

(** The table of lines 204-230, from its columns. *)
Definition dmr_table_of (dmp : pd.DataFrame) (dmr : pd.labelled (grange * Z * list float))
    (segment_start segment_end : list Z) (segment_p_value segment_p_value_adjusted : list float)
    (segment_estimates : list (list float)) : dmr_table :=
  {| dmr_columns :=
       ["Chromosome"; "Start"; "End"; "segment_id"] ++ pd.columns dmp
       ++ ["segment_start"; "segment_end"; "segment_p_value"; "segment_p_value_adjusted"]
       ++ map (fun c => String.append "segment_" (snd c)) (estimate_columns dmp);
     dmr_rows :=
       map (fun i =>
              let r := nth i dmr (EmptyString, (({| Chromosome := EmptyString; Start := 0;
                                                    End_ := 0; Strand := None |}, 0), [])) in
              {| dmr_probe_id := fst r;
                 dmr_range := fst (fst (snd r));
                 dmr_segment_id := snd (fst (snd r));
                 dmr_dmp := snd (snd r);
                 dmr_segment_start := nth i segment_start 0;
                 dmr_segment_end := nth i segment_end 0;
                 dmr_segment_p_value := nth i segment_p_value nan;
                 dmr_segment_p_value_adjusted := nth i segment_p_value_adjusted nan;
                 dmr_segment_estimates := map (fun col => nth i col nan) segment_estimates |})
           (seq 0 (List.length dmr)) |}.

(** ** Instances of the library functions, for concrete runs *)

(** [np.quantile(a, q)] with numpy's default, linear interpolation between
    the two nearest order statistics; no quantile of an empty sample. *)
Definition quantile_linear (a : list float) (q : float) : outcome float :=
  match a with
  | [] => Raise IndexError
  | _ :: _ =>
      if forallb Float.notna a && Float.notna q
      then
        let values := pd.sort Qle_bool
                        (flat_map (fun x => match x with fin v => [v] | nan => [] end) a) in
        let h := match q with
                 | fin q => (inject_Z (Z.of_nat (List.length values) - 1) * q)%Q
                 | nan => 0%Q
                 end in
        let below := nth (Z.to_nat (Qfloor h)) values 0%Q in
        let above := nth (Z.to_nat (Qfloor h + 1)) values below in
        Return (fin (Qred (below + (h - inject_Z (Qfloor h)) * (above - below))))
      else Return nan
  end.

(** Stand-ins for scipy and statsmodels in concrete runs of [get_dmr]: the
    combined p-value of a segment is left undefined, or is the mean of the
    p-values of the segment, undefined when one of them is; the adjustment
    returns the p-values it is given, and raises when it is given none. *)
Definition combine_undefined (p_values : list float) : float * float := (nan, nan).

Definition combine_mean (p_values : list float) : float * float :=
  (nan, if forallb Float.notna p_values then Float.mean_skipna p_values else nan).

Definition adjust_nothing (pvals : list float) : outcome (list float) :=
  match pvals with
  | [] => Raise (LibraryError "ZeroDivisionError")
  | _ :: _ => Return pvals
  end.

(** A probe of the annotation, on the forward strand. *)
Definition probe (id chromosome : string) (start end_ : Z) : string * grange :=
  (id, {| Chromosome := chromosome; Start := start; End_ := end_; Strand := Some "+" |}).

(** A frame with the given sample columns. *)
Definition frame (columns : list string) (rows : pd.labelled (list float)) : pd.DataFrame :=
  {| pd.columns := columns; pd.rows := rows |}.

(** The float [n / d]. *)
Definition ratio (n d : Z) : float := fin (n # Z.to_pos d).

(** ** Concrete inputs

    Four probes of chromosome 1 at 100, 200, 300 and 400 and three samples;
    the beta values jump between the second and the third probe. A fifth
    probe has a range of width 0 and a missing beta value. *)

Definition example_annotation : Annotations :=
  {| genomic_ranges :=
       [probe "cg01" "chr1" 100 101; probe "cg02" "chr1" 200 201;
        probe "cg03" "chr1" 300 301; probe "cg04" "chr1" 400 401;
        probe "cg05" "chr1" 500 500] |}.

Definition example_betas : pd.DataFrame :=
  frame ["s1"; "s2"; "s3"]
        [("cg04", [ratio 9 10; ratio 9 10; ratio 8 10]);
         ("cg01", [ratio 1 10; ratio 1 10; ratio 1 10]);
         ("cg02", [ratio 1 10; ratio 2 10; ratio 1 10]);
         ("cg03", [ratio 9 10; ratio 9 10; ratio 9 10]);
         ("cg05", [ratio 9 10; nan; ratio 9 10])].

Definition example_dmp : pd.DataFrame :=
  frame ["p_value"; "t_value_age"; "estimate_age"; "std_err_age"]
        [("cg04", [ratio 1 100; ratio 3 1; ratio 1 50; ratio 1 150]);
         ("cg01", [ratio 1 10; ratio 2 1; ratio 1 100; ratio 1 200]);
         ("cg02", [ratio 1 5; ratio 1 1; ratio 1 100; ratio 1 100]);
         ("cg03", [ratio 1 100; ratio 3 1; ratio 1 50; ratio 1 150]);
         ("cg05", [nan; nan; nan; nan])].

Definition example_ranges : pd.labelled (grange * list float) :=
  cpg_ranges strip_suffix example_betas example_annotation.

(** Stand-ins for patsy, statsmodels and joblib in concrete runs of
    [get_dmp]: a design matrix with an intercept and one column for every
    metadata column, all entries 1; a fit that reports the same statistics
    for every probe; workers that take the tasks from the last to the first. *)
Definition dmatrix_of_columns (formula : string)
    (data : pd.labelled (list string) * list string) : outcome pd.DataFrame :=
  Return (frame ("Intercept" :: snd data)
                (map (fun r => (fst r, map (fun _ => ratio 1 1) ("Intercept" :: snd data)))
                     (fst data))).

Definition OLS_constant (endog : list float) (exog : pd.DataFrame)
  : outcome RegressionResults :=
  Return {| f_pvalue := ratio 1 100;
            tvalues := fun _ => ratio 3 1;
            params := fun _ => ratio 1 50;
            bse := fun _ => ratio 1 150 |}.

Definition last_task_first (n : nat) : list nat := rev (seq 0 n).

Definition example_sample_sheet : SampleSheet :=
  {| sheet_columns := ["sample_name"; "age"];
     sheet_rows := [["s1"; "20"]; ["s2"; "40"]; ["s3"; "60"]] |}.

(** The same sheet with its first column under another name. *)
Definition sheet_without_sample_name : SampleSheet :=
  {| sheet_columns := ["name"; "age"];
     sheet_rows := [["s1"; "20"]; ["s2"; "40"]; ["s3"; "60"]] |}.

(** A beta matrix of one probe, with annotations that do not match it: one
    of another probe (with a suffix), one of another probe of width 0, and
    one of the probe itself but of width 0. *)
Definition one_probe_betas : pd.DataFrame :=
  frame ["s1"] [("cg00000165", [ratio 1 2])].

Definition one_probe_dmp : pd.DataFrame :=
  frame ["p_value"] [("cg00000165", [ratio 1 10])].

Definition other_probe_annotation : Annotations :=
  {| genomic_ranges := [probe "cg00000029_TC21" "chr1" 100 101] |}.

Definition other_probe_of_width_0 : Annotations :=
  {| genomic_ranges := [probe "cg00000029_TC21" "chr1" 100 100] |}.


(** The design matrix [dmatrix_of_columns] returns for the example sheet. *)
Definition example_design_matrix : pd.DataFrame :=
  frame ["Intercept"; "age"]
        [("s1", [ratio 1 1; ratio 1 1]); ("s2", [ratio 1 1; ratio 1 1]); ("s3", [ratio 1 1; ratio 1 1])].

(** The run of [get_dmr] on the example, with the median distance as the
    cutoff. *)
Definition example_run : run dmr_table :=
  get_dmr strip_suffix quantile_linear combine_mean adjust_nothing
          example_betas example_annotation example_dmp None (ratio 1 2).

(** The example DMP table without its first column. *)
Definition dmp_without_p_value : pd.DataFrame := pd.drop ["p_value"] example_dmp.

(** A fit that fails for the probes with a missing beta value. *)
Definition OLS_complete (endog : list float) (exog : pd.DataFrame)
  : outcome RegressionResults :=
  if forallb Float.notna endog then OLS_constant endog exog
  else Raise (LibraryError "MissingDataError").

(** * Python runs: a trace of log records and an answer *)

Module py.

Inductive error : Type :=
| AttributeError
| KeyError
| ValueError
| TypeError
| OtherError (what : string).

Inductive answer (A : Type) : Type :=
| Returns (a : A)
| Raises (e : error).

Arguments Returns {A} a.
Arguments Raises {A} e.

(** A run that logs messages of the type [M]. *)
Definition prog (M A : Type) : Type := (list (level * M) * answer A)%type.

Definition ret {M A : Type} (a : A) : prog M A := ([], Returns a).

Definition raise {M A : Type} (e : error) : prog M A := ([], Raises e).

Definition bind {M A B : Type} (m : prog M A) (k : A -> prog M B) : prog M B :=
  match m with
  | (t, Returns a) => let (t', r) := k a in (t ++ t', r)
  | (t, Raises e) => (t, Raises e)
  end.

Definition log {M : Type} (lvl : level) (m : M) : prog M unit := ([(lvl, m)], Returns tt).

Definition lift {M A : Type} (o : answer A) : prog M A := ([], o).

Definition trace {M A : Type} (m : prog M A) : list (level * M) := fst m.

Definition result {M A : Type} (m : prog M A) : answer A := snd m.

(** ** A Python dict: the keys in the order of their first insertion *)

Section dict.

Context {K V : Type} (eqb : K -> K -> bool).

(** [d.get(k)] *)
Fixpoint getitem (k : K) (d : list (K * V)) : option V :=
  match d with
  | [] => None
  | (k', v) :: d' => if eqb k' k then Some v else getitem k d'
  end.

(** [d[k] = v] *)
Fixpoint setitem (k : K) (v : V) (d : list (K * V)) : list (K * V) :=
  match d with
  | [] => [(k, v)]
  | (k', v') :: d' => if eqb k' k then (k, v) :: d' else (k', v') :: setitem k v d'
  end.

End dict.

End py.

Declare Scope prog_scope.
Delimit Scope prog_scope with prog.

Notation "x <- m ;; k" := (py.bind m (fun x => k))
  (at level 61, m at next level, right associativity) : prog_scope.
Notation "m ;; k" := (py.bind m (fun _ => k))
  (at level 61, right associativity) : prog_scope.

(** * sample.py: samples read from idat files

    [Samples.read_samples], [Samples.drop_optional_cols], [Sample.set_idata],
    [Sample.drop_optional_cols] and [Sample.get_betas] of [src/sample.py]. A method is a function of
    [self] that returns the object as the method leaves it, or what the
    method returns when it leaves the object as it is. The classes
    [Channel], [IdatDataset] and [Annotations] and the search of the file
    system are variables of the section. *)

Module sample_py.

Local Open Scope prog_scope.

(** The messages of the methods modelled here, with the values their
    f-strings print. *)
Inductive message : Type :=
| start_reading (datadir : string)
| no_paths_found (pattern : string)
| too_many_files (pattern : string) (paths : list string)
| reading_file (path : string)
| reading_done
| run_merge_manifest_info_first
| missing_required_cols (missing_cols : list string).

Local Abbreviation prog := (py.prog message).

Module LOGGER.
Definition info (m : message) : py.prog message unit := py.log INFO m.
Definition warning (m : message) : py.prog message unit := py.log WARNING m.
Definition error (m : message) : py.prog message unit := py.log ERROR m.
End LOGGER.

(** ** Floats of [get_betas]

    Exact, as the floats of [dm.py]: the statements about [get_betas] are
    about the probes that get a beta value, not about the values. *)

(** [a + b] *)
Definition add (a b : float) : float :=
  match a, b with
  | fin x, fin y => fin (x + y)
  | _, _ => nan
  end.

(** [a.clip(lower=l)]: a missing value stays missing *)
Definition clip (lower : Q) (a : float) : float :=
  match a with
  | fin x => if Qle_bool lower x then fin x else fin lower
  | nan => nan
  end.

(** [a / b]; a quotient by 0, which is infinite or undefined for numpy, is
    not a value of the model: [get_betas] divides by numbers clipped to 2. *)
Definition div (a b : float) : float :=
  match a, b with
  | fin x, fin y => if Qeq_bool y 0 then nan else fin (x / y)
  | _, _ => nan
  end.

(** [a.fillna(v)] *)
Definition fillna (v : Q) (a : float) : float :=
  match a with
  | fin x => fin x
  | nan => fin v
  end.

(** ** The table [Sample.df]

    [get_betas] reads four columns of [self.df]; a row of the model has these
    four, with the types [merge_manifest_info] gives them. *)
Record signal : Type := {
  probe_id : string;
  signal_channel : string;
  methylation_state : string;
  mean_value : float
}.

(** The column of the pivoted table that a row goes to. *)
Definition column_of (s : signal) : string * string :=
  (signal_channel s, methylation_state s).

Definition column_eqb (a b : string * string) : bool :=
  String.eqb (fst a) (fst b) && String.eqb (snd a) (snd b).

Definition column_leb (a b : string * string) : bool :=
  if String.eqb (fst a) (fst b) then String.leb (snd a) (snd b)
  else String.leb (fst a) (fst b).

Definition column_dec (a b : string * string) : {a = b} + {a <> b}.
Proof. decide equality; apply string_dec. Defined.

(** Two rows for the same cell of the pivoted table. *)
Definition same_entry (a b : signal) : bool :=
  String.eqb (probe_id a) (probe_id b) && column_eqb (column_of a) (column_of b).

Fixpoint has_duplicates (df : list signal) : bool :=
  match df with
  | [] => false
  | s :: df' => existsb (same_entry s) df' || has_duplicates df'
  end.

(** The pivoted table: a row per probe, a value per column. *)
Record pivot_table : Type := {
  pivot_columns : list (string * string);
  pivot_rows : pd.labelled (list float)
}.

(** The value of a cell of the pivoted table: missing when [df] has no row
    for it. *)
Definition value_at (df : list signal) (probe : string) (column : string * string) : float :=
  match filter (fun s => String.eqb (probe_id s) probe
                         && column_eqb (column_of s) column) df with
  | s :: _ => mean_value s
  | [] => nan
  end.

(** [df.pivot(values='mean_value', columns=['signal_channel',
    'methylation_state'], index='probe_id')]: the probes and the pairs of
    channel and state that occur in [df], each once and sorted; two rows for
    one cell raise [ValueError]. *)
Definition pivot (df : list signal) : py.answer pivot_table :=
  if has_duplicates df then py.Raises py.ValueError
  else
    let index := pd.sort String.leb (nodup string_dec (map probe_id df)) in
    let columns := pd.sort column_leb (nodup column_dec (map column_of df)) in
    py.Returns {| pivot_columns := columns;
               pivot_rows := map (fun p => (p, map (value_at df p) columns)) index |}.

(** [pivoted.fillna(v)] *)
Definition pivot_fillna (v : Q) (t : pivot_table) : pivot_table :=
  {| pivot_columns := pivot_columns t;
     pivot_rows := map (fun r => (fst r, map (fillna v) (snd r))) (pivot_rows t) |}.

Fixpoint column_position (key : string * string) (columns : list (string * string))
  : option nat :=
  match columns with
  | [] => None
  | c :: rest => if column_eqb c key then Some O
                 else option_map S (column_position key rest)
  end.

(** [pivoted[channel, state]]: [KeyError] when the table has no such column *)
Definition pivot_column (t : pivot_table) (key : string * string) : py.answer (list float) :=
  match column_position key (pivot_columns t) with
  | Some i => py.Returns (map (fun r => nth i (snd r) nan) (pivot_rows t))
  | None => py.Raises py.KeyError
  end.

(** Lines 106 to 111 of [get_betas]: the column ['beta'] that is added to the
    pivoted table, with the probe of each row. *)
Definition beta (df : list signal) : prog (pd.labelled float) :=
  pivoted <- py.lift (pivot df) ;;
  let pivoted := pivot_fillna 0 pivoted in
  red_m <- py.lift (pivot_column pivoted ("R", "M")) ;;
  green_m <- py.lift (pivot_column pivoted ("G", "M")) ;;
  let methylated_signal := pd.zip_with add red_m green_m in
  red_u <- py.lift (pivot_column pivoted ("R", "U")) ;;
  green_u <- py.lift (pivot_column pivoted ("G", "U")) ;;
  let unmethylated_signal := pd.zip_with add red_u green_u in
  py.ret (combine (pd.index (pivot_rows pivoted))
         (pd.zip_with div
            (map (clip 1) methylated_signal)
            (map (clip 2) (pd.zip_with add methylated_signal unmethylated_signal)))).

(** ** The table [Sample.full_df]

    [drop_optional_cols] selects columns by their names and reads no value:
    the types of the labels and of the values are variables. *)

Section DataFrame.

Variables Label Cell : Type.

Record DataFrame : Type := {
  columns : list string;
  rows : list (Label * list Cell)
}.

(** The positions, from [i] on, of the columns called [name]. *)
Fixpoint positions (name : string) (cols : list string) (i : nat) : list nat :=
  match cols with
  | [] => []
  | c :: rest =>
      if String.eqb c name then i :: positions name rest (S i)
      else positions name rest (S i)
  end.

(** The entries of [l] at the positions [ps], in the order of [ps]. *)
Definition take {A : Type} (ps : list nat) (l : list A) : list A :=
  flat_map (fun i => match nth_error l i with Some x => [x] | None => [] end) ps.

(** [df[names]] for names that are all columns of [df]: for each name, in
    order, the columns called so. *)
Definition DataFrame_getitem (names : list string) (df : DataFrame) : DataFrame :=
  let ps := flat_map (fun name => positions name (columns df) 0) names in
  {| columns := take ps (columns df);
     rows := map (fun r => (fst r, take ps (snd r))) (rows df) |}.

(** [row[name]] for the first column called [name] *)
Definition cell (cols : list string) (row : Label * list Cell) (name : string)
  : option Cell :=
  match pd.position name cols with
  | Some i => nth_error (snd row) i
  | None => None
  end.

End DataFrame.

Arguments columns {Label Cell} d.
Arguments rows {Label Cell} d.
Arguments DataFrame_getitem {Label Cell} names df.
Arguments cell {Label Cell} cols row name.

Definition required_cols : list string :=
  ["probe_id"; "type"; "probe_type"; "manifest_channel"; "signal_channel";
   "methylation_state"; "ib_or_oob"; "mean_value"].

(** ** The classes [Sample] and [Samples] *)

Section Samples.

Variable Channel : Type.
(** [for channel in Channel] *)
Variable channels : list Channel.
Variable Channel_eqb : Channel -> Channel -> bool.
(** [f'{channel}'] *)
Variable format_channel : Channel -> string.

Variable IdatDataset : Type.
(** [IdatDataset(path)] *)
Variable read_idat : string -> py.answer IdatDataset.

(** [[p.__str__() for p in Path(datadir).rglob(pattern)]] *)
Variable rglob : string -> string -> list string.

Variable Annotations : Type.
Variables Label Cell : Type.

Record Sample : Type := {
  idata : list (Channel * IdatDataset);
  df : option (list signal);
  full_df : option (DataFrame Label Cell)
}.

(** [Sample()] *)
Definition new_Sample : Sample := {| idata := []; df := None; full_df := None |}.

Definition set_idata (self : Sample) (channel : Channel) (dataset : IdatDataset) : Sample :=
  {| idata := py.setitem Channel_eqb channel dataset (idata self);
     df := df self;
     full_df := full_df self |}.

(** A line of the sample sheet, its fields as f-strings print them; the sheet
    is taken to have these three columns. *)
Record sheet_line : Type := {
  sentrix_id : string;
  sentrix_position : string;
  sample_name : string
}.

Record Samples : Type := {
  annotation : Annotations;
  sheet : list sheet_line;
  samples : list (string * Sample)
}.

(** [f'*{line.sentrix_id}*{line.sentrix_position}*{channel}*.idat'] *)
Definition pattern_of (line : sheet_line) (channel : Channel) : string :=
  String.append "*" (String.append (sentrix_id line)
    (String.append "*" (String.append (sentrix_position line)
      (String.append "*" (String.append (format_channel channel) "*.idat"))))).

(** The loop over the channels, lines 26 to 36. *)
Fixpoint read_channels (datadir : string) (line : sheet_line) (todo : list Channel)
    (sample : Sample) : prog Sample :=
  match todo with
  | [] => py.ret sample
  | channel :: todo' =>
      let pattern := pattern_of line channel in
      let paths := rglob datadir pattern in
      match paths with
      | [] =>
          LOGGER.error (no_paths_found pattern) ;;
          read_channels datadir line todo' sample
      | [path] =>
          LOGGER.info (reading_file path) ;;
          dataset <- py.lift (read_idat path) ;;
          read_channels datadir line todo' (set_idata sample channel dataset)
      | _ :: _ :: _ =>
          LOGGER.error (too_many_files pattern paths) ;;
          read_channels datadir line todo' sample
      end
  end.

(** [max_samples is not None and len(self.samples) == max_samples] *)
Definition limit_reached (max_samples : option Z) (samples : list (string * Sample)) : bool :=
  match max_samples with
  | Some n => Z.of_nat (List.length samples) =? n
  | None => false
  end.

(** The loop over the lines of the sheet, lines 24 to 39. *)
Fixpoint read_lines (datadir : string) (max_samples : option Z) (lines : list sheet_line)
    (samples : list (string * Sample)) : prog (list (string * Sample)) :=
  match lines with
  | [] => py.ret samples
  | line :: lines' =>
      sample <- read_channels datadir line channels new_Sample ;;
      let samples := py.setitem String.eqb (sample_name line) sample samples in
      if limit_reached max_samples samples then py.ret samples
      else read_lines datadir max_samples lines' samples
  end.

(** [Samples.read_samples] *)
Definition read_samples (self : Samples) (datadir : string) (max_samples : option Z)
  : prog Samples :=
  LOGGER.info (start_reading datadir) ;;
  samples <- read_lines datadir max_samples (sheet self) (samples self) ;;
  LOGGER.info reading_done ;;
  py.ret {| annotation := annotation self; sheet := sheet self; samples := samples |}.

(** [Sample.drop_optional_cols]: the table it returns, or [None] *)
Definition drop_optional_cols (self : Sample) : prog (option (DataFrame Label Cell)) :=
  match full_df self with
  | None =>
      LOGGER.warning run_merge_manifest_info_first ;;
      py.ret None
  | Some full =>
      let missing_cols := filter (fun c => negb (pd.mem c (columns full))) required_cols in
      if (0 <? List.length missing_cols)%nat then
        LOGGER.warning (missing_required_cols missing_cols) ;;
        py.ret None
      else py.ret (Some (DataFrame_getitem required_cols full))
  end.

(** [Samples.drop_optional_cols]: the tables that [Sample.drop_optional_cols]
    returns are dropped. *)
Fixpoint drop_each (values : list Sample) : prog unit :=
  match values with
  | [] => py.ret tt
  | sample :: values' =>
      drop_optional_cols sample ;;
      drop_each values'
  end.

Definition Samples_drop_optional_cols (self : Samples) : prog Samples :=
  drop_each (map snd (samples self)) ;;
  py.ret self.

(** [Sample.get_betas]: the betas are computed and dropped with the pivoted
    table; the method returns nothing. *)
Definition get_betas (self : Sample) : prog unit :=
  match df self with
  | None => py.raise py.AttributeError
  | Some rows =>
      beta rows ;;
      py.ret tt
  end.

End Samples.

Arguments idata {Channel IdatDataset Label Cell} s.
Arguments df {Channel IdatDataset Label Cell} s.
Arguments full_df {Channel IdatDataset Label Cell} s.
Arguments annotation {Channel IdatDataset Annotations Label Cell} s.
Arguments sheet {Channel IdatDataset Annotations Label Cell} s.
Arguments samples {Channel IdatDataset Annotations Label Cell} s.
Arguments drop_optional_cols {Channel IdatDataset Label Cell} self.
Arguments get_betas {Channel IdatDataset Label Cell} self.
Arguments drop_each {Channel IdatDataset Label Cell} values.
Arguments Samples_drop_optional_cols {Channel IdatDataset Annotations Label Cell} self.

End sample_py.

(** * pylluminator/samples.py: the collection of samples

    [read_samples] and the methods that [Samples.__getattr__] builds, of
    [src/pylluminator/samples.py]. The class [Sample], the sample sheets, the
    idat files and the search of the file system are outside this file: they
    are variables of the section, and what they log is not in the trace. *)

Module samples_py.

Local Open Scope prog_scope.

Inductive message : Type :=
| start_method (method_name : string)
| concatenating_betas
| done_with (method_name : string)
| undefined_attribute (method_name : string)
| start_reading (datadir : string)
| both_sheet_parameters
| creating_sample_sheet
| no_paths_found (pattern : string)
| too_many_files (pattern : string) (paths : list string)
| reading_file (path : string)
| no_idat_files (sample_name : string)
| reading_done.

Local Abbreviation prog := (py.prog message).

Module LOGGER.
Definition debug (m : message) : py.prog message unit := py.log DEBUG m.
Definition info (m : message) : py.prog message unit := py.log INFO m.
Definition error (m : message) : py.prog message unit := py.log ERROR m.
End LOGGER.

Definition supported_functions : list string :=
  ["dye_bias_correction"; "dye_bias_correction_nl"; "noob_background_correction";
   "scrub_background_correction"; "poobah"; "infer_type1_channel"; "apply_quality_mask";
   "apply_non_unique_mask"; "apply_xy_mask"; "merge_annotation_info"; "calculate_betas"].

(** A line of the sample sheet, its fields as f-strings print them; the sheet
    is taken to have these four columns. *)
Record sheet_line : Type := {
  sample_name : string;
  sample_id : string;
  sentrix_id : string;
  sentrix_position : string
}.

Section Samples.

Variable Channel : Type.
(** [for channel in Channel] *)
Variable channels : list Channel.
(** [f'{channel}'] *)
Variable format_channel : Channel -> string.

Variable IdatDataset : Type.
(** [IdatDataset(path)] *)
Variable read_idat : string -> py.answer IdatDataset.

(** The class [Sample] of [pylluminator.sample]. *)
Variable Sample : Type.
(** [Sample(name)] *)
Variable new_Sample : string -> py.answer Sample.
(** [sample.set_idata(channel, dataset)]: the sample as the call leaves it *)
Variable set_idata : Sample -> Channel -> IdatDataset -> py.answer Sample.
(** [sample.idata is None] *)
Variable idata_is_None : Sample -> bool.
(** [getattr(Sample, name)]: [None] when the class has no such attribute,
    else whether the attribute is callable *)
Variable Sample_attribute : string -> option bool.
(** The arguments of a call, positional and by keyword. *)
Variable Args : Type.
(** [getattr(sample, method_name)] called with the arguments: the sample as
    the call leaves it *)
Variable call : string -> Args -> Sample -> py.answer Sample.
(** [sample.betas(False)] *)
Variable Series : Type.
Variable Sample_betas : Sample -> py.answer Series.
(** [pd.concat(..., axis=1)] *)
Variable Frame : Type.
Variable concat : list Series -> py.answer Frame.

Variable Annotations : Type.
(** The arguments [(annotation, min_beads, keep_idat)] *)
Variable merge_args : Annotations -> Z -> bool -> Args.

(** The directory as given, and as a path. *)
Variables Datadir Path : Type.
Variable convert_to_path : Datadir -> Path.
(** [f'{datadir}'] *)
Variable format_path : Path -> string.
(** [[str(p) for p in get_files_matching(datadir, pattern)]] *)
Variable get_files_matching : Path -> string -> list string.

(** The sample sheet: a data frame, of which [read_samples] reads the lines. *)
Variable Sheet : Type.
Variable iterrows : Sheet -> list sheet_line.
(** [sample_sheet.create_from_idats(datadir)[0]] *)
Variable create_from_idats : Path -> py.answer (option Sheet).
(** [sample_sheet.read_from_file(filepath)] *)
Variable read_from_file : string -> py.answer (option Sheet).

(** An attribute that [__init__] does not set has no value until it is
    assigned: [_betas_df] is [None] here, and [Some None] once it is set to
    Python's [None]. *)
Record Samples : Type := {
  annotation : option Annotations;
  sample_sheet : option Sheet;
  samples : list (string * Sample);
  _betas_df : option (option Frame)
}.

(** [Samples(sample_sheet_df)] *)
Definition new_Samples (sample_sheet_df : option Sheet) : Samples :=
  {| annotation := None; sample_sheet := sample_sheet_df; samples := [];
     _betas_df := None |}.

(** [self.samples = d], [self.annotation = a], [self._betas_df = b] *)
Definition set_samples (self : Samples) (d : list (string * Sample)) : Samples :=
  {| annotation := annotation self; sample_sheet := sample_sheet self;
     samples := d; _betas_df := _betas_df self |}.

Definition set_annotation (self : Samples) (a : Annotations) : Samples :=
  {| annotation := Some a; sample_sheet := sample_sheet self;
     samples := samples self; _betas_df := _betas_df self |}.

Definition set_betas_df (self : Samples) (b : option Frame) : Samples :=
  {| annotation := annotation self; sample_sheet := sample_sheet self;
     samples := samples self; _betas_df := Some b |}.

(** [[f(sample) for sample in self.samples.values()]], where [f] changes its
    sample: the dict with the samples as the calls leave them *)
Fixpoint for_each_sample (f : Sample -> py.answer Sample) (d : list (string * Sample))
  : py.answer (list (string * Sample)) :=
  match d with
  | [] => py.Returns []
  | (name, sample) :: d' =>
      match f sample with
      | py.Returns sample' =>
          match for_each_sample f d' with
          | py.Returns d'' => py.Returns ((name, sample') :: d'')
          | py.Raises e => py.Raises e
          end
      | py.Raises e => py.Raises e
      end
  end.

(** [[f(sample) for sample in self.samples.values()]] for an [f] that reads *)
Fixpoint collect_samples {A : Type} (f : Sample -> py.answer A) (d : list (string * Sample))
  : py.answer (list A) :=
  match d with
  | [] => py.Returns []
  | (_, sample) :: d' =>
      match f sample with
      | py.Returns a =>
          match collect_samples f d' with
          | py.Returns l => py.Returns (a :: l)
          | py.Raises e => py.Raises e
          end
      | py.Raises e => py.Raises e
      end
  end.

(** The function [method] that [__getattr__] builds for [method_name]. *)
Definition method (self : Samples) (method_name : string) (args : Args) : prog Samples :=
  LOGGER.info (start_method method_name) ;;
  samples' <- py.lift (for_each_sample (call method_name args) (samples self)) ;;
  let self := set_samples self samples' in
  self <- (if String.eqb method_name "calculate_betas" then
             LOGGER.info concatenating_betas ;;
             betas <- py.lift (collect_samples Sample_betas (samples self)) ;;
             betas_df <- py.lift (concat betas) ;;
             py.ret (set_betas_df self (Some betas_df))
           else if negb (pd.mem method_name
                           ["apply_quality_mask"; "apply_non_unique_mask"; "apply_xy_mask"])
           then py.ret (set_betas_df self None)
           else py.ret self) ;;
  LOGGER.info (done_with method_name) ;;
  py.ret self.

(** [Samples.__getattr__]: the method, or [None] after an error record; the
    method is given here by its name, and [signature] is taken to return. *)
Definition __getattr__ (self : Samples) (method_name : string) : prog (option string) :=
  match Sample_attribute method_name with
  | None => py.raise py.AttributeError
  | Some callable =>
      if callable && pd.mem method_name supported_functions then py.ret (Some method_name)
      else
        LOGGER.error (undefined_attribute method_name) ;;
        py.ret None
  end.

(** [self.name(args)] for a name that is no attribute of the object or of its
    class: [__getattr__] gives the function that is called, and calling
    [None] raises [TypeError]. *)
Definition call_attribute (self : Samples) (name : string) (args : Args) : prog Samples :=
  found <- __getattr__ self name ;;
  match found with
  | Some method_name => method self method_name args
  | None => py.raise py.TypeError
  end.

(** [f'*{line.sample_id}*{channel}*.idat*'] *)
Definition sample_id_pattern (line : sheet_line) (channel : Channel) : string :=
  String.append "*" (String.append (sample_id line)
    (String.append "*" (String.append (format_channel channel) "*.idat*"))).

(** [f'*{line.sentrix_id}*{line.sentrix_position}*{channel}*.idat*'] *)
Definition sentrix_pattern (line : sheet_line) (channel : Channel) : string :=
  String.append "*" (String.append (sentrix_id line)
    (String.append "*" (String.append (sentrix_position line)
      (String.append "*" (String.append (format_channel channel) "*.idat*"))))).

(** Lines 215 to 220: the pattern and the paths with which the channel goes
    on. *)
Definition find_paths (datadir : Path) (line : sheet_line) (channel : Channel)
  : string * list string :=
  let pattern := sample_id_pattern line channel in
  let paths := get_files_matching datadir pattern in
  if (List.length paths =? 0)%nat then
    if negb (String.eqb (sentrix_id line) EmptyString)
       && negb (String.eqb (sentrix_position line) EmptyString)
    then
      let pattern := sentrix_pattern line channel in
      (pattern, get_files_matching datadir pattern)
    else (pattern, paths)
  else (pattern, paths).

(** The loop over the channels, lines 214 to 230. *)
Fixpoint read_channels (datadir : Path) (line : sheet_line) (todo : list Channel)
    (sample : Sample) : prog Sample :=
  match todo with
  | [] => py.ret sample
  | channel :: todo' =>
      let (pattern, paths) := find_paths datadir line channel in
      match paths with
      | [] =>
          LOGGER.error (no_paths_found pattern) ;;
          read_channels datadir line todo' sample
      | [path] =>
          LOGGER.debug (reading_file path) ;;
          dataset <- py.lift (read_idat path) ;;
          sample <- py.lift (set_idata sample channel dataset) ;;
          read_channels datadir line todo' sample
      | _ :: _ :: _ =>
          LOGGER.error (too_many_files pattern paths) ;;
          read_channels datadir line todo' sample
      end
  end.

(** [max_samples is not None and len(samples_dict) == max_samples] *)
Definition limit_reached (max_samples : option Z) (samples_dict : list (string * Sample))
  : bool :=
  match max_samples with
  | Some n => Z.of_nat (List.length samples_dict) =? n
  | None => false
  end.

(** The loop over the lines of the sheet, lines 209 to 241. *)
Fixpoint read_lines (datadir : Path) (max_samples : option Z) (lines : list sheet_line)
    (samples_dict : list (string * Sample)) : prog (list (string * Sample)) :=
  match lines with
  | [] => py.ret samples_dict
  | line :: lines' =>
      sample <- py.lift (new_Sample (sample_name line)) ;;
      sample <- read_channels datadir line channels sample ;;
      if idata_is_None sample then
        LOGGER.error (no_idat_files (sample_name line)) ;;
        read_lines datadir max_samples lines' samples_dict
      else
        let samples_dict := py.setitem String.eqb (sample_name line) sample samples_dict in
        if limit_reached max_samples samples_dict then py.ret samples_dict
        else read_lines datadir max_samples lines' samples_dict
  end.

(** [read_samples] *)
Definition read_samples (datadir : Datadir) (sample_sheet_df : option Sheet)
    (sample_sheet_name : option string) (annotation : option Annotations)
    (max_samples : option Z) (min_beads : Z) (keep_idat : bool) : prog (option Samples) :=
  let datadir := convert_to_path datadir in
  LOGGER.info (start_reading (format_path datadir)) ;;
  match sample_sheet_df, sample_sheet_name with
  | Some _, Some _ =>
      LOGGER.error both_sheet_parameters ;;
      py.ret None
  | _, _ =>
      sample_sheet_df <-
        match sample_sheet_df, sample_sheet_name with
        | None, None =>
            LOGGER.debug creating_sample_sheet ;;
            py.lift (create_from_idats datadir)
        | _, Some name =>
            py.lift (read_from_file
                       (String.append (format_path datadir) (String.append "/" name)))
        | Some df, None => py.ret (Some df)
        end ;;
      match sample_sheet_df with
      | None => py.ret None
      | Some sheet =>
          samples_dict <- read_lines datadir max_samples (iterrows sheet) [] ;;
          let samples := new_Samples (Some sheet) in
          let samples := set_samples samples samples_dict in
          samples <-
            match annotation with
            | Some a =>
                let samples := set_annotation samples a in
                call_attribute samples "merge_annotation_info"
                  (merge_args a min_beads keep_idat)
            | None => py.ret samples
            end ;;
          LOGGER.info reading_done ;;
          py.ret (Some samples)
      end
  end.

End Samples.

Arguments annotation {Sample Frame Annotations Sheet} s.
Arguments sample_sheet {Sample Frame Annotations Sheet} s.
Arguments samples {Sample Frame Annotations Sheet} s.
Arguments _betas_df {Sample Frame Annotations Sheet} s.
Arguments new_Samples {Sample Frame Annotations Sheet} sample_sheet_df.
Arguments set_samples {Sample Frame Annotations Sheet} self d.
Arguments set_annotation {Sample Frame Annotations Sheet} self a.
Arguments set_betas_df {Sample Frame Annotations Sheet} self b.
Arguments for_each_sample {Sample} f d.
Arguments collect_samples {Sample A} f d.

End samples_py.

(** ** Definitions for the statements about sample.py *)

(** No limit that [read_samples] can reach: [max_samples] is [None], or is
    not positive. *)
Definition no_limit (max_samples : option Z) : Prop :=
  match max_samples with
  | Some n => n <= 0
  | None => True
  end.

(** The probes and the columns of the pivoted table, and the value of a cell
    after [fillna(0)]. *)
Definition pivot_probes (df : list sample_py.signal) : list string :=
  pd.sort String.leb (nodup string_dec (map sample_py.probe_id df)).

Definition pivot_keys (df : list sample_py.signal) : list (string * string) :=
  pd.sort sample_py.column_leb (nodup sample_py.column_dec (map sample_py.column_of df)).

Definition filled (df : list sample_py.signal) (probe : string) (key : string * string)
  : float :=
  sample_py.fillna 0 (sample_py.value_at df probe key).

Definition filled_table (df : list sample_py.signal) : sample_py.pivot_table :=
  sample_py.pivot_fillna 0
    {| sample_py.pivot_columns := pivot_keys df;
       sample_py.pivot_rows :=
         map (fun p => (p, map (sample_py.value_at df p) (pivot_keys df))) (pivot_probes df) |}.

(** The beta of a probe, from its four signals. *)
Definition beta_of (df : list sample_py.signal) (p : string) : float :=
  let methylated := sample_py.add (filled df p ("R", "M")) (filled df p ("G", "M")) in
  let unmethylated := sample_py.add (filled df p ("R", "U")) (filled df p ("G", "U")) in
  sample_py.div (sample_py.clip 1 methylated)
    (sample_py.clip 2 (sample_py.add methylated unmethylated)).

Definition four_signals (df : list sample_py.signal) : Prop :=
  forall channel state, In channel ["R"; "G"] -> In state ["M"; "U"] ->
    exists s, In s df /\ sample_py.signal_channel s = channel
              /\ sample_py.methylation_state s = state.

(** ** Instances for sample.py and samples.py, for concrete runs *)

Inductive two_channels : Type := Red | Grn.

Definition two_channels_eqb (a b : two_channels) : bool :=
  match a, b with
  | Red, Red | Grn, Grn => true
  | _, _ => false
  end.

Definition channel_name (c : two_channels) : string :=
  match c with Red => "Red" | Grn => "Grn" end.

(** A directory with one red file and two green files for the first position
    of the array, and no file for the second. *)
Definition example_rglob (datadir pattern : string) : list string :=
  if String.eqb pattern "*2071*R01C01*Red*.idat" then ["2071_R01C01_Red.idat"]
  else if String.eqb pattern "*2071*R01C01*Grn*.idat" then
    ["2071_R01C01_Grn.idat"; "old/2071_R01C01_Grn.idat"]
  else [].

(** Idat data, for the examples: the length of the path of the file. *)
Definition example_read_idat (path : string) : py.answer nat :=
  py.Returns (String.length path).

Definition example_lines : list sample_py.sheet_line :=
  [ {| sample_py.sentrix_id := "2071"; sample_py.sentrix_position := "R01C01";
       sample_py.sample_name := "tumour" |};
    {| sample_py.sentrix_id := "2071"; sample_py.sentrix_position := "R02C01";
       sample_py.sample_name := "normal" |} ].

Definition no_samples : sample_py.Samples two_channels nat unit string string :=
  {| sample_py.annotation := tt; sample_py.sheet := example_lines; sample_py.samples := [] |}.

Definition example_read_samples (max_samples : option Z)
  : py.prog sample_py.message (sample_py.Samples two_channels nat unit string string) :=
  sample_py.read_samples two_channels [Red; Grn] two_channels_eqb channel_name nat
    example_read_idat example_rglob unit string string no_samples "data" max_samples.

(** A full table of one row, with two columns that are not required. *)
Definition example_full_df : sample_py.DataFrame string string :=
  {| sample_py.columns :=
       ["probe_id"; "type"; "address_a"; "probe_type"; "manifest_channel";
        "signal_channel"; "methylation_state"; "ib_or_oob"; "mean_value"; "mask"];
     sample_py.rows :=
       [("101", ["cg01"; "II"; "101"; "cg"; "nan"; "R"; "U"; "ib"; "1210"; "False"])] |}.

Definition merged_sample : sample_py.Sample two_channels nat string string :=
  {| sample_py.idata := []; sample_py.df := None; sample_py.full_df := Some example_full_df |}.

(** The signals of two probes: the first has its four signals, the second a
    missing methylated signal and an unmethylated signal of 5. *)
Definition example_signals : list sample_py.signal :=
  [ {| sample_py.probe_id := "cg01"; sample_py.signal_channel := "R";
       sample_py.methylation_state := "M"; sample_py.mean_value := fin 300 |};
    {| sample_py.probe_id := "cg01"; sample_py.signal_channel := "G";
       sample_py.methylation_state := "M"; sample_py.mean_value := fin 100 |};
    {| sample_py.probe_id := "cg01"; sample_py.signal_channel := "R";
       sample_py.methylation_state := "U"; sample_py.mean_value := fin 50 |};
    {| sample_py.probe_id := "cg01"; sample_py.signal_channel := "G";
       sample_py.methylation_state := "U"; sample_py.mean_value := fin 50 |};
    {| sample_py.probe_id := "cg02"; sample_py.signal_channel := "R";
       sample_py.methylation_state := "M"; sample_py.mean_value := nan |};
    {| sample_py.probe_id := "cg02"; sample_py.signal_channel := "G";
       sample_py.methylation_state := "U"; sample_py.mean_value := fin 5 |} ].

(** A class [Sample] for the examples: the name, and the idat data, which is
    [None] until a file is read and after the annotation is merged. *)
Record example_Sample : Type := {
  example_name : string;
  example_idata : option (list (two_channels * nat))
}.

Definition example_new_Sample (name : string) : py.answer example_Sample :=
  py.Returns {| example_name := name; example_idata := None |}.

Definition example_set_idata (sample : example_Sample) (channel : two_channels)
    (dataset : nat) : py.answer example_Sample :=
  py.Returns
    {| example_name := example_name sample;
       example_idata :=
         Some (py.setitem two_channels_eqb channel dataset
                 match example_idata sample with Some d => d | None => [] end) |}.

Definition example_idata_is_None (sample : example_Sample) : bool :=
  match example_idata sample with None => true | Some _ => false end.

Definition example_attribute (name : string) : option bool :=
  if pd.mem name samples_py.supported_functions then Some true else None.

Definition example_call (method_name : string) (args : unit) (sample : example_Sample)
  : py.answer example_Sample :=
  if String.eqb method_name "merge_annotation_info" then
    py.Returns {| example_name := example_name sample; example_idata := None |}
  else py.Returns sample.

(** Files for the sample [tumour], the red one under its name and the green
    one under its position, and for the sample [relapse]; none for [normal]. *)
Definition example_files (datadir pattern : string) : list string :=
  if String.eqb pattern "*tumour*Red*.idat*" then ["tumour_Red.idat"]
  else if String.eqb pattern "*2071*R01C01*Grn*.idat*" then ["2071_R01C01_Grn.idat.gz"]
  else if String.eqb pattern "*relapse*Red*.idat*" then ["relapse_Red.idat"]
  else [].

Definition example_sheet : list samples_py.sheet_line :=
  [ {| samples_py.sample_name := "tumour"; samples_py.sample_id := "tumour";
       samples_py.sentrix_id := "2071"; samples_py.sentrix_position := "R01C01" |};
    {| samples_py.sample_name := "normal"; samples_py.sample_id := "normal";
       samples_py.sentrix_id := EmptyString; samples_py.sentrix_position := "R02C01" |};
    {| samples_py.sample_name := "relapse"; samples_py.sample_id := "relapse";
       samples_py.sentrix_id := "2071"; samples_py.sentrix_position := "R03C01" |} ].

Definition example_load (annotation : option unit) (max_samples : option Z)
  : py.prog samples_py.message
      (option (samples_py.Samples example_Sample (list nat) unit
                 (list samples_py.sheet_line))) :=
  samples_py.read_samples two_channels [Red; Grn] channel_name nat example_read_idat
    example_Sample example_new_Sample example_set_idata example_idata_is_None
    example_attribute unit example_call nat (fun _ => py.Returns O) (list nat)
    (fun l => py.Returns l) unit (fun _ _ _ => tt) string string (fun d => d) (fun d => d)
    example_files (list samples_py.sheet_line) (fun s => s) (fun _ => py.Returns None)
    (fun _ => py.Returns None) "data" (Some example_sheet) None annotation max_samples 1 false.

Definition example_samples
  : samples_py.Samples example_Sample (list nat) unit (list samples_py.sheet_line) :=
  {| samples_py.annotation := None; samples_py.sample_sheet := None;
     samples_py.samples :=
       [("tumour", {| example_name := "tumour"; example_idata := Some [(Red, 15%nat)] |})];
     samples_py._betas_df := Some (Some [7%nat]) |}.

Definition example_method (method_name : string)
  : py.prog samples_py.message
      (samples_py.Samples example_Sample (list nat) unit (list samples_py.sheet_line)) :=
  samples_py.method example_Sample unit example_call nat (fun _ => py.Returns O) (list nat)
    (fun l => py.Returns l) unit (list samples_py.sheet_line) example_samples method_name tt.

(** * Properties *)

(** ** Lengths of the series of the segmentation *)

Section series_facts.

Context {A B C : Type}.

Lemma removelast_cons_length (x : A) (s : list A) :
  List.length (removelast (x :: s)) = List.length s.
Proof.
  revert x. induction s as [|y s IH]; intros x; [reflexivity|].
  change (removelast (x :: y :: s)) with (x :: removelast (y :: s)).
  cbn [List.length]. rewrite IH. reflexivity.
Qed.

Lemma shift_up_length (s : list A) : List.length (pd.shift_up s) = List.length s.
Proof.
  destruct s as [|x rest]; simpl; [reflexivity|].
  rewrite length_app, length_map. simpl. lia.
Qed.

Lemma shift_length (fill : A) (s : list A) : List.length (pd.shift fill s) = List.length s.
Proof.
  destruct s as [|x rest]; [reflexivity|].
  unfold pd.shift. cbn [List.length]. rewrite removelast_cons_length. reflexivity.
Qed.

Lemma set_last_length (v : A) (s : list A) : List.length (pd.set_last v s) = List.length s.
Proof.
  destruct s as [|x rest]; [reflexivity|].
  unfold pd.set_last. rewrite length_app, removelast_cons_length. simpl. lia.
Qed.

Lemma zip_with_length (g : A -> B -> C) (s1 : list A) (s2 : list B) :
  List.length s1 = List.length s2 -> List.length (pd.zip_with g s1 s2) = List.length s1.
Proof.
  intros H. unfold pd.zip_with. rewrite length_map, length_combine. lia.
Qed.

Lemma map_snd_combine (l1 : list A) (l2 : list B) :
  List.length l1 = List.length l2 -> map snd (combine l1 l2) = l2.
Proof.
  revert l2. induction l1 as [|a l1 IH]; intros [|b l2] H; simpl in *; try discriminate.
  - reflexivity.
  - f_equal. apply IH. lia.
Qed.

Lemma map_fst_combine (l1 : list A) (l2 : list B) :
  List.length l1 = List.length l2 -> map fst (combine l1 l2) = l1.
Proof.
  revert l2. induction l1 as [|a l1 IH]; intros [|b l2] H; simpl in *; try discriminate.
  - reflexivity.
  - f_equal. apply IH. lia.
Qed.

End series_facts.

Lemma cumsum_from_length (acc : Z) (s : list bool) :
  List.length (pd.cumsum_from acc s) = List.length s.
Proof. revert acc. induction s as [|b s IH]; intros acc; simpl; [|rewrite IH]; reflexivity. Qed.

Lemma diff_next_length (df : list (list float)) :
  List.length (pd.diff_next df) = List.length df.
Proof.
  unfold pd.diff_next. rewrite length_map, length_combine, shift_up_length. lia.
Qed.

Lemma last_probe_in_chromosome_length (cpg_ranges : pd.labelled (grange * list float)) :
  List.length (last_probe_in_chromosome cpg_ranges) = List.length cpg_ranges.
Proof.
  unfold last_probe_in_chromosome.
  rewrite zip_with_length; rewrite ?shift_up_length, ?length_map; reflexivity.
Qed.

Lemma beta_euclidian_dist_length (cpg_ranges : pd.labelled (grange * list float)) :
  List.length (beta_euclidian_dist cpg_ranges) = List.length cpg_ranges.
Proof.
  unfold beta_euclidian_dist.
  rewrite set_last_length, length_map, diff_next_length, length_map. reflexivity.
Qed.

Lemma change_points_length (cpg_ranges : pd.labelled (grange * list float)) (c : float) :
  List.length (change_points cpg_ranges c) = List.length cpg_ranges.
Proof.
  unfold change_points.
  rewrite zip_with_length; rewrite ?length_map, last_probe_in_chromosome_length,
    ?beta_euclidian_dist_length; reflexivity.
Qed.

Lemma segment_id_values (cpg_ranges : pd.labelled (grange * list float)) (c : float) :
  map snd (segment_id cpg_ranges c)
  = pd.cumsum (pd.shift true (change_points cpg_ranges c)).
Proof.
  unfold segment_id. apply map_snd_combine.
  unfold pd.cumsum, pd.index.
  rewrite cumsum_from_length, shift_length, change_points_length, length_map. reflexivity.
Qed.


(** ** The running count of change points *)

Lemma count_true_cons (b : bool) (s : list bool) :
  Z.of_nat (pd.count_true (b :: s)) = Z.b2z b + Z.of_nat (pd.count_true s).
Proof. unfold pd.count_true. destruct b; cbn [filter List.length Z.b2z]; lia. Qed.

Lemma cumsum_from_nth (s : list bool) (acc : Z) (i : nat) :
  (i < List.length s)%nat ->
  nth i (pd.cumsum_from acc s) 0 = acc + Z.of_nat (pd.count_true (firstn (S i) s)).
Proof.
  revert acc i. induction s as [|b s IH]; intros acc i Hi; simpl in Hi; [lia|].
  destruct i as [|i].
  - cbn [pd.cumsum_from nth firstn]. rewrite count_true_cons.
    unfold pd.count_true. cbn [filter List.length]. lia.
  - cbn [pd.cumsum_from nth]. rewrite IH by lia.
    change (firstn (S (S i)) (b :: s)) with (b :: firstn (S i) s).
    rewrite count_true_cons. lia.
Qed.

Lemma shifted_cumsum_nth (s : list bool) (i : nat) :
  (i < List.length s)%nat ->
  nth i (pd.cumsum (pd.shift true s)) 0 = 1 + Z.of_nat (pd.count_true (firstn i s)).
Proof.
  intros Hi. destruct s as [|b s]; [simpl in Hi; lia|].
  unfold pd.shift, pd.cumsum.
  rewrite cumsum_from_nth by (cbn [List.length]; rewrite removelast_cons_length; exact Hi).
  change (firstn (S i) (true :: removelast (b :: s)))
    with (true :: firstn i (removelast (b :: s))).
  rewrite count_true_cons, firstn_removelast by exact Hi. cbn [Z.b2z]. lia.
Qed.

Lemma count_true_firstn_S (s : list bool) (i : nat) :
  (i < List.length s)%nat ->
  Z.of_nat (pd.count_true (firstn (S i) s))
  = Z.of_nat (pd.count_true (firstn i s)) + Z.b2z (nth i s false).
Proof.
  revert i. induction s as [|b s IH]; intros i Hi; simpl in Hi; [lia|].
  destruct i as [|i].
  - cbn [firstn nth]. rewrite count_true_cons.
    unfold pd.count_true. cbn [filter List.length]. lia.
  - change (firstn (S (S i)) (b :: s)) with (b :: firstn (S i) s).
    change (firstn (S i) (b :: s)) with (b :: firstn i s).
    rewrite !count_true_cons, IH by lia. cbn [nth]. lia.
Qed.

(** C1 (as the code has it): a probe's segment id is one more than the
    number of change points among the probes before it in sort order, so the
    first probe is in segment 1, and the probe after a change point starts
    the next segment while the probe after any other probe stays in its
    segment. *)
Theorem segment_id_running_count
    (cpg_ranges : pd.labelled (grange * list float)) (dist_cutoff : float) (i : nat) :
  (i < List.length cpg_ranges)%nat ->
  let ids := map snd (segment_id cpg_ranges dist_cutoff) in
  let changes := change_points cpg_ranges dist_cutoff in
  nth i ids 0 = 1 + Z.of_nat (pd.count_true (firstn i changes))
  /\ nth 0 ids 0 = 1
  /\ ((S i < List.length cpg_ranges)%nat ->
      nth (S i) ids 0 = nth i ids 0 + Z.b2z (nth i changes false)).
Proof.
  intros Hi ids changes. subst ids changes.
  rewrite segment_id_values.
  pose proof (change_points_length cpg_ranges dist_cutoff) as Hlen.
  repeat split.
  - apply shifted_cumsum_nth. lia.
  - rewrite shifted_cumsum_nth by lia. reflexivity.
  - intros HS. rewrite !shifted_cumsum_nth by lia.
    rewrite count_true_firstn_S by lia. lia.
Qed.

(** C1, witness: the second of the four example probes. *)
Lemma segment_id_running_count_example :
  (1 < List.length example_ranges)%nat
  /\ (let ids := map snd (segment_id example_ranges (ratio 1 2)) in
      let changes := change_points example_ranges (ratio 1 2) in
      nth 1 ids 0 = 1 + Z.of_nat (pd.count_true (firstn 1 changes))
      /\ nth 0 ids 0 = 1
      /\ ((2 < List.length example_ranges)%nat ->
          nth 2 ids 0 = nth 1 ids 0 + Z.b2z (nth 1 changes false))).
Proof.
  assert (H : (1 < List.length example_ranges)%nat) by (vm_compute; lia).
  split; [exact H|].
  exact (segment_id_running_count example_ranges (ratio 1 2) 1 H).
Defined.

(** C1, as stated, fails on the first probe of the example: no change point
    comes before it, and its segment id is 1, not 0. *)
Lemma first_segment_id_is_one :
  let ids := map snd (segment_id example_ranges (ratio 1 2)) in
  let changes := change_points example_ranges (ratio 1 2) in
  pd.count_true (firstn 0 changes) = 0%nat
  /\ nth 0 ids 0 = 1
  /\ nth 0 ids 0 <> Z.of_nat (pd.count_true (firstn 0 changes)).
Proof. vm_compute. repeat split. discriminate. Qed.

(** ** The configuration of get_dmr *)

Section cutoff_facts.

Variable np_quantile : list float -> float -> outcome float.

(** C5 (as the code has it). Without a cutoff, a [seg_per_locus] outside
    ]0:1[ is replaced by 0.5 after a warning, and the cutoff is the quantile
    numpy returns; the run ends there only if numpy raises. A cutoff that is
    given is used as it is, and [seg_per_locus] is not read. In both cases a
    cutoff that is not positive is reported by a warning and kept. *)
Theorem cutoff_configuration
    (seg_per_locus : float) (dist : list float) (last_probe : list bool) :
  (forall given : float,
      determine_cutoff np_quantile (Some given) seg_per_locus dist last_probe
      = ((if Float.le given (Float.of_Z 0) then [Log WARNING cutoff_should_be_positive] else [])
         ++ [Log DEBUG (distance_cutoff given)],
         Return given))
  /\ (let valid := Float.lt (Float.of_Z 0) seg_per_locus && Float.lt seg_per_locus (Float.of_Z 1) in
      let used := if valid then seg_per_locus else fin (1 # 2) in
      let quantile :=
        np_quantile (pd.select (map negb last_probe) dist) (Float.sub (Float.of_Z 1) used) in
      determine_cutoff np_quantile None seg_per_locus dist last_probe
      = ((if valid then [] else [Log WARNING (invalid_seg_per_locus seg_per_locus)])
         ++ match quantile with
            | Return computed =>
                [Log DEBUG (segments_per_locus used)]
                ++ (if Float.le computed (Float.of_Z 0)
                    then [Log WARNING cutoff_should_be_positive] else [])
                ++ [Log DEBUG (distance_cutoff computed)]
            | Raise _ => []
            end,
         quantile)).
Proof.
  split.
  - intros given.
    cbv [determine_cutoff bind ret LOGGER.warning LOGGER.debug emit lift].
    destruct (Float.le given (Float.of_Z 0)); reflexivity.
  - cbv zeta.
    cbv [determine_cutoff bind ret LOGGER.warning LOGGER.debug emit lift].
    destruct (Float.lt (Float.of_Z 0) seg_per_locus && Float.lt seg_per_locus (Float.of_Z 1)); cbn [negb];
      destruct (np_quantile _ _) as [computed|e]; try reflexivity;
      destruct (Float.le computed (Float.of_Z 0)); reflexivity.
Qed.

End cutoff_facts.

(** C5, as stated, fails for the cutoff -1: after the warning the cutoff in
    use is still -1, and with it every example probe is a segment of its own,
    while the cutoff 1/2 gives the two segments of the example. *)
Lemma negative_cutoff_is_kept :
  determine_cutoff quantile_linear (Some (fin (-1))) (ratio 1 2)
    (beta_euclidian_dist example_ranges) (last_probe_in_chromosome example_ranges)
  = ([Log WARNING cutoff_should_be_positive; Log DEBUG (distance_cutoff (fin (-1)))],
     Return (fin (-1)))
  /\ map snd (segment_id example_ranges (fin (-1))) = [1; 2; 3; 4]
  /\ map snd (segment_id example_ranges (ratio 1 2)) = [1; 1; 2; 2].
Proof. vm_compute. repeat split. Qed.

(** ** get_dmp without the sample names *)

(** C7: when the sample sheet has no [sample_name] column, [get_dmp] logs an
    error and returns [None]; it raises nothing, and its trace has no fit:
    neither the design matrix nor a model is computed. *)
Theorem get_dmp_without_sample_name
    (dmatrix : string -> pd.labelled (list string) * list string -> outcome pd.DataFrame)
    (OLS : list float -> pd.DataFrame -> outcome RegressionResults)
    (schedule : nat -> list nat)
    (betas : pd.DataFrame) (formula : string) (sample_sheet : SampleSheet) (keep_na : bool) :
  pd.mem "sample_name" (sheet_columns sample_sheet) = false ->
  get_dmp dmatrix OLS schedule betas formula sample_sheet keep_na
  = ([Log INFO start_get_dmp; Log ERROR sample_sheet_must_have_sample_name], Return None).
Proof.
  intros H. unfold get_dmp. rewrite H. reflexivity.
Qed.

(** C7, witness: the example sheet with its first column renamed. *)
Lemma get_dmp_without_sample_name_example :
  pd.mem "sample_name" (sheet_columns sheet_without_sample_name) = false
  /\ get_dmp dmatrix_of_columns OLS_constant last_task_first
       example_betas "~ age" sheet_without_sample_name true
     = ([Log INFO start_get_dmp; Log ERROR sample_sheet_must_have_sample_name], Return None).
Proof.
  split; [reflexivity|].
  apply get_dmp_without_sample_name. reflexivity.
Defined.

(** ** Runs *)

Lemma result_bind {A B : Type} (m : run A) (k : A -> run B) :
  result (bind m k)
  = match result m with
    | Return a => result (k a)
    | Raise e => Raise e
    end.
Proof.
  destruct m as [t [a|e]]; unfold bind, result; simpl; [|reflexivity].
  destruct (k a). reflexivity.
Qed.

(** A step of a run over a log record. *)
Ltac log_step := rewrite result_bind; cbn [LOGGER.info emit result snd].

Ltac log_step_in H :=
  rewrite result_bind in H; cbn [LOGGER.info LOGGER.error emit result snd] in H.

(** The labels of a concrete index are all different. *)
Ltac distinct_labels :=
  repeat (constructor; [simpl; intuition discriminate|]); constructor.

Lemma bind_ret_l_result {A B : Type} (a : A) (k : A -> run B) :
  result (bind (ret a) k) = result (k a).
Proof. rewrite result_bind. reflexivity. Qed.

(** ** The joins of get_dmr *)

Lemma mem_In (s : string) (l : list string) : pd.mem s l = true <-> In s l.
Proof.
  unfold pd.mem. rewrite existsb_exists. split.
  - intros [x [Hx Heq]]. apply String.eqb_eq in Heq. subst. exact Hx.
  - intros H. exists s. split; [exact H|apply String.eqb_refl].
Qed.

Lemma mem_not_In (s : string) (l : list string) : pd.mem s l = false <-> ~ In s l.
Proof.
  rewrite <- mem_In. destruct (pd.mem s l); split; intros H; congruence.
Qed.

(** The first join keeps complete rows of the beta matrix only. *)
Lemma cpg_ids_exact_complete (betas : pd.DataFrame) (annotation : Annotations) :
  Forall (fun r => forallb Float.notna (snd (snd r)) = true) (cpg_ids_exact betas annotation).
Proof.
  unfold cpg_ids_exact, pd.join. apply Forall_forall. intros r Hr.
  apply in_flat_map in Hr. destruct Hr as [x [_ Hr]].
  destruct (pd.lookup_all (fst x) (pd.rows (betas_no_na betas))) as [|b bs] eqn:Hl;
    [contradiction|].
  rewrite <- Hl in Hr. apply in_map_iff in Hr. destruct Hr as [v [<- Hv]]. simpl.
  unfold pd.lookup_all in Hv. apply in_map_iff in Hv. destruct Hv as [row [<- Hrow]].
  apply filter_In in Hrow. destruct Hrow as [Hrow _].
  unfold betas_no_na, pd.dropna in Hrow. simpl in Hrow.
  apply filter_In in Hrow. apply Hrow.
Qed.

(** C2, at an input where the code departs from it: no id of the annotation
    matches the beta matrix, with or without its suffix; the second join, a
    left join, keeps the probe of the annotation with a missing beta value,
    and the segmentation goes on with it. *)
Lemma retry_join_keeps_unmatched_probe :
  cpg_ids_exact one_probe_betas other_probe_annotation = []
  /\ cpg_ids strip_suffix one_probe_betas other_probe_annotation
     = [("cg00000029",
         ({| Chromosome := "chr1"; Start := 100; End_ := 101; Strand := None |}, [nan]))]
  /\ segment_id (cpg_ranges strip_suffix one_probe_betas other_probe_annotation) (ratio 1 2)
     = [("cg00000029", 1)].
Proof. vm_compute. repeat split. Qed.

(** The guard of lines 154-156 fires only when the annotation has no range
    of positive width, whatever the ids of the beta matrix are. *)
Lemma no_match_guard_needs_no_range
    (remove_probe_suffix : string -> string) (betas : pd.DataFrame)
    (annotation : Annotations) :
  cpg_ids remove_probe_suffix betas annotation = []
  <-> non_empty_coords_df annotation = [].
Proof.
  split.
  - unfold cpg_ids. intros H.
    destruct (cpg_ids_exact betas annotation); [|discriminate].
    destruct (non_empty_coords_df annotation) as [|x rest] eqn:Hranges; [reflexivity|].
    exfalso. revert H. unfold cpg_ids_retry, pd.join. rewrite Hranges.
    cbn [pd.index_map map flat_map fst snd].
    destruct (pd.lookup_all (remove_probe_suffix (fst x)) (pd.rows (betas_no_na betas)));
      discriminate.
  - unfold cpg_ids, cpg_ids_exact, cpg_ids_retry. intros ->. reflexivity.
Qed.

(** C6, at the same input: the ids of the annotation and of the beta matrix
    do not meet, yet no error is logged and no empty table is returned; the
    run is ended by the [KeyError] of line 190. *)
Lemma no_match_is_not_reported :
  get_dmr strip_suffix quantile_linear combine_undefined adjust_nothing
          one_probe_betas other_probe_annotation one_probe_dmp (Some (ratio 1 2)) (ratio 1 2)
  = ([Log INFO start_get_dmr; Log DEBUG (distance_cutoff (ratio 1 2))],
     Raise (KeyError ["cg00000165"])).
Proof. vm_compute. reflexivity. Qed.

(** ** The probes of the beta matrix have to be in the annotation *)

Lemma loc_missing {A : Type} (t : pd.labelled A) (labels : list string) (p : string) :
  In p labels -> ~ In p (pd.index t) ->
  exists missing, pd.loc t labels = Raise (KeyError missing) /\ In p missing.
Proof.
  intros Hp Hnot. unfold pd.loc.
  assert (Hin : In p (filter (fun l => negb (pd.mem l (pd.index t))) labels)).
  { apply filter_In. split; [exact Hp|].
    apply mem_not_In in Hnot. rewrite Hnot. reflexivity. }
  destruct (filter (fun l => negb (pd.mem l (pd.index t))) labels) as [|m ms];
    [contradiction|].
  exists (m :: ms). split; [reflexivity|exact Hin].
Qed.

Lemma probe_coords_df_index (annotation : Annotations) :
  pd.index (probe_coords_df annotation) = pd.index (genomic_ranges annotation).
Proof. unfold probe_coords_df, pd.index. rewrite map_map. reflexivity. Qed.

Section remerge.

Variable remove_probe_suffix : string -> string.
Variable np_quantile : list float -> float -> outcome float.
Variable combine_pvalues : list float -> float * float.
Variable multipletests_fdr_bh : list float -> outcome (list float).

(** C10 (as the code has it). With a probe of the beta matrix that is not in
    the annotation, [get_dmr] returns no table of segments: when the joins
    leave no probe it returns the empty table of the no-match guard, before
    the re-merge; when they leave one it raises, and unless the computation
    of the cutoff raised first, it raises the [KeyError] of the re-merge,
    which names the probe. *)
Theorem remerge_requires_annotation
    (betas : pd.DataFrame) (annotation : Annotations) (dmp : pd.DataFrame)
    (dist_cutoff : option float) (seg_per_locus : float) (p : string) :
  In p (pd.index (pd.rows (betas_by_probe betas))) ->
  ~ In p (pd.index (genomic_ranges annotation)) ->
  let ranges := cpg_ranges remove_probe_suffix betas annotation in
  let r := get_dmr remove_probe_suffix np_quantile combine_pvalues multipletests_fdr_bh
                   betas annotation dmp dist_cutoff seg_per_locus in
  (cpg_ids remove_probe_suffix betas annotation = [] ->
   r = ([Log INFO start_get_dmr; Log ERROR no_match_found], Return empty_table))
  /\ (cpg_ids remove_probe_suffix betas annotation <> [] ->
      exists e, result r = Raise e
        /\ forall c,
             result (determine_cutoff np_quantile dist_cutoff seg_per_locus
                       (beta_euclidian_dist ranges) (last_probe_in_chromosome ranges))
             = Return c ->
             exists missing, e = KeyError missing /\ In p missing).
Proof.
  intros Hp Hnot ranges r. subst r. unfold get_dmr. split.
  - intros ->. reflexivity.
  - intros Hne.
    destruct (cpg_ids remove_probe_suffix betas annotation) as [|x xs] eqn:Hids;
      [congruence|].
    fold ranges. log_step.
    rewrite result_bind.
    destruct (result (determine_cutoff np_quantile dist_cutoff seg_per_locus
                        (beta_euclidian_dist ranges) (last_probe_in_chromosome ranges)))
      as [c|e] eqn:Hcut.
    + rewrite <- probe_coords_df_index in Hnot.
      destruct (loc_missing (probe_coords_df annotation) _ p Hp Hnot)
        as [missing [Hloc Hin]].
      rewrite result_bind. unfold segments at 1. rewrite result_bind, Hloc.
      cbn [lift result snd].
      exists (KeyError missing). split; [reflexivity|].
      intros c' Hc'. exists missing. split; [reflexivity|exact Hin].
    + exists e. split; [reflexivity|]. intros c' Hc'. discriminate.
Qed.

End remerge.

(** C10, witness: the probe of [one_probe_betas] is not in the annotation;
    the second join keeps the other probe, and the re-merge raises. *)
Lemma remerge_requires_annotation_example :
  In "cg00000165" (pd.index (pd.rows (betas_by_probe one_probe_betas)))
  /\ ~ In "cg00000165" (pd.index (genomic_ranges other_probe_annotation))
  /\ exists missing,
       result (get_dmr strip_suffix quantile_linear combine_undefined adjust_nothing
                 one_probe_betas other_probe_annotation one_probe_dmp
                 (Some (ratio 1 2)) (ratio 1 2))
       = Raise (KeyError missing)
       /\ In "cg00000165" missing.
Proof.
  assert (Hin : In "cg00000165" (pd.index (pd.rows (betas_by_probe one_probe_betas))))
    by (simpl; auto).
  assert (Hnot : ~ In "cg00000165" (pd.index (genomic_ranges other_probe_annotation)))
    by (simpl; intros [H|[]]; discriminate H).
  split; [exact Hin|]. split; [exact Hnot|].
  destruct (remerge_requires_annotation strip_suffix quantile_linear combine_undefined
              adjust_nothing one_probe_betas other_probe_annotation one_probe_dmp
              (Some (ratio 1 2)) (ratio 1 2) "cg00000165" Hin Hnot) as [_ Hraise].
  destruct Hraise as [e [He Hkey]]; [vm_compute; discriminate|].
  destruct (Hkey (ratio 1 2)) as [missing [-> Hm]]; [vm_compute; reflexivity|].
  exists missing. split; [exact He|exact Hm].
Defined.

(** C10, as stated, fails when the only range of the annotation has width
    0: the probe of the beta matrix is not in the annotation, and [get_dmr]
    raises nothing; it returns the empty table. *)
Lemma absent_probe_without_exception :
  In "cg00000165" (pd.index (pd.rows (betas_by_probe one_probe_betas)))
  /\ ~ In "cg00000165" (pd.index (genomic_ranges other_probe_of_width_0))
  /\ get_dmr strip_suffix quantile_linear combine_undefined adjust_nothing
             one_probe_betas other_probe_of_width_0 one_probe_dmp None (ratio 1 2)
     = ([Log INFO start_get_dmr; Log ERROR no_match_found], Return empty_table).
Proof.
  split; [simpl; auto|].
  split; [simpl; intros [H|[]]; discriminate H|].
  vm_compute. reflexivity.
Qed.

(** ** The two ways of fitting the rows *)

Section fits.

Context {A B : Type}.
Variable fit : A -> run B.

Lemma sequential_cons (x : A) (rest : list A) :
  result (sequential fit (x :: rest))
  = match result (fit x) with
    | Return y =>
        match result (sequential fit rest) with
        | Return ys => Return (y :: ys)
        | Raise e => Raise e
        end
    | Raise e => Raise e
    end.
Proof.
  cbn [sequential]. rewrite result_bind.
  destruct (result (fit x)) as [y|e]; [|reflexivity].
  rewrite result_bind. destruct (result (sequential fit rest)); reflexivity.
Qed.

Lemma sequential_returns (tasks : list A) (ys : list B) :
  result (sequential fit tasks) = Return ys <-> Forall2 (returns fit) tasks ys.
Proof.
  revert ys. induction tasks as [|x rest IH]; intros ys.
  - cbn. split.
    + intros H. injection H as <-. constructor.
    + intros H. inversion H. reflexivity.
  - rewrite sequential_cons. split.
    + intros H. destruct (result (fit x)) as [y|e] eqn:Hx; [|discriminate].
      destruct (result (sequential fit rest)) as [ys'|e] eqn:Hrest; [|discriminate].
      injection H as <-. constructor; [exact Hx|]. apply IH. reflexivity.
    + intros H. inversion H as [|x' y rest' ys' Hx Hrest]; subst.
      unfold returns in Hx. rewrite Hx.
      apply IH in Hrest. rewrite Hrest. reflexivity.
Qed.

Lemma Forall2_nth_error_Some (tasks : list A) (ys : list B) (i : nat) (x : A) :
  Forall2 (returns fit) tasks ys -> nth_error tasks i = Some x ->
  exists y, nth_error ys i = Some y /\ returns fit x y.
Proof.
  intros H. revert i. induction H as [|x' y' tasks' ys' Hxy _ IH]; intros i Hi.
  - destruct i; discriminate.
  - destruct i as [|i]; simpl in *.
    + injection Hi as <-. exists y'. split; [reflexivity|exact Hxy].
    + apply IH. exact Hi.
Qed.

Lemma Forall2_nth_error_None (tasks : list A) (ys : list B) (i : nat) :
  Forall2 (returns fit) tasks ys -> nth_error tasks i = None -> nth_error ys i = None.
Proof.
  intros H Hi. apply nth_error_None. apply nth_error_None in Hi.
  rewrite <- (Forall2_length H). exact Hi.
Qed.

Lemma run_tasks_cons (tasks : list A) (i : nat) (rest : list nat) :
  result (run_tasks fit tasks (i :: rest))
  = match nth_error tasks i with
    | Some x =>
        match result (fit x) with
        | Return y =>
            match result (run_tasks fit tasks rest) with
            | Return completed => Return ((i, y) :: completed)
            | Raise e => Raise e
            end
        | Raise e => Raise e
        end
    | None => result (run_tasks fit tasks rest)
    end.
Proof.
  cbn [run_tasks]. destruct (nth_error tasks i) as [x|]; [|reflexivity].
  rewrite result_bind. destruct (result (fit x)) as [y|e]; [|reflexivity].
  rewrite result_bind. destruct (result (run_tasks fit tasks rest)); reflexivity.
Qed.

Lemma run_tasks_returns (tasks : list A) (ys : list B) (order : list nat) :
  Forall2 (returns fit) tasks ys ->
  result (run_tasks fit tasks order) = Return (completed_of ys order).
Proof.
  intros H. induction order as [|i rest IH]; [reflexivity|].
  rewrite run_tasks_cons, IH. cbn [completed_of flat_map].
  destruct (nth_error tasks i) as [x|] eqn:Hi.
  - destruct (Forall2_nth_error_Some _ _ _ _ H Hi) as [y [Hy Hxy]].
    unfold returns in Hxy. rewrite Hxy, Hy. reflexivity.
  - rewrite (Forall2_nth_error_None _ _ _ H Hi). reflexivity.
Qed.

Lemma run_tasks_all_return (tasks : list A) (order : list nat) (completed : list (nat * B)) :
  result (run_tasks fit tasks order) = Return completed ->
  forall i x, In i order -> nth_error tasks i = Some x -> exists y, returns fit x y.
Proof.
  revert completed. induction order as [|j rest IH]; intros completed H i x Hi Hx.
  - contradiction.
  - rewrite run_tasks_cons in H.
    destruct (nth_error tasks j) as [xj|] eqn:Hj.
    + destruct (result (fit xj)) as [yj|e] eqn:Hfit; [|discriminate].
      destruct (result (run_tasks fit tasks rest)) as [c|e] eqn:Hrest; [|discriminate].
      destruct Hi as [->|Hi].
      * rewrite Hx in Hj. injection Hj as <-. exists yj. exact Hfit.
      * exact (IH c eq_refl i x Hi Hx).
    + destruct Hi as [->|Hi]; [congruence|].
      exact (IH completed H i x Hi Hx).
Qed.

Lemma all_return_Forall2 (tasks : list A) :
  (forall x, In x tasks -> exists y, returns fit x y) -> exists ys, Forall2 (returns fit) tasks ys.
Proof.
  induction tasks as [|x rest IH]; intros H.
  - exists []. constructor.
  - destruct (H x (or_introl eq_refl)) as [y Hy].
    destruct IH as [ys Hys]; [intros x' Hx'; apply H; right; exact Hx'|].
    exists (y :: ys). constructor; assumption.
Qed.

Lemma find_completed (ys : list B) (order : list nat) (i : nat) (y : B) :
  In i order -> nth_error ys i = Some y ->
  find (fun c => Nat.eqb (fst c) i) (completed_of ys order) = Some (i, y).
Proof.
  intros Hin Hy. induction order as [|j rest IH]; [contradiction|].
  cbn [completed_of flat_map]. fold (completed_of ys rest).
  destruct (Nat.eq_dec j i) as [->|Hne].
  - rewrite Hy. cbn [app find fst]. rewrite Nat.eqb_refl. reflexivity.
  - destruct Hin as [Heq|Hin]; [contradiction|].
    destruct (nth_error ys j) as [yj|]; cbn [app find fst].
    + apply Nat.eqb_neq in Hne. rewrite Hne. apply IH. exact Hin.
    + apply IH. exact Hin.
Qed.

Lemma flat_map_by_position (g : nat -> list B) (ys : list B) (start : nat) :
  (forall i y, nth_error ys i = Some y -> g (start + i)%nat = [y]) ->
  flat_map g (seq start (List.length ys)) = ys.
Proof.
  revert start. induction ys as [|y ys IH]; intros start H; [reflexivity|].
  cbn [List.length seq flat_map].
  rewrite <- (Nat.add_0_r start) at 1. rewrite (H O y eq_refl). cbn [app]. f_equal.
  apply IH. intros i y' Hi.
  replace (S start + i)%nat with (start + S i)%nat by lia.
  apply H. exact Hi.
Qed.

Lemma collect_completed (ys : list B) (order : list nat) :
  Permutation order (seq 0 (List.length ys)) ->
  collect (List.length ys) (completed_of ys order) = ys.
Proof.
  intros Hperm. unfold collect. apply flat_map_by_position.
  intros i y Hy. cbn [Nat.add].
  rewrite (find_completed ys order i y); [reflexivity| |exact Hy].
  apply (Permutation_in i (Permutation_sym Hperm)).
  apply in_seq. split; [lia|].
  cbn [Nat.add]. apply nth_error_Some. rewrite Hy. discriminate.
Qed.

Variable schedule : nat -> list nat.
Hypothesis schedule_is_permutation : forall n, Permutation (schedule n) (seq 0 n).

Lemma Parallel_result (tasks : list A) :
  result (Parallel schedule fit tasks)
  = match result (run_tasks fit tasks (schedule (List.length tasks))) with
    | Return completed => Return (collect (List.length tasks) completed)
    | Raise e => Raise e
    end.
Proof. unfold Parallel. rewrite result_bind. reflexivity. Qed.

Lemma Parallel_of_returns (tasks : list A) (ys : list B) :
  Forall2 (returns fit) tasks ys -> result (Parallel schedule fit tasks) = Return ys.
Proof.
  intros H. rewrite Parallel_result, (run_tasks_returns _ _ _ H).
  rewrite (Forall2_length H). rewrite collect_completed; [reflexivity|].
  apply schedule_is_permutation.
Qed.

Lemma Parallel_returns (tasks : list A) (ys : list B) :
  result (Parallel schedule fit tasks) = Return ys <-> Forall2 (returns fit) tasks ys.
Proof.
  split; [|apply Parallel_of_returns].
  intros H. pose proof H as Hpar. rewrite Parallel_result in H.
  destruct (result (run_tasks fit tasks (schedule (List.length tasks))))
    as [completed|e] eqn:Hrun; [|discriminate].
  destruct (all_return_Forall2 tasks) as [ys' Hys'].
  - intros x Hx. apply In_nth_error in Hx. destruct Hx as [i Hi].
    apply (run_tasks_all_return _ _ _ Hrun i x); [|exact Hi].
    apply (Permutation_in i (Permutation_sym (schedule_is_permutation _))).
    apply in_seq. split; [lia|]. cbn [Nat.add].
    apply nth_error_Some. rewrite Hi. discriminate.
  - pose proof (Parallel_of_returns _ _ Hys') as Hpar'.
    rewrite Hpar in Hpar'. injection Hpar' as <-. exact Hys'.
Qed.

End fits.

(** ** The table of get_dmp *)

Lemma fold_left_extend {X Y : Type} (g : X -> list Y) (l : list X) (init : list Y) :
  fold_left (fun acc x => acc ++ g x) l init = init ++ flat_map g l.
Proof.
  revert init. induction l as [|x l IH]; intros init; cbn [fold_left flat_map].
  - rewrite app_nil_r. reflexivity.
  - rewrite IH, app_assoc. reflexivity.
Qed.

Lemma column_names_dmp_columns (factors : list string) :
  column_names factors = dmp_columns factors.
Proof. unfold column_names, dmp_columns. rewrite fold_left_extend. reflexivity. Qed.

Lemma flat_map_triple_length {X Y : Type} (g1 g2 g3 : X -> Y) (l : list X) :
  List.length (flat_map (fun x => [g1 x; g2 x; g3 x]) l) = (3 * List.length l)%nat.
Proof. induction l as [|x l IH]; cbn [flat_map List.length app]; lia. Qed.

Lemma dmp_columns_length (factors : list string) :
  List.length (dmp_columns factors) = S (3 * List.length factors).
Proof. unfold dmp_columns. cbn [List.length]. rewrite flat_map_triple_length. reflexivity. Qed.

Lemma model_parameters_length (fitted : RegressionResults) (factors : list string) :
  List.length (model_parameters fitted factors) = S (3 * List.length factors).
Proof.
  unfold model_parameters. cbn [List.length]. rewrite flat_map_triple_length. reflexivity.
Qed.

Section dmp_facts.

Variable dmatrix : string -> pd.labelled (list string) * list string -> outcome pd.DataFrame.
Variable OLS : list float -> pd.DataFrame -> outcome RegressionResults.
Variable schedule : nat -> list nat.
Hypothesis schedule_is_permutation : forall n, Permutation (schedule n) (seq 0 n).

Lemma get_model_parameters_result
    (values : list float) (design_matrix : pd.DataFrame) (factors : list string) :
  result (get_model_parameters OLS values design_matrix factors)
  = match OLS values design_matrix with
    | Return fitted => Return (model_parameters fitted factors)
    | Raise e => Raise e
    end.
Proof.
  unfold get_model_parameters. rewrite result_bind. cbn [emit result snd].
  rewrite result_bind. cbn [lift result snd].
  destruct (OLS values design_matrix) as [fitted|e]; [|reflexivity].
  cbn [ret result snd]. rewrite fold_left_extend. reflexivity.
Qed.

(** C4: on every beta matrix, whatever its number of rows, the fits run in
    parallel return a list exactly when the fits run one after the other
    return it; the list has, row for row, what [get_model_parameters] returns
    for the values of the row and the design matrix; and it is the list that
    [get_dmp] builds its table from, on either side of the threshold of
    10000 rows. *)
Theorem sequential_and_parallel_agree
    (betas design_matrix : pd.DataFrame) (factors : list string)
    (result_array : list (list float)) :
  let fit := fun row : string * list float =>
               get_model_parameters OLS (snd row) design_matrix factors in
  (result (sequential fit (pd.rows betas)) = Return result_array
   <-> result (Parallel schedule fit (pd.rows betas)) = Return result_array)
  /\ (result (fit_rows OLS schedule betas design_matrix factors) = Return result_array
      <-> result (sequential fit (pd.rows betas)) = Return result_array)
  /\ (result (Parallel schedule fit (pd.rows betas)) = Return result_array ->
      Forall2 (fun row values =>
                 exists fitted, OLS (snd row) design_matrix = Return fitted
                                /\ values = model_parameters fitted factors)
              (pd.rows betas) result_array).
Proof.
  intros fit.
  assert (Hagree : result (sequential fit (pd.rows betas)) = Return result_array
                   <-> result (Parallel schedule fit (pd.rows betas)) = Return result_array).
  { rewrite sequential_returns, (Parallel_returns fit schedule schedule_is_permutation).
    reflexivity. }
  split; [exact Hagree|]. split.
  - unfold fit_rows. fold fit.
    destruct (Z.of_nat (List.length (pd.rows betas)) <=? 10000);
      [reflexivity|symmetry; exact Hagree].
  - intros H. apply (Parallel_returns fit schedule schedule_is_permutation) in H.
    clear Hagree.
    induction H as [|row values rows rest Hrow _ IH]; [constructor|].
    constructor; [|exact IH].
    unfold returns, fit in Hrow. rewrite get_model_parameters_result in Hrow.
    destruct (OLS (snd row) design_matrix) as [fitted|e]; [|discriminate].
    exists fitted. split; [reflexivity|]. injection Hrow as <-. reflexivity.
Qed.

Lemma fit_rows_returns (betas design_matrix : pd.DataFrame) (factors : list string) :
  Forall (fun row => exists fitted, OLS (snd row) design_matrix = Return fitted)
         (pd.rows betas) ->
  exists result_array,
    result (fit_rows OLS schedule betas design_matrix factors) = Return result_array
    /\ List.length result_array = List.length (pd.rows betas)
    /\ Forall (fun values => List.length values = S (3 * List.length factors)) result_array.
Proof.
  intros Hfits.
  set (fit := fun row : string * list float =>
                get_model_parameters OLS (snd row) design_matrix factors).
  assert (Hall : exists ys, Forall2 (returns fit) (pd.rows betas) ys
                            /\ Forall (fun values =>
                                 List.length values = S (3 * List.length factors)) ys).
  { induction Hfits as [|row rows [fitted Hrow] _ [ys [Hys Hlen]]].
    - exists []. split; constructor.
    - exists (model_parameters fitted factors :: ys). split; constructor; try assumption.
      + unfold returns, fit. rewrite get_model_parameters_result, Hrow. reflexivity.
      + apply model_parameters_length. }
  destruct Hall as [ys [Hys Hlen]]. exists ys. split; [|split].
  - unfold fit_rows. fold fit.
    destruct (Z.of_nat (List.length (pd.rows betas)) <=? 10000).
    + apply sequential_returns. exact Hys.
    + apply (Parallel_returns fit schedule schedule_is_permutation). exact Hys.
  - symmetry. exact (Forall2_length Hys).
  - exact Hlen.
Qed.

Lemma set_index_returns (name : string) (sheet : SampleSheet) :
  pd.mem name (sheet_columns sheet) = true ->
  exists info, set_index name sheet = Return info.
Proof.
  intros H. unfold set_index.
  assert (Hpos : exists i, pd.position name (sheet_columns sheet) = Some i).
  { apply mem_In in H. induction (sheet_columns sheet) as [|c cols IH]; [contradiction|].
    cbn [pd.position]. destruct (String.eqb c name) eqn:Hc; [eexists; reflexivity|].
    destruct H as [->|H]; [rewrite String.eqb_refl in Hc; discriminate|].
    destruct (IH H) as [i ->]. eexists. reflexivity. }
  destruct Hpos as [i ->]. eexists. reflexivity.
Qed.

(** C8 (as the code has it). When the sample sheet has its [sample_name]
    column, patsy returns a design matrix and every fit returns, [get_dmp]
    returns a table whose rows are, in their order, the rows of the beta
    matrix, or those without a missing value when [keep_na] is false, and
    whose columns are [p_value] and then, for every column of the design
    matrix whose name does not contain "intercept" in any case, in the order
    of the design matrix, its t-value, estimate and standard error; every
    row has a value for every column. *)
Theorem get_dmp_table
    (betas : pd.DataFrame) (formula : string) (sample_sheet : SampleSheet) (keep_na : bool)
    (design_matrix : pd.DataFrame) :
  let fitted_betas := if keep_na then betas else pd.dropna betas in
  pd.mem "sample_name" (sheet_columns sample_sheet) = true ->
  (forall info, set_index "sample_name" sample_sheet = Return info ->
                dmatrix formula info = Return design_matrix) ->
  Forall (fun row => exists fitted, OLS (snd row) design_matrix = Return fitted)
         (pd.rows fitted_betas) ->
  exists table,
    result (get_dmp dmatrix OLS schedule betas formula sample_sheet keep_na)
    = Return (Some table)
    /\ pd.index (pd.rows table) = pd.index (pd.rows fitted_betas)
    /\ pd.columns table = dmp_columns (non_intercept design_matrix)
    /\ Forall (fun row => List.length (snd row) = List.length (pd.columns table))
              (pd.rows table).
Proof.
  intros fitted_betas Hname Hdesign Hfits.
  destruct (set_index_returns _ _ Hname) as [info Hinfo].
  pose proof (Hdesign info Hinfo) as HD.
  destruct (fit_rows_returns fitted_betas design_matrix (factor_names design_matrix) Hfits)
    as [result_array [Hfit [Hrows Hwidth]]].
  assert (Hbetas : (if negb keep_na then pd.dropna betas else betas) = fitted_betas)
    by (subst fitted_betas; destruct keep_na; reflexivity).
  exists {| pd.columns := column_names (factor_names design_matrix);
            pd.rows := combine (pd.index (pd.rows fitted_betas)) result_array |}.
  split; [|split; [|split]].
  - unfold get_dmp. log_step.
    rewrite Hname. cbn [negb]. rewrite Hbetas. unfold set_level_as_index.
    rewrite result_bind, Hinfo. cbn [lift result snd].
    rewrite result_bind, HD. cbn [lift result snd].
    rewrite result_bind, Hfit.
    log_step.
    rewrite result_bind. unfold DataFrame_of.
    assert (Hshape :
              Nat.eqb (List.length result_array)
                      (List.length (pd.index (pd.rows fitted_betas)))
              && forallb (fun r => Nat.eqb (List.length r)
                                     (List.length (column_names (factor_names design_matrix))))
                         result_array = true).
    { apply andb_true_iff. split.
      - apply Nat.eqb_eq. unfold pd.index. rewrite length_map. exact Hrows.
      - apply forallb_forall. intros values Hin. apply Nat.eqb_eq.
        rewrite column_names_dmp_columns, dmp_columns_length.
        rewrite Forall_forall in Hwidth. apply Hwidth. exact Hin. }
    rewrite Hshape. reflexivity.
  - cbn [pd.rows]. unfold pd.index at 1. apply map_fst_combine.
    unfold pd.index. rewrite length_map. symmetry. exact Hrows.
  - cbn [pd.columns]. rewrite column_names_dmp_columns. reflexivity.
  - cbn [pd.rows pd.columns]. apply Forall_forall. intros row Hin.
    rewrite column_names_dmp_columns, dmp_columns_length.
    rewrite Forall_forall in Hwidth. apply Hwidth.
    destruct row as [label values]. apply in_combine_r in Hin. exact Hin.
Qed.

End dmp_facts.

Lemma last_task_first_is_permutation (n : nat) : Permutation (last_task_first n) (seq 0 n).
Proof. unfold last_task_first. apply Permutation_sym, Permutation_rev. Qed.

(** C4, witness: the five example probes, fitted from the last to the first
    by the workers, give the list of the fits in the order of the rows. *)
Lemma sequential_and_parallel_agree_example :
  (forall n, Permutation (last_task_first n) (seq 0 n))
  /\ result (Parallel last_task_first
               (fun row : string * list float =>
                  get_model_parameters OLS_constant (snd row) example_design_matrix ["age"])
               (pd.rows example_betas))
     = Return (map (fun _ => [ratio 1 100; ratio 3 1; ratio 1 50; ratio 1 150]) (pd.rows example_betas)).
Proof.
  split; [exact last_task_first_is_permutation|].
  apply (sequential_and_parallel_agree OLS_constant last_task_first
           last_task_first_is_permutation example_betas example_design_matrix ["age"]).
  vm_compute. reflexivity.
Defined.

(** C8, witness: the table of the example, with all the probes kept. *)
Lemma get_dmp_table_example :
  exists table,
    result (get_dmp dmatrix_of_columns OLS_constant last_task_first
              example_betas "~ age" example_sample_sheet true)
    = Return (Some table)
    /\ pd.index (pd.rows table) = pd.index (pd.rows example_betas)
    /\ pd.columns table = dmp_columns (non_intercept example_design_matrix)
    /\ Forall (fun row => List.length (snd row) = List.length (pd.columns table))
              (pd.rows table).
Proof.
  apply (get_dmp_table dmatrix_of_columns OLS_constant last_task_first
           last_task_first_is_permutation example_betas "~ age" example_sample_sheet true
           example_design_matrix).
  - reflexivity.
  - intros info Hinfo. vm_compute in Hinfo. injection Hinfo as <-. reflexivity.
  - apply Forall_forall. intros row _. eexists. reflexivity.
Defined.

(** C8, as stated, fails when [keep_na] is false: the fifth example probe
    has a missing beta value and is not in the table. *)
Lemma get_dmp_drops_incomplete_rows :
  exists table,
    result (get_dmp dmatrix_of_columns OLS_constant last_task_first
              example_betas "~ age" example_sample_sheet false)
    = Return (Some table)
    /\ pd.index (pd.rows example_betas) = ["cg04"; "cg01"; "cg02"; "cg03"; "cg05"]
    /\ pd.index (pd.rows table) = ["cg04"; "cg01"; "cg02"; "cg03"]
    /\ pd.index (pd.rows table) <> pd.index (pd.rows example_betas).
Proof.
  eexists. split; [vm_compute; reflexivity|].
  split; [reflexivity|]. split; [reflexivity|]. discriminate.
Qed.

(** ** Joins on an index without duplicates *)

Section join_facts.

Context {A B : Type}.

Lemma lookup_all_absent (k : string) (r : pd.labelled B) :
  ~ In k (pd.index r) -> pd.lookup_all k r = [].
Proof.
  intros H. unfold pd.lookup_all.
  induction r as [|[k' b] r IH]; [reflexivity|].
  cbn [filter fst]. destruct (String.eqb k' k) eqn:Hk.
  - apply String.eqb_eq in Hk. subst. exfalso. apply H. left. reflexivity.
  - apply IH. intros Hin. apply H. right. exact Hin.
Qed.

Lemma lookup_all_present (k : string) (r : pd.labelled B) :
  NoDup (pd.index r) -> In k (pd.index r) ->
  exists b, pd.lookup_all k r = [b] /\ In (k, b) r.
Proof.
  intros Hnd Hin. induction r as [|[k' b] r IH]; [contradiction|].
  cbn [pd.index map fst] in Hnd, Hin. inversion Hnd as [|? ? Hnot Hnd']; subst.
  unfold pd.lookup_all. cbn [filter fst].
  destruct (String.eqb k' k) eqn:Hk.
  - apply String.eqb_eq in Hk. subst k'. exists b.
    cbn [map snd].
    change (map snd (filter (fun x : string * B => String.eqb (fst x) k) r))
      with (pd.lookup_all k r).
    rewrite (lookup_all_absent k r Hnot). split; [reflexivity|left; reflexivity].
  - apply String.eqb_neq in Hk. destruct Hin as [Heq|Hin]; [contradiction|].
    destruct (IH Hnd' Hin) as [b' [Hb' Hin']].
    exists b'. split; [exact Hb'|right; exact Hin'].
Qed.

(** A left join with a table whose labels are all different keeps the rows
    of the left table, each with its match or the filling. *)
Lemma join_left_rows (fill : B) (l : pd.labelled A) (r : pd.labelled B) :
  NoDup (pd.index r) ->
  pd.join pd.left fill l r
  = map (fun x => (fst x, (snd x, hd fill (pd.lookup_all (fst x) r)))) l.
Proof.
  intros Hnd. unfold pd.join.
  induction l as [|x l IH]; [reflexivity|].
  cbn [flat_map]. rewrite IH.
  destruct (in_dec string_dec (fst x) (pd.index r)) as [Hin|Hnot].
  - destruct (lookup_all_present _ _ Hnd Hin) as [b [Hb _]]. cbn [map]. rewrite Hb.
    reflexivity.
  - cbn [map]. rewrite (lookup_all_absent _ _ Hnot). reflexivity.
Qed.


Lemma join_inner_In (fill : B) (l : pd.labelled A) (r : pd.labelled B)
    (k : string) (a : A) (b : B) :
  In (k, (a, b)) (pd.join pd.inner fill l r) -> In (k, a) l /\ In (k, b) r.
Proof.
  unfold pd.join. intros H. apply in_flat_map in H. destruct H as [x [Hx H]].
  destruct (pd.lookup_all (fst x) r) as [|b0 bs] eqn:Hl; [contradiction|].
  rewrite <- Hl in H. apply in_map_iff in H. destruct H as [b' [Heq Hb']].
  injection Heq as <- <- <-. split.
  - destruct x. exact Hx.
  - unfold pd.lookup_all in Hb'. apply in_map_iff in Hb'.
    destruct Hb' as [[k' b''] [Hsnd Hin]]. cbn [snd] in Hsnd. subst b''.
    apply filter_In in Hin. destruct Hin as [Hin Hk]. cbn [fst] in Hk.
    apply String.eqb_eq in Hk. subst. exact Hin.
Qed.

End join_facts.



Lemma In_index {X : Type} (t : pd.labelled X) (k : string) (x : X) :
  In (k, x) t -> In k (pd.index t).
Proof. intros H. unfold pd.index. apply in_map_iff. exists (k, x). split; [reflexivity|exact H]. Qed.

Lemma NoDup_index_functional {X : Type} (t : pd.labelled X) (k : string) (x y : X) :
  NoDup (pd.index t) -> In (k, x) t -> In (k, y) t -> x = y.
Proof.
  unfold pd.index. induction t as [|[k' z] t IH]; intros Hnd Hx Hy; [contradiction|].
  cbn [map fst] in Hnd. inversion Hnd as [|? ? Hnot Hnd']; subst.
  destruct Hx as [Hx|Hx]; destruct Hy as [Hy|Hy].
  - congruence.
  - injection Hx as -> ->. exfalso. apply Hnot. exact (In_index _ _ _ Hy).
  - injection Hy as -> ->. exfalso. apply Hnot. exact (In_index _ _ _ Hx).
  - exact (IH Hnd' Hx Hy).
Qed.

(** ** Sorting *)

Lemma insert_Permutation {X : Type} (leb : X -> X -> bool) (x : X) (l : list X) :
  Permutation (pd.insert leb x l) (x :: l).
Proof.
  induction l as [|y l IH]; [reflexivity|].
  cbn [pd.insert]. destruct (leb x y); [reflexivity|].
  rewrite IH. apply perm_swap.
Qed.

Lemma sort_Permutation {X : Type} (leb : X -> X -> bool) (l : list X) :
  Permutation (pd.sort leb l) l.
Proof.
  unfold pd.sort. induction l as [|x l IH]; [reflexivity|].
  cbn [fold_right]. rewrite insert_Permutation, IH. reflexivity.
Qed.

(** ** The re-merge (lines 190-201) *)






Lemma count_true_cons_nat (b : bool) (mask : list bool) :
  pd.count_true (b :: mask) = ((if b then 1 else 0) + pd.count_true mask)%nat.
Proof. unfold pd.count_true. destruct b; reflexivity. Qed.

Lemma fill_na_length (next : Z) (ids : list (option Z)) :
  List.length (fill_na next ids) = List.length ids.
Proof.
  revert next. induction ids as [|[s|] ids IH]; intros next; cbn [fill_na List.length];
    [reflexivity| |]; rewrite IH; reflexivity.
Qed.

(** The new ids of line 200, given to the rows without an id, and the cast
    of line 201. *)
Lemma assign_new_ids (ids : list (option Z)) (last_segment_id : Z) (first : nat) :
  pd.astype_int
    (pd.scatter (map is_missing ids)
       (map (fun n => Some (Z.of_nat n + last_segment_id + 1))
            (seq first (pd.count_true (map is_missing ids))))
       ids)
  = Return (fill_na (Z.of_nat first + last_segment_id + 1) ids).
Proof.
  revert first. induction ids as [|[s|] ids IH]; intros first.
  - reflexivity.
  - cbn [map is_missing]. rewrite count_true_cons_nat. cbn [Nat.add].
    cbn [pd.scatter pd.astype_int fill_na]. rewrite IH. reflexivity.
  - cbn [map is_missing]. rewrite count_true_cons_nat.
    cbn [Nat.add seq map pd.scatter pd.astype_int fill_na]. rewrite IH.
    replace (Z.of_nat (S first) + last_segment_id + 1)
      with (Z.of_nat first + last_segment_id + 1 + 1) by lia.
    reflexivity.
Qed.

(** Without a missing id the column is cast as it is. *)
Lemma cast_complete_ids (ids : list (option Z)) (next : Z) :
  pd.count_true (map is_missing ids) = O ->
  pd.astype_int ids = Return (fill_na next ids).
Proof.
  induction ids as [|[s|] ids IH]; intros H.
  - reflexivity.
  - cbn [map is_missing] in H. rewrite count_true_cons_nat in H.
    cbn [pd.astype_int fill_na]. rewrite IH by exact H. reflexivity.
  - cbn [map is_missing] in H. rewrite count_true_cons_nat in H. discriminate.
Qed.

Section fill_facts.

Context {X : Type}.



End fill_facts.

Lemma max_ge (s : list Z) (x : Z) : In x s -> x <= pd.max s.
Proof.
  destruct s as [|y s]; [contradiction|]. unfold pd.max.
  assert (Hacc : forall l acc, acc <= fold_left Z.max l acc).
  { induction l as [|z l IH]; intros acc; cbn [fold_left]; [lia|].
    specialize (IH (Z.max acc z)). lia. }
  assert (Hin : forall l acc, In x l -> x <= fold_left Z.max l acc).
  { induction l as [|z l IH]; intros acc Hx; [contradiction|].
    cbn [fold_left]. destruct Hx as [->|Hx]; [|apply IH; exact Hx].
    specialize (Hacc l (Z.max acc x)). lia. }
  intros [->|Hx]; [apply Hacc|apply Hin; exact Hx].
Qed.





(** ** The statistics of the segments (lines 204-230) *)

Lemma position_present (name : string) (cols : list string) :
  pd.mem name cols = true -> exists i, pd.position name cols = Some i.
Proof.
  intros H. apply mem_In in H. induction cols as [|c cols IH]; [contradiction|].
  cbn [pd.position]. destruct (String.eqb c name) eqn:Hc; [eexists; reflexivity|].
  destruct H as [->|H]; [rewrite String.eqb_refl in Hc; discriminate|].
  destruct (IH H) as [i ->]. eexists. reflexivity.
Qed.


Lemma transform_length {X Y : Type} (g : list X -> Y) (keys : list Z) (col : list X) :
  List.length (pd.transform g keys col) = List.length keys.
Proof. unfold pd.transform. apply length_map. Qed.

Lemma map_nth_seq {X Y : Type} (g : X -> Y) (l : list X) (d : X) :
  map (fun i => g (nth i l d)) (seq 0 (List.length l)) = map g l.
Proof.
  induction l as [|x l IH]; [reflexivity|].
  cbn [List.length seq map nth]. f_equal.
  rewrite <- seq_shift, map_map. exact IH.
Qed.

Section aggregate_facts.

Variable combine_pvalues : list float -> float * float.
Variable multipletests_fdr_bh : list float -> outcome (list float).

(** Given one p-value at least, the adjustment returns one p-value for
    every p-value it is given. *)
Hypothesis adjusted_length :
  forall pvals, pvals <> [] ->
    exists adjusted,
      multipletests_fdr_bh pvals = Return adjusted
      /\ List.length adjusted = List.length pvals.



End aggregate_facts.

(** ** Every probe of the beta matrix in one segment *)




Section every_probe.

Variable remove_probe_suffix : string -> string.
Variable np_quantile : list float -> float -> outcome float.
Variable combine_pvalues : list float -> float * float.
Variable multipletests_fdr_bh : list float -> outcome (list float).


End every_probe.



(** * Further properties of dm.py *)

(** ** Segments are runs of one chromosome *)

Lemma shift_up_nth {X : Type} (s : list X) (i : nat) (d : X) :
  (S i < List.length s)%nat -> nth i (pd.shift_up s) None = Some (nth (S i) s d).
Proof.
  intros H. destruct s as [|x rest]; [simpl in H; lia|].
  unfold pd.shift_up. cbn [List.length] in H.
  rewrite app_nth1 by (rewrite length_map; lia).
  rewrite (nth_indep (map Some rest) None (Some d)) by (rewrite length_map; lia).
  rewrite map_nth. reflexivity.
Qed.

Lemma shift_up_last {X : Type} (s : list X) :
  s <> [] -> nth (List.length s - 1) (pd.shift_up s) None = None.
Proof.
  intros H. destruct s as [|x rest]; [congruence|].
  unfold pd.shift_up. cbn [List.length].
  rewrite app_nth2 by (rewrite length_map; lia).
  rewrite length_map. replace (S (List.length rest) - 1 - List.length rest)%nat with O by lia.
  reflexivity.
Qed.

Lemma combine_nth_lt {X Y : Type} (s1 : list X) (s2 : list Y) (i : nat) (dx : X) (dy : Y) :
  (i < List.length s1)%nat -> (i < List.length s2)%nat ->
  nth i (combine s1 s2) (dx, dy) = (nth i s1 dx, nth i s2 dy).
Proof.
  revert s2 i. induction s1 as [|x s1 IH]; intros [|y s2] i H1 H2;
    cbn [List.length] in *; try lia.
  destruct i as [|i]; [reflexivity|]. cbn [combine nth]. apply IH; lia.
Qed.

Lemma zip_with_nth {X Y W : Type} (g : X -> Y -> W) (s1 : list X) (s2 : list Y)
    (i : nat) (dx : X) (dy : Y) (dw : W) :
  (i < List.length s1)%nat -> (i < List.length s2)%nat ->
  nth i (pd.zip_with g s1 s2) dw = g (nth i s1 dx) (nth i s2 dy).
Proof.
  intros H1 H2. unfold pd.zip_with.
  rewrite (nth_indep _ dw (g dx dy)) by (rewrite length_map, length_combine; lia).
  rewrite (map_nth (fun p => g (fst p) (snd p)) (combine s1 s2) (dx, dy)).
  rewrite combine_nth_lt by assumption. reflexivity.
Qed.

Lemma count_true_firstn_all (s : list bool) :
  pd.count_true (firstn (List.length s) s) = pd.count_true s.
Proof. rewrite firstn_all. reflexivity. Qed.

Section running_ids.

Variable changes : list bool.

Let ids : list Z := pd.cumsum (pd.shift true changes).

Lemma ids_step (i : nat) :
  (S i < List.length changes)%nat ->
  nth (S i) ids 0 = nth i ids 0 + Z.b2z (nth i changes false).
Proof.
  intros H. unfold ids. rewrite !shifted_cumsum_nth by lia.
  rewrite count_true_firstn_S by lia. lia.
Qed.

Lemma ids_monotone (i j : nat) :
  (i <= j)%nat -> (j < List.length changes)%nat -> nth i ids 0 <= nth j ids 0.
Proof.
  intros Hij Hj. induction j as [|j IH].
  - assert (i = O) by lia. subst. lia.
  - destruct (Nat.eq_dec i (S j)) as [->|Hne]; [lia|].
    rewrite ids_step by exact Hj.
    assert (nth i ids 0 <= nth j ids 0) by (apply IH; lia).
    destruct (nth j changes false); cbn [Z.b2z]; lia.
Qed.

(** Between two probes of one segment no probe is a change point. *)
Lemma ids_equal_no_change (i j k : nat) :
  (i <= k)%nat -> (k < j)%nat -> (j < List.length changes)%nat ->
  nth i ids 0 = nth j ids 0 -> nth k changes false = false.
Proof.
  intros Hik Hkj Hj Heq.
  pose proof (ids_monotone i k Hik ltac:(lia)) as H1.
  pose proof (ids_monotone (S k) j ltac:(lia) Hj) as H2.
  pose proof (ids_step k ltac:(lia)) as H3.
  destruct (nth k changes false); [cbn [Z.b2z] in H3; lia|reflexivity].
Qed.

(** Every id from 1 to the id of a probe is the id of a probe before it. *)
Lemma ids_reach (i : nat) (s : Z) :
  (i < List.length changes)%nat -> 1 <= s <= nth i ids 0 ->
  exists j, (j <= i)%nat /\ nth j ids 0 = s.
Proof.
  intros Hi. induction i as [|i IH]; intros Hs.
  - exists O. split; [lia|].
    unfold ids in *. rewrite shifted_cumsum_nth in * by lia.
    cbn [firstn] in *. unfold pd.count_true in *. cbn [filter List.length] in *. lia.
  - destruct (Z.eq_dec s (nth (S i) ids 0)) as [->|Hne].
    + exists (S i). split; [lia|reflexivity].
    + rewrite ids_step in Hs, Hne by exact Hi.
      destruct IH as [j [Hj Hjs]]; [lia| |exists j; split; [lia|exact Hjs]].
      destruct (nth i changes false); cbn [Z.b2z] in *; lia.
Qed.

Lemma ids_length : List.length ids = List.length changes.
Proof. unfold ids, pd.cumsum. rewrite cumsum_from_length, shift_length. reflexivity. Qed.

Lemma ids_first : changes <> [] -> nth 0 ids 0 = 1.
Proof.
  intros H. unfold ids. rewrite shifted_cumsum_nth.
  - reflexivity.
  - destruct changes; [congruence|simpl; lia].
Qed.

End running_ids.

Lemma max_In (s : list Z) : s <> [] -> In (pd.max s) s.
Proof.
  destruct s as [|x rest]; [congruence|]. intros _. unfold pd.max.
  revert x. induction rest as [|y rest IH]; intros x; cbn [fold_left]; [left; reflexivity|].
  destruct (IH (Z.max x y)) as [H|H].
  - rewrite <- H.
    destruct (Z.max_spec x y) as [[_ ->]|[_ ->]]; [right; left|left]; reflexivity.
  - right. right. exact H.
Qed.

Lemma last_probe_is_last_in_chromosome (cpg_ranges : pd.labelled (grange * list float)) :
  cpg_ranges <> [] ->
  nth (List.length cpg_ranges - 1) (last_probe_in_chromosome cpg_ranges) false = true.
Proof.
  intros H. unfold last_probe_in_chromosome.
  set (chromosome := map (fun r : string * (grange * list float) => Chromosome (fst (snd r)))
                         cpg_ranges).
  assert (Hlen : List.length chromosome = List.length cpg_ranges) by apply length_map.
  assert (Hpos : (0 < List.length cpg_ranges)%nat)
    by (destruct cpg_ranges; [congruence|simpl; lia]).
  rewrite (zip_with_nth _ _ _ _ EmptyString None)
    by (rewrite ?shift_up_length; lia).
  rewrite <- Hlen. rewrite shift_up_last; [reflexivity|].
  intros Hnil. rewrite Hnil in Hlen. simpl in Hlen. lia.
Qed.

Lemma change_points_nth (cpg_ranges : pd.labelled (grange * list float)) (c : float) (i : nat) :
  (i < List.length cpg_ranges)%nat ->
  nth i (change_points cpg_ranges c) false
  = nth i (last_probe_in_chromosome cpg_ranges) false
    || Float.gt (nth i (beta_euclidian_dist cpg_ranges) nan) c.
Proof.
  intros H. unfold change_points.
  rewrite (zip_with_nth _ _ _ _ false false)
    by (rewrite ?length_map, ?last_probe_in_chromosome_length, ?beta_euclidian_dist_length; lia).
  f_equal.
  rewrite (nth_indep _ false (Float.gt nan c))
    by (rewrite length_map, beta_euclidian_dist_length; lia).
  apply (map_nth (fun d => Float.gt d c)).
Qed.

Lemma same_chromosome_as_next (cpg_ranges : pd.labelled (grange * list float)) (i : nat) :
  (S i < List.length cpg_ranges)%nat ->
  nth i (last_probe_in_chromosome cpg_ranges) false = false ->
  nth i (map (fun r => Chromosome (fst (snd r))) cpg_ranges) EmptyString
  = nth (S i) (map (fun r => Chromosome (fst (snd r))) cpg_ranges) EmptyString.
Proof.
  intros H. unfold last_probe_in_chromosome.
  set (chromosome := map (fun r : string * (grange * list float) => Chromosome (fst (snd r)))
                         cpg_ranges).
  assert (Hlen : List.length chromosome = List.length cpg_ranges) by apply length_map.
  rewrite (zip_with_nth _ _ _ _ EmptyString None)
    by (rewrite ?shift_up_length; lia).
  rewrite (shift_up_nth chromosome i EmptyString) by lia.
  intros Hsame. apply negb_false_iff in Hsame. apply String.eqb_eq in Hsame. exact Hsame.
Qed.

(** X1. The segment ids of the segmentation never decrease along the sort
    order, they are exactly the integers from 1 to the last id, and the last
    id, which [get_dmr] logs as the number of segments, is the number of
    change points. *)
Theorem segment_ids_are_contiguous
    (cpg_ranges : pd.labelled (grange * list float)) (dist_cutoff : float) :
  cpg_ranges <> [] ->
  let ids := map snd (segment_id cpg_ranges dist_cutoff) in
  (forall i j, (i <= j)%nat -> (j < List.length cpg_ranges)%nat ->
               nth i ids 0 <= nth j ids 0)
  /\ pd.max ids = Z.of_nat (pd.count_true (change_points cpg_ranges dist_cutoff))
  /\ (forall s, In s ids <-> 1 <= s <= pd.max ids).
Proof.
  intros Hne ids. subst ids. rewrite segment_id_values.
  set (changes := change_points cpg_ranges dist_cutoff).
  assert (Hlen : List.length changes = List.length cpg_ranges)
    by apply change_points_length.
  assert (Hpos : (0 < List.length cpg_ranges)%nat)
    by (destruct cpg_ranges; [congruence|simpl; lia]).
  assert (Hchanges : changes <> [])
    by (intros Hnil; rewrite Hnil in Hlen; simpl in Hlen; lia).
  set (ids := pd.cumsum (pd.shift true changes)).
  assert (Hids : List.length ids = List.length changes) by apply ids_length.
  assert (Hmonotone : forall i j, (i <= j)%nat -> (j < List.length cpg_ranges)%nat ->
                                  nth i ids 0 <= nth j ids 0).
  { intros i j Hij Hj. apply ids_monotone; lia. }
  set (n := List.length cpg_ranges) in *.
  assert (Hlast : nth (n - 1) ids 0 = Z.of_nat (pd.count_true changes)).
  { unfold ids. rewrite shifted_cumsum_nth by lia.
    rewrite <- (count_true_firstn_all changes).
    replace (List.length changes) with (S (n - 1)) by lia.
    rewrite count_true_firstn_S by lia.
    assert (Hchange : nth (n - 1) changes false = true).
    { unfold changes. rewrite change_points_nth by (fold n; lia).
      unfold n. rewrite last_probe_is_last_in_chromosome by exact Hne. reflexivity. }
    rewrite Hchange. cbn [Z.b2z]. lia. }
  assert (Hmax : pd.max ids = nth (n - 1) ids 0).
  { apply Z.le_antisymm.
    - assert (Hin : In (pd.max ids) ids).
      { apply max_In. intros Hnil. rewrite Hnil in Hids. simpl in Hids. lia. }
      apply (In_nth _ _ 0) in Hin. destruct Hin as [j [Hj <-]].
      apply Hmonotone; lia.
    - apply max_ge. apply nth_In. lia. }
  split; [exact Hmonotone|]. split; [rewrite Hmax; exact Hlast|].
  intros s. split.
  - intros Hin. apply (In_nth _ _ 0) in Hin. destruct Hin as [j [Hj <-]]. split.
    + rewrite <- (ids_first changes Hchanges). apply Hmonotone; lia.
    + apply max_ge. apply nth_In. exact Hj.
  - intros Hs. rewrite Hmax in Hs.
    destruct (ids_reach changes (n - 1) s ltac:(lia) Hs) as [j [Hj <-]].
    apply nth_In. fold ids. lia.
Qed.

(** X2. Two probes with the same segment id are on one chromosome, and
    between them no probe is further from the next one than the cutoff: a
    segment is an unbroken run of one chromosome. *)
Theorem segment_is_a_run_of_one_chromosome
    (cpg_ranges : pd.labelled (grange * list float)) (dist_cutoff : float) (i j : nat) :
  (i <= j)%nat -> (j < List.length cpg_ranges)%nat ->
  let ids := map snd (segment_id cpg_ranges dist_cutoff) in
  let chromosome := map (fun r => Chromosome (fst (snd r))) cpg_ranges in
  nth i ids 0 = nth j ids 0 ->
  nth i chromosome EmptyString = nth j chromosome EmptyString
  /\ forall k, (i <= k)%nat -> (k < j)%nat ->
       Float.gt (nth k (beta_euclidian_dist cpg_ranges) nan) dist_cutoff = false.
Proof.
  intros Hij Hj ids chromosome. subst ids. rewrite segment_id_values.
  set (changes := change_points cpg_ranges dist_cutoff).
  assert (Hlen : List.length changes = List.length cpg_ranges)
    by apply change_points_length.
  intros Heq.
  assert (Hquiet : forall k, (i <= k)%nat -> (k < j)%nat ->
            nth k (last_probe_in_chromosome cpg_ranges) false = false
            /\ Float.gt (nth k (beta_euclidian_dist cpg_ranges) nan) dist_cutoff = false).
  { intros k Hik Hkj.
    pose proof (ids_equal_no_change changes i j k Hik Hkj ltac:(lia) Heq) as Hk.
    unfold changes in Hk. rewrite change_points_nth in Hk by lia.
    apply orb_false_iff in Hk. exact Hk. }
  split; [|intros k Hik Hkj; apply (Hquiet k Hik Hkj)].
  clear Heq. induction j as [|j IH].
  - assert (i = O) by lia. subst. reflexivity.
  - destruct (Nat.eq_dec i (S j)) as [->|Hne]; [reflexivity|].
    rewrite IH by (try lia; intros k Hik Hkj; apply Hquiet; lia).
    apply same_chromosome_as_next; [exact Hj|]. apply Hquiet; lia.
Qed.

(** ** What a run of get_dmr that returns went through *)

Section get_dmr_runs.

Variable remove_probe_suffix : string -> string.
Variable np_quantile : list float -> float -> outcome float.
Variable combine_pvalues : list float -> float * float.
Variable multipletests_fdr_bh : list float -> outcome (list float).

Lemma aggregate_inv (table : pd.labelled (grange * Z)) (dmp : pd.DataFrame) (t : dmr_table) :
  result (aggregate combine_pvalues multipletests_fdr_bh table dmp) = Return t ->
  let dmr := pd.join pd.left (pd.na_row dmp) table (pd.rows dmp) in
  let ids := map (fun r : string * (grange * Z * list float) => snd (fst (snd r))) dmr in
  exists i values adjusted,
    pd.position "p_value" (pd.columns dmp) = Some i
    /\ let segment_p_value :=
         pd.transform (combine_p_values_stouffer combine_pvalues) ids
           (map (fun r : string * (grange * Z * list float) => pd.cell i (snd (snd r))) dmr) in
       multipletests_fdr_bh (pd.select (map Float.notna segment_p_value) segment_p_value)
       = Return values
       /\ pd.assign (map Float.notna segment_p_value) values (map (fun _ => nan) dmr)
          = Return adjusted
       /\ t = dmr_table_of dmp dmr
               (pd.transform group_min ids
                  (map (fun r : string * (grange * Z * list float) => Start (fst (fst (snd r)))) dmr))
               (pd.transform pd.max ids
                  (map (fun r : string * (grange * Z * list float) => End_ (fst (fst (snd r)))) dmr))
               segment_p_value adjusted
               (map (fun c => pd.transform Float.mean_skipna ids
                                (map (fun r : string * (grange * Z * list float) =>
                                        pd.cell (fst c) (snd (snd r))) dmr))
                    (estimate_columns dmp)).
Proof.
  unfold aggregate. cbv zeta. intros H.
  rewrite result_bind in H. cbn [LOGGER.info emit result snd] in H.
  destruct (pd.position "p_value" (pd.columns dmp)) as [i|]; [|discriminate].
  rewrite bind_ret_l_result in H.
  rewrite result_bind in H. cbn [LOGGER.info emit result snd] in H.
  rewrite result_bind in H.
  match type of H with
  | context [lift (multipletests_fdr_bh ?a)] =>
      destruct (multipletests_fdr_bh a) as [values|e] eqn:Hvalues
  end; [|discriminate].
  cbn [lift result snd] in H.
  rewrite result_bind in H.
  match type of H with
  | context [lift ?a] => destruct a as [adjusted|e] eqn:Hassign
  end; [|discriminate].
  cbn [lift result snd] in H.
  rewrite result_bind in H. cbn [LOGGER.info emit result snd ret] in H.
  injection H as <-.
  exists i, values, adjusted. split; [reflexivity|]. split; [exact Hvalues|].
  split; [exact Hassign|reflexivity].
Qed.

Lemma aggregate_columns (table : pd.labelled (grange * Z)) (dmp : pd.DataFrame) (t : dmr_table) :
  result (aggregate combine_pvalues multipletests_fdr_bh table dmp) = Return t ->
  t <> empty_table.
Proof.
  intros H. apply aggregate_inv in H. cbv zeta in H.
  destruct H as [i [values [adjusted [_ [_ [_ ->]]]]]]. unfold dmr_table_of, empty_table. discriminate.
Qed.

Lemma get_dmr_inv (betas : pd.DataFrame) (annotation : Annotations) (dmp : pd.DataFrame)
    (dist_cutoff : option float) (seg_per_locus : float) (t : dmr_table) :
  result (get_dmr remove_probe_suffix np_quantile combine_pvalues multipletests_fdr_bh
            betas annotation dmp dist_cutoff seg_per_locus) = Return t ->
  let ranges := cpg_ranges remove_probe_suffix betas annotation in
  (cpg_ids remove_probe_suffix betas annotation = [] /\ t = empty_table)
  \/ (cpg_ids remove_probe_suffix betas annotation <> []
      /\ exists cutoff table,
           result (determine_cutoff np_quantile dist_cutoff seg_per_locus
                     (beta_euclidian_dist ranges) (last_probe_in_chromosome ranges))
           = Return cutoff
           /\ result (segments (probe_coords_df annotation)
                        (pd.index (pd.rows (betas_by_probe betas)))
                        (segment_id ranges cutoff)) = Return table
           /\ result (aggregate combine_pvalues multipletests_fdr_bh table dmp) = Return t).
Proof.
  intros H. cbv zeta. unfold get_dmr in H.
  set (ranges := cpg_ranges remove_probe_suffix betas annotation) in *.
  log_step_in H.
  destruct (cpg_ids remove_probe_suffix betas annotation) as [|x xs] eqn:Hids.
  - left. split; [reflexivity|]. log_step_in H. cbn [ret result snd] in H.
    injection H as <-. reflexivity.
  - right. split; [discriminate|].
    rewrite result_bind in H.
    destruct (result (determine_cutoff np_quantile dist_cutoff seg_per_locus
                        (beta_euclidian_dist ranges) (last_probe_in_chromosome ranges)))
      as [cutoff|e] eqn:Hcut; [|discriminate].
    rewrite result_bind in H.
    destruct (result (segments (probe_coords_df annotation)
                        (pd.index (pd.rows (betas_by_probe betas)))
                        (segment_id ranges cutoff))) as [table|e] eqn:Hsegs; [|discriminate].
    exists cutoff, table. split; [reflexivity|]. split; [exact Hsegs|exact H].
Qed.

End get_dmr_runs.

(** ** The rows of the table of get_dmr *)

Lemma nth_map_lt {X Y : Type} (g : X -> Y) (l : list X) (k : nat) (dx : X) (dy : Y) :
  (k < List.length l)%nat -> nth k (map g l) dy = g (nth k l dx).
Proof.
  intros H. rewrite (nth_indep _ dy (g dx)) by (rewrite length_map; exact H).
  apply map_nth.
Qed.

Lemma transform_nth {X Y : Type} (g : list X -> Y) (keys : list Z) (col : list X)
    (k : nat) (d : Y) :
  (k < List.length keys)%nat ->
  nth k (pd.transform g keys col) d
  = g (pd.select (map (Z.eqb (nth k keys 0)) keys) col).
Proof.
  intros H. unfold pd.transform.
  apply (nth_map_lt (fun key => g (pd.select (map (Z.eqb key) keys) col)) keys k 0 d H).
Qed.

Lemma select_In_nth {X : Type} (mask : list bool) (col : list X) (k : nat) (d : X) :
  (k < List.length col)%nat -> nth k mask false = true ->
  In (nth k col d) (pd.select mask col).
Proof.
  revert col k. induction mask as [|b mask IH]; intros [|x col] k Hk Hmask;
    cbn [List.length] in Hk; try lia.
  - destruct k; discriminate.
  - destruct k as [|k]; cbn [nth] in *.
    + subst b. cbn [pd.select]. left. reflexivity.
    + cbn [pd.select]. destruct b; [right|]; apply IH; (lia || assumption).
Qed.

Lemma group_min_le (s : list Z) (x : Z) : In x s -> group_min s <= x.
Proof.
  destruct s as [|y s]; [contradiction|]. unfold group_min.
  assert (Hacc : forall l acc, fold_left Z.min l acc <= acc).
  { induction l as [|z l IH]; intros acc; cbn [fold_left]; [lia|].
    specialize (IH (Z.min acc z)). lia. }
  assert (Hin : forall l acc, In x l -> fold_left Z.min l acc <= x).
  { induction l as [|z l IH]; intros acc Hx; [contradiction|].
    cbn [fold_left]. destruct Hx as [->|Hx]; [|apply IH; exact Hx].
    specialize (Hacc l (Z.min acc x)). lia. }
  intros [->|Hx]; [apply Hacc|apply Hin; exact Hx].
Qed.

Lemma scatter_kept {X : Type} (mask : list bool) (values keep : list X) (k : nat) (d : X) :
  nth k mask true = false -> nth k (pd.scatter mask values keep) d = nth k keep d.
Proof.
  revert values keep k. induction mask as [|b mask IH]; intros values keep k H.
  - destruct k; discriminate.
  - destruct keep as [|x keep]; [destruct b; reflexivity|].
    destruct k as [|k]; cbn [nth] in H.
    + subst b. reflexivity.
    + destruct b; cbn [pd.scatter]; [destruct values as [|v values]|];
        cbn [nth]; apply IH; exact H.
Qed.

Lemma dmr_table_of_row (dmp : pd.DataFrame) (dmr : pd.labelled (grange * Z * list float))
    (segment_start segment_end : list Z) (segment_p_value adjusted : list float)
    (estimates : list (list float)) (r : dmr_row) :
  In r (dmr_rows (dmr_table_of dmp dmr segment_start segment_end segment_p_value adjusted
                    estimates)) ->
  exists k x, (k < List.length dmr)%nat /\ nth_error dmr k = Some x
    /\ dmr_probe_id r = fst x
    /\ dmr_range r = fst (fst (snd x))
    /\ dmr_segment_id r = snd (fst (snd x))
    /\ dmr_dmp r = snd (snd x)
    /\ dmr_segment_start r = nth k segment_start 0
    /\ dmr_segment_end r = nth k segment_end 0
    /\ dmr_segment_p_value r = nth k segment_p_value nan
    /\ dmr_segment_p_value_adjusted r = nth k adjusted nan
    /\ dmr_segment_estimates r = map (fun col => nth k col nan) estimates.
Proof.
  unfold dmr_table_of. cbn [dmr_rows]. intros H.
  apply in_map_iff in H. destruct H as [k [<- Hk]]. apply in_seq in Hk.
  destruct (nth_error dmr k) as [x|] eqn:Hx;
    [|apply nth_error_None in Hx; lia].
  exists k, x. rewrite (nth_error_nth _ _ _ Hx). cbn [dmr_probe_id dmr_range dmr_segment_id
    dmr_dmp dmr_segment_start dmr_segment_end dmr_segment_p_value
    dmr_segment_p_value_adjusted dmr_segment_estimates].
  split; [lia|]. split; [exact Hx|]. repeat split; reflexivity.
Qed.

Lemma no_range_of_positive_width (annotation : Annotations) :
  non_empty_coords_df annotation = []
  <-> forall p g, In (p, g) (genomic_ranges annotation) -> End_ g <= Start g.
Proof.
  unfold non_empty_coords_df, probe_coords_df. split.
  - intros H p g Hin.
    destruct (End_ g >? Start g) eqn:Hwidth;
      [|rewrite Z.gtb_ltb in Hwidth; apply Z.ltb_ge in Hwidth; exact Hwidth].
    exfalso.
    assert (Hrow : In (p, {| Chromosome := Chromosome g; Start := Start g; End_ := End_ g;
                            Strand := None |})
                      (filter (fun r : string * grange => End_ (snd r) >? Start (snd r))
                         (map (fun r : string * grange =>
                                 (fst r, {| Chromosome := Chromosome (snd r);
                                            Start := Start (snd r); End_ := End_ (snd r);
                                            Strand := None |}))
                              (genomic_ranges annotation)))).
    { apply filter_In. split; [|exact Hwidth].
      apply in_map_iff. exists (p, g). split; [reflexivity|exact Hin]. }
    rewrite H in Hrow. contradiction.
  - intros H.
    destruct (filter _ _) as [|[p a] rest] eqn:Hfilter; [reflexivity|]. exfalso.
    assert (Hin : In (p, a) ((p, a) :: rest)) by (left; reflexivity).
    rewrite <- Hfilter in Hin. apply filter_In in Hin. destruct Hin as [Hin Hwidth].
    apply in_map_iff in Hin. destruct Hin as [[p' g] [Heq Hg]].
    cbn [fst snd] in Heq. injection Heq as -> <-. cbn [snd End_ Start] in Hwidth.
    specialize (H p g Hg). apply Z.gtb_lt in Hwidth. lia.
Qed.

Section get_dmr_facts.

Variable remove_probe_suffix : string -> string.
Variable np_quantile : list float -> float -> outcome float.
Variable combine_pvalues : list float -> float * float.
Variable multipletests_fdr_bh : list float -> outcome (list float).

(** X3. [get_dmr] returns the empty table, after the error "no match
    found", exactly when no range of the annotation has a positive width;
    the probe ids of the annotation and of the beta matrix play no part. *)
Theorem empty_table_iff_no_range
    (betas : pd.DataFrame) (annotation : Annotations) (dmp : pd.DataFrame)
    (dist_cutoff : option float) (seg_per_locus : float) :
  let r := get_dmr remove_probe_suffix np_quantile combine_pvalues multipletests_fdr_bh
                   betas annotation dmp dist_cutoff seg_per_locus in
  (result r = Return empty_table
   <-> forall p g, In (p, g) (genomic_ranges annotation) -> End_ g <= Start g)
  /\ (result r = Return empty_table ->
      trace r = [Log INFO start_get_dmr; Log ERROR no_match_found]).
Proof.
  cbv zeta. rewrite <- no_range_of_positive_width.
  rewrite <- (no_match_guard_needs_no_range remove_probe_suffix betas annotation).
  assert (Hguard : result (get_dmr remove_probe_suffix np_quantile combine_pvalues
                             multipletests_fdr_bh betas annotation dmp dist_cutoff
                             seg_per_locus) = Return empty_table ->
                   cpg_ids remove_probe_suffix betas annotation = []).
  { intros H. apply get_dmr_inv in H. cbv zeta in H.
    destruct H as [[Hids _]|[_ [cutoff [table [_ [_ Hagg]]]]]]; [exact Hids|].
    apply aggregate_columns in Hagg. congruence. }
  split; [split; [exact Hguard|]|].
  - intros Hids. unfold get_dmr. rewrite Hids. reflexivity.
  - intros H. apply Hguard in H. unfold get_dmr. rewrite H. reflexivity.
Qed.

(** X5. A DMP table without a [p_value] column: the statistics of the
    segments raise [KeyError], so [get_dmr] returns no table but the empty
    one of the no-match guard. *)
Theorem p_value_column_is_required
    (betas : pd.DataFrame) (annotation : Annotations) (dmp : pd.DataFrame)
    (dist_cutoff : option float) (seg_per_locus : float) :
  pd.mem "p_value" (pd.columns dmp) = false ->
  (forall table,
      result (aggregate combine_pvalues multipletests_fdr_bh table dmp)
      = Raise (KeyError ["p_value"]))
  /\ (forall t,
        result (get_dmr remove_probe_suffix np_quantile combine_pvalues
                  multipletests_fdr_bh betas annotation dmp dist_cutoff seg_per_locus)
        = Return t ->
        t = empty_table).
Proof.
  intros Hp.
  assert (Hposition : pd.position "p_value" (pd.columns dmp) = None).
  { apply mem_not_In in Hp. induction (pd.columns dmp) as [|c cols IH]; [reflexivity|].
    cbn [pd.position]. destruct (String.eqb c "p_value") eqn:Hc.
    - apply String.eqb_eq in Hc. subst. exfalso. apply Hp. left. reflexivity.
    - rewrite IH; [reflexivity|]. intros Hin. apply Hp. right. exact Hin. }
  assert (Hraise : forall table,
             result (aggregate combine_pvalues multipletests_fdr_bh table dmp)
             = Raise (KeyError ["p_value"])).
  { intros table. unfold aggregate. cbv zeta. log_step. rewrite Hposition. reflexivity. }
  split; [exact Hraise|].
  intros t H. apply get_dmr_inv in H. cbv zeta in H.
  destruct H as [[_ Ht]|[_ [cutoff [table [_ [_ Hagg]]]]]]; [exact Ht|].
  rewrite Hraise in Hagg. discriminate.
Qed.

Lemma aggregate_mapping (table : pd.labelled (grange * Z)) (dmp : pd.DataFrame) (t : dmr_table) :
  NoDup (pd.index (pd.rows dmp)) ->
  result (aggregate combine_pvalues multipletests_fdr_bh table dmp) = Return t ->
  probe_segments t = map (fun r => (fst r, snd (snd r))) table.
Proof.
  intros Hdmp H. apply aggregate_inv in H. cbv zeta in H.
  destruct H as [i [values [adjusted [_ [_ [_ ->]]]]]].
  unfold probe_segments, dmr_table_of. cbn [dmr_rows]. rewrite map_map.
  cbn [dmr_probe_id dmr_segment_id].
  rewrite (map_nth_seq (fun r : string * (grange * Z * list float) =>
                          (fst r, snd (fst (snd r))))).
  rewrite (join_left_rows (pd.na_row dmp) table (pd.rows dmp) Hdmp), map_map. reflexivity.
Qed.

(** X6. The segment of a probe does not depend on the statistics of the
    probes: two runs of [get_dmr] that differ in the DMP table only (its
    probe ids all different) return the same probe-to-segment mapping. *)
Theorem segments_do_not_depend_on_dmp
    (betas : pd.DataFrame) (annotation : Annotations) (dmp dmp' : pd.DataFrame)
    (dist_cutoff : option float) (seg_per_locus : float) (t t' : dmr_table) :
  NoDup (pd.index (pd.rows dmp)) ->
  NoDup (pd.index (pd.rows dmp')) ->
  result (get_dmr remove_probe_suffix np_quantile combine_pvalues multipletests_fdr_bh
            betas annotation dmp dist_cutoff seg_per_locus) = Return t ->
  result (get_dmr remove_probe_suffix np_quantile combine_pvalues multipletests_fdr_bh
            betas annotation dmp' dist_cutoff seg_per_locus) = Return t' ->
  probe_segments t = probe_segments t'.
Proof.
  intros Hdmp Hdmp' H H'.
  apply get_dmr_inv in H. apply get_dmr_inv in H'. cbv zeta in H, H'.
  destruct H as [[Hids ->]|[Hids [cutoff [table [Hcut [Hsegs Hagg]]]]]];
    destruct H' as [[Hids' ->]|[Hids' [cutoff' [table' [Hcut' [Hsegs' Hagg']]]]]];
    try congruence.
  rewrite Hcut in Hcut'. injection Hcut' as <-.
  rewrite Hsegs in Hsegs'. injection Hsegs' as <-.
  rewrite (aggregate_mapping table dmp t Hdmp Hagg).
  rewrite (aggregate_mapping table dmp' t' Hdmp' Hagg'). reflexivity.
Qed.

End get_dmr_facts.

Section segment_statistics.

Variable remove_probe_suffix : string -> string.
Variable np_quantile : list float -> float -> outcome float.
Variable combine_pvalues : list float -> float * float.
Variable multipletests_fdr_bh : list float -> outcome (list float).

(** X7. In the table [get_dmr] returns, the start of a probe's segment is
    at most the start of the probe and the end of the segment at least its
    end, and two rows of one segment have the same segment start, end,
    p-value and mean estimates. *)
Theorem segment_fields_of_a_row
    (betas : pd.DataFrame) (annotation : Annotations) (dmp : pd.DataFrame)
    (dist_cutoff : option float) (seg_per_locus : float) (t : dmr_table) :
  result (get_dmr remove_probe_suffix np_quantile combine_pvalues multipletests_fdr_bh
            betas annotation dmp dist_cutoff seg_per_locus) = Return t ->
  (forall r, In r (dmr_rows t) ->
     dmr_segment_start r <= Start (dmr_range r)
     /\ End_ (dmr_range r) <= dmr_segment_end r)
  /\ (forall r r', In r (dmr_rows t) -> In r' (dmr_rows t) ->
        dmr_segment_id r = dmr_segment_id r' ->
        dmr_segment_start r = dmr_segment_start r'
        /\ dmr_segment_end r = dmr_segment_end r'
        /\ dmr_segment_p_value r = dmr_segment_p_value r'
        /\ dmr_segment_estimates r = dmr_segment_estimates r').
Proof.
  intros H. apply get_dmr_inv in H. cbv zeta in H.
  destruct H as [[_ ->]|[_ [cutoff [table [_ [_ Hagg]]]]]];
    [split; intros; contradiction|].
  apply aggregate_inv in Hagg. cbv zeta in Hagg.
  destruct Hagg as [i [values [adjusted [_ [_ [_ ->]]]]]].
  set (dmr := pd.join pd.left (pd.na_row dmp) table (pd.rows dmp)).
  set (ids := map (fun r : string * (grange * Z * list float) => snd (fst (snd r))) dmr).
  assert (Hids : List.length ids = List.length dmr) by apply length_map.
  assert (Hid : forall k x, nth_error dmr k = Some x -> nth k ids 0 = snd (fst (snd x))).
  { intros k x Hx. unfold ids.
    rewrite (nth_map_lt _ dmr k x 0) by (apply nth_error_Some; rewrite Hx; discriminate).
    rewrite (nth_error_nth _ _ _ Hx). reflexivity. }
  split.
  - intros r Hr. apply dmr_table_of_row in Hr.
    destruct Hr as [k [x [Hk [Hx [_ [Hrange [_ [_ [Hstart [Hend _]]]]]]]]]].
    rewrite Hstart, Hend, Hrange, !transform_nth by lia.
    assert (Hown : nth k (map (Z.eqb (nth k ids 0)) ids) false = true).
    { rewrite (nth_map_lt _ ids k 0 false) by lia. apply Z.eqb_refl. }
    split.
    + apply group_min_le.
      replace (Start (fst (fst (snd x))))
        with (nth k (map (fun r : string * (grange * Z * list float) =>
                            Start (fst (fst (snd r)))) dmr) 0).
      * apply select_In_nth; [rewrite length_map; exact Hk|exact Hown].
      * rewrite (nth_map_lt _ dmr k x 0) by exact Hk.
        rewrite (nth_error_nth _ _ _ Hx). reflexivity.
    + apply max_ge.
      replace (End_ (fst (fst (snd x))))
        with (nth k (map (fun r : string * (grange * Z * list float) =>
                            End_ (fst (fst (snd r)))) dmr) 0).
      * apply select_In_nth; [rewrite length_map; exact Hk|exact Hown].
      * rewrite (nth_map_lt _ dmr k x 0) by exact Hk.
        rewrite (nth_error_nth _ _ _ Hx). reflexivity.
  - intros r r' Hr Hr' Hsame.
    apply dmr_table_of_row in Hr. apply dmr_table_of_row in Hr'.
    destruct Hr as [k [x [Hk [Hx [_ [_ [Hseg [_ [Hstart [Hend [Hp [_ Hest]]]]]]]]]]]].
    destruct Hr' as [k' [x' [Hk' [Hx' [_ [_ [Hseg' [_ [Hstart' [Hend' [Hp' [_ Hest']]]]]]]]]]]].
    assert (Hkey : nth k ids 0 = nth k' ids 0).
    { rewrite (Hid k x Hx), (Hid k' x' Hx'). congruence. }
    rewrite Hstart, Hstart', Hend, Hend', Hp, Hp', Hest, Hest'.
    rewrite !transform_nth by lia. rewrite Hkey.
    repeat split; try reflexivity.
    apply map_ext_in. intros col Hcol. apply in_map_iff in Hcol.
    destruct Hcol as [c [<- _]]. rewrite !transform_nth by lia. rewrite Hkey. reflexivity.
Qed.

(** X8. A row whose segment has no p-value has no adjusted p-value either:
    the adjustment is given the defined p-values only, and the other rows
    are left missing. *)
Theorem undefined_p_values_are_not_adjusted
    (betas : pd.DataFrame) (annotation : Annotations) (dmp : pd.DataFrame)
    (dist_cutoff : option float) (seg_per_locus : float) (t : dmr_table) (r : dmr_row) :
  result (get_dmr remove_probe_suffix np_quantile combine_pvalues multipletests_fdr_bh
            betas annotation dmp dist_cutoff seg_per_locus) = Return t ->
  In r (dmr_rows t) ->
  Float.isna (dmr_segment_p_value r) = true ->
  Float.isna (dmr_segment_p_value_adjusted r) = true.
Proof.
  intros H Hr Hna. apply get_dmr_inv in H. cbv zeta in H.
  destruct H as [[_ ->]|[_ [cutoff [table [_ [_ Hagg]]]]]]; [contradiction|].
  apply aggregate_inv in Hagg. cbv zeta in Hagg.
  destruct Hagg as [i [values [adjusted [_ [_ [Hassign ->]]]]]].
  apply dmr_table_of_row in Hr.
  destruct Hr as [k [x [Hk [Hx [_ [_ [_ [_ [_ [_ [Hp [Hadjusted _]]]]]]]]]]]].
  rewrite Hp in Hna. rewrite Hadjusted.
  unfold pd.assign in Hassign.
  destruct (Nat.eqb _ _) in Hassign; [|discriminate]. injection Hassign as <-.
  rewrite scatter_kept.
  - rewrite (nth_map_lt _ _ k x nan) by exact Hk. reflexivity.
  - match goal with
    | |- nth k (map Float.notna ?spv) true = false =>
        assert (Hlen : List.length spv = List.length
                         (pd.join pd.left (pd.na_row dmp) table (pd.rows dmp)))
          by (rewrite transform_length; apply length_map);
        rewrite (nth_map_lt _ spv k nan true) by lia
    end.
    unfold Float.notna. rewrite Hna. reflexivity.
Qed.

End segment_statistics.

(** ** An adjustment that is given no p-value *)

Lemma select_undefined (l : list float) :
  existsb Float.notna l = false -> pd.select (map Float.notna l) l = [].
Proof.
  induction l as [|x l IH]; [reflexivity|].
  cbn [existsb map pd.select]. destruct (Float.notna x); [discriminate|].
  cbn [orb]. exact IH.
Qed.

Section no_p_value.

Variable remove_probe_suffix : string -> string.
Variable np_quantile : list float -> float -> outcome float.
Variable combine_pvalues : list float -> float * float.
Variable multipletests_fdr_bh : list float -> outcome (list float).

(** X23. When the combined p-value of no segment is defined, the adjustment
    of line 221 is called on no p-value; if that call raises, as the one of
    statsmodels does, its exception ends [get_dmr], which returns no table. *)
Theorem adjustment_of_no_p_value_ends_get_dmr
    (betas : pd.DataFrame) (annotation : Annotations) (dmp : pd.DataFrame)
    (dist_cutoff : option float) (seg_per_locus cutoff : float)
    (segs : pd.labelled (grange * Z)) (e : exn) :
  let ranges := cpg_ranges remove_probe_suffix betas annotation in
  cpg_ids remove_probe_suffix betas annotation <> [] ->
  result (determine_cutoff np_quantile dist_cutoff seg_per_locus
            (beta_euclidian_dist ranges) (last_probe_in_chromosome ranges))
  = Return cutoff ->
  result (segments (probe_coords_df annotation)
            (pd.index (pd.rows (betas_by_probe betas))) (segment_id ranges cutoff))
  = Return segs ->
  pd.mem "p_value" (pd.columns dmp) = true ->
  existsb Float.notna (segment_p_values combine_pvalues segs dmp) = false ->
  multipletests_fdr_bh [] = Raise e ->
  result (get_dmr remove_probe_suffix np_quantile combine_pvalues multipletests_fdr_bh
            betas annotation dmp dist_cutoff seg_per_locus)
  = Raise e.
Proof.
  intros ranges Hmatch Hcutoff Hsegs Hp Hnone Hraise.
  destruct (position_present _ _ Hp) as [i Hi].
  unfold segment_p_values in Hnone. cbv zeta in Hnone. rewrite Hi in Hnone.
  apply select_undefined in Hnone.
  unfold get_dmr. log_step.
  destruct (cpg_ids remove_probe_suffix betas annotation) as [|x xs]; [congruence|].
  fold ranges. rewrite result_bind, Hcutoff, result_bind, Hsegs.
  unfold aggregate. cbv zeta. rewrite Hi.
  log_step.
  rewrite bind_ret_l_result.
  log_step.
  rewrite result_bind, Hnone, Hraise. reflexivity.
Qed.

End no_p_value.

(** ** The first join *)

(** X4. A probe of the first join (line 147) has a range of positive width
    in the annotation, whose coordinates it keeps, and a row of the beta
    matrix without a missing value, whose values it keeps. *)
Theorem first_join_rows
    (betas : pd.DataFrame) (annotation : Annotations)
    (p : string) (a : grange) (v : list float) :
  In (p, (a, v)) (cpg_ids_exact betas annotation) ->
  Start a < End_ a
  /\ forallb Float.notna v = true
  /\ In (p, v) (pd.rows (betas_by_probe betas))
  /\ exists g, In (p, g) (genomic_ranges annotation)
               /\ Chromosome a = Chromosome g /\ Start a = Start g /\ End_ a = End_ g.
Proof.
  intros H. unfold cpg_ids_exact in H. apply join_inner_In in H. destruct H as [Ha Hv].
  unfold non_empty_coords_df in Ha. apply filter_In in Ha. destruct Ha as [Ha Hwidth].
  cbn [snd] in Hwidth. apply Z.gtb_lt in Hwidth.
  unfold betas_no_na, pd.dropna in Hv. cbn [pd.rows] in Hv.
  apply filter_In in Hv. destruct Hv as [Hv Hcomplete]. cbn [snd] in Hcomplete.
  split; [exact Hwidth|]. split; [exact Hcomplete|]. split; [exact Hv|].
  unfold probe_coords_df in Ha. apply in_map_iff in Ha. destruct Ha as [[p' g] [Heq Hg]].
  cbn [fst snd] in Heq. injection Heq as -> <-.
  exists g. repeat split. exact Hg.
Qed.

(** ** A fit that fails *)

Lemma Forall2_returns_In {A B : Type} (fit : A -> run B) (tasks : list A) (ys : list B)
    (x : A) :
  Forall2 (returns fit) tasks ys -> In x tasks -> exists y, returns fit x y.
Proof.
  intros H. induction H as [|x' y' tasks' ys' Hxy _ IH]; intros Hin; [contradiction|].
  destruct Hin as [->|Hin]; [exists y'; exact Hxy|exact (IH Hin)].
Qed.

Section failing_fit.

Variable dmatrix : string -> pd.labelled (list string) * list string -> outcome pd.DataFrame.
Variable OLS : list float -> pd.DataFrame -> outcome RegressionResults.
Variable schedule : nat -> list nat.
Hypothesis schedule_is_permutation : forall n, Permutation (schedule n) (seq 0 n).

(** X9. A fit that raises ends [get_dmp]: when the model of one probe
    cannot be fitted, no table is returned for the other probes, on either
    side of the threshold of 10000 rows. *)
Theorem a_failing_fit_ends_get_dmp
    (betas : pd.DataFrame) (formula : string) (sample_sheet : SampleSheet) (keep_na : bool)
    (design_matrix : pd.DataFrame) (row : string * list float) (e : exn) :
  let fitted_betas := if keep_na then betas else pd.dropna betas in
  pd.mem "sample_name" (sheet_columns sample_sheet) = true ->
  (forall info, set_index "sample_name" sample_sheet = Return info ->
                dmatrix formula info = Return design_matrix) ->
  In row (pd.rows fitted_betas) ->
  OLS (snd row) design_matrix = Raise e ->
  exists e', result (get_dmp dmatrix OLS schedule betas formula sample_sheet keep_na)
             = Raise e'.
Proof.
  intros fitted_betas Hname Hdesign Hrow Hfit.
  destruct (set_index_returns _ _ Hname) as [info Hinfo].
  pose proof (Hdesign info Hinfo) as HD.
  assert (Hbetas : (if negb keep_na then pd.dropna betas else betas) = fitted_betas)
    by (subst fitted_betas; destruct keep_na; reflexivity).
  set (fit := fun row : string * list float =>
                get_model_parameters OLS (snd row) design_matrix
                  (factor_names design_matrix)).
  assert (Hnone : forall ys, ~ Forall2 (returns fit) (pd.rows fitted_betas) ys).
  { intros ys Hys. destruct (Forall2_returns_In fit _ _ row Hys Hrow) as [y Hy].
    unfold returns, fit in Hy. rewrite get_model_parameters_result, Hfit in Hy.
    discriminate. }
  assert (Hraise : exists e', result (fit_rows OLS schedule fitted_betas design_matrix
                                        (factor_names design_matrix)) = Raise e').
  { destruct (result (fit_rows OLS schedule fitted_betas design_matrix
                        (factor_names design_matrix))) as [ys|e'] eqn:Hrows;
      [|exists e'; reflexivity].
    exfalso. apply (Hnone ys). unfold fit_rows in Hrows. fold fit in Hrows.
    destruct (Z.of_nat (List.length (pd.rows fitted_betas)) <=? 10000).
    - apply sequential_returns. exact Hrows.
    - apply (Parallel_returns fit schedule schedule_is_permutation). exact Hrows. }
  destruct Hraise as [e' He']. exists e'.
  unfold get_dmp. log_step. rewrite Hname. cbn [negb]. rewrite Hbetas.
  unfold set_level_as_index.
  rewrite result_bind, Hinfo. cbn [lift result snd].
  rewrite result_bind, HD. cbn [lift result snd].
  rewrite result_bind, He'. reflexivity.
Qed.

End failing_fit.

(** ** The order of the rows of get_dmr *)

Lemma insert_Sorted {X : Type} (leb : X -> X -> bool) (x : X) (l : list X) :
  (forall a b, leb a b = true \/ leb b a = true) ->
  Sorted (fun a b => leb a b = true) l ->
  Sorted (fun a b => leb a b = true) (pd.insert leb x l).
Proof.
  intros Htotal Hl. induction Hl as [|y l Hl IH Hhd]; cbn [pd.insert].
  - constructor; constructor.
  - destruct (leb x y) eqn:Hxy.
    + constructor; [constructor; assumption|constructor; exact Hxy].
    + assert (Hyx : leb y x = true) by (destruct (Htotal x y); congruence).
      constructor; [exact IH|].
      destruct l as [|z l]; cbn [pd.insert]; [constructor; exact Hyx|].
      destruct (leb x z); constructor; [exact Hyx|].
      inversion Hhd. assumption.
Qed.

Lemma sort_Sorted {X : Type} (leb : X -> X -> bool) (l : list X) :
  (forall a b, leb a b = true \/ leb b a = true) ->
  Sorted (fun a b => leb a b = true) (pd.sort leb l).
Proof.
  intros Htotal. unfold pd.sort. induction l as [|x l IH]; cbn [fold_right].
  - constructor.
  - apply insert_Sorted; assumption.
Qed.

Lemma segment_id_leb_total (a b : option Z) :
  segment_id_leb a b = true \/ segment_id_leb b a = true.
Proof.
  destruct a as [x|], b as [y|]; cbn [segment_id_leb]; auto.
  destruct (Z.leb_spec x y); [left; reflexivity|right; apply Z.leb_le; lia].
Qed.

Lemma Sorted_map {X Y : Type} (R : Y -> Y -> Prop) (g : X -> Y) (l : list X) :
  Sorted (fun a b => R (g a) (g b)) l -> Sorted R (map g l).
Proof.
  intros H. induction H as [|x l Hl IH Hhd]; cbn [map]; constructor; [exact IH|].
  destruct Hhd; cbn [map]; constructor. assumption.
Qed.

(** Ids in order, the missing ones last, are in order once the missing ones
    are replaced by ids above all the others. *)
Lemma fill_na_Sorted (ids : list (option Z)) (next : Z) :
  Sorted (fun a b => segment_id_leb a b = true) ids ->
  (forall s, In (Some s) ids -> s < next) ->
  Sorted Z.le (fill_na next ids).
Proof.
  intros H. revert next. induction H as [|a ids Hids IH Hhd]; intros next Hold;
    [constructor|].
  destruct a as [s|]; cbn [fill_na].
  - constructor.
    + apply IH. intros s' Hs'. apply Hold. right. exact Hs'.
    + destruct ids as [|[s'|] ids]; cbn [fill_na]; constructor.
      * inversion Hhd as [|? ? Hle]; subst. cbn [segment_id_leb] in Hle.
        apply Z.leb_le. exact Hle.
      * assert (s < next) by (apply Hold; left; reflexivity). lia.
  - constructor.
    + apply IH. intros s' Hs'.
      assert (s' < next) by (apply Hold; right; exact Hs'). lia.
    + destruct ids as [|[s'|] ids]; cbn [fill_na]; constructor.
      * inversion Hhd as [|? ? Hle]; subst. cbn [segment_id_leb] in Hle. discriminate.
      * lia.
Qed.

Lemma segments_inv (probe_coords : pd.labelled grange) (betas_index : list string)
    (segment_id : pd.labelled Z) (table : pd.labelled (grange * Z)) :
  result (segments probe_coords betas_index segment_id) = Return table ->
  exists located,
    pd.loc probe_coords betas_index = Return located
    /\ map (fun r => snd (snd r)) table
       = fill_na (pd.max (map snd segment_id) + 1)
           (map (fun r => snd (snd r))
              (pd.sort (fun r1 r2 : string * (grange * option Z) =>
                          segment_id_leb (snd (snd r1)) (snd (snd r2)))
                 (pd.join pd.left None located
                    (map (fun r => (fst r, Some (snd r))) segment_id)))).
Proof.
  unfold segments. intros H. rewrite result_bind in H.
  destruct (pd.loc probe_coords betas_index) as [located|e]; [|discriminate].
  cbn [lift result snd] in H. cbv zeta in H.
  exists located. split; [reflexivity|].
  set (sorted := pd.sort (fun r1 r2 : string * (grange * option Z) =>
                            segment_id_leb (snd (snd r1)) (snd (snd r2)))
                         (pd.join pd.left None located
                            (map (fun r => (fst r, Some (snd r))) segment_id))) in *.
  set (last_segment_id := pd.max (map snd segment_id)) in *.
  set (ids := map (fun r : string * (grange * option Z) => snd (snd r)) sorted) in *.
  log_step_in H.
  assert (Hmask : map (fun r : string * (grange * option Z) =>
                         match snd (snd r) with None => true | Some _ => false end) sorted
                  = map is_missing ids).
  { unfold ids. rewrite map_map. reflexivity. }
  rewrite Hmask in H. rewrite result_bind in H.
  assert (Hfilled :
    result (if (0 <? pd.count_true (map is_missing ids))%nat
            then
              LOGGER.info (adding_na_segments (pd.count_true (map is_missing ids))) ;;
              filled0 <-
                lift (pd.assign (map is_missing ids)
                        (map (fun n => Some (Z.of_nat n + last_segment_id + 1))
                             (seq 0 (pd.count_true (map is_missing ids))))
                        ids) ;;
              lift (pd.astype_int filled0)
            else lift (pd.astype_int ids))
    = Return (fill_na (last_segment_id + 1) ids)).
  { destruct (0 <? pd.count_true (map is_missing ids))%nat eqn:Hnb.
    - log_step. rewrite result_bind. unfold pd.assign.
      rewrite length_map, length_seq, Nat.eqb_refl. cbn [lift result snd].
      rewrite assign_new_ids. reflexivity.
    - apply Nat.ltb_ge in Hnb. cbn [lift result snd].
      apply cast_complete_ids. lia. }
  rewrite Hfilled in H. cbn [ret result snd] in H. injection H as <-.
  unfold pd.zip_with. rewrite map_map. cbn [snd].
  change (map (fun x : string * (grange * option Z) * Z => snd x)
              (combine sorted (fill_na (last_segment_id + 1) ids)))
    with (map snd (combine sorted (fill_na (last_segment_id + 1) ids))).
  apply map_snd_combine. unfold ids. rewrite fill_na_length, length_map. reflexivity.
Qed.

Section row_order.

Variable remove_probe_suffix : string -> string.
Variable np_quantile : list float -> float -> outcome float.
Variable combine_pvalues : list float -> float * float.
Variable multipletests_fdr_bh : list float -> outcome (list float).

(** X10. The rows of the table [get_dmr] returns are in the order of their
    segment ids (the DMP table having one row per probe id at most): the
    probes of the segmentation first, the probes with a new id last. *)
Theorem rows_are_ordered_by_segment_id
    (betas : pd.DataFrame) (annotation : Annotations) (dmp : pd.DataFrame)
    (dist_cutoff : option float) (seg_per_locus : float) (t : dmr_table) :
  NoDup (pd.index (pd.rows dmp)) ->
  result (get_dmr remove_probe_suffix np_quantile combine_pvalues multipletests_fdr_bh
            betas annotation dmp dist_cutoff seg_per_locus) = Return t ->
  Sorted Z.le (map dmr_segment_id (dmr_rows t)).
Proof.
  intros Hdmp H. apply get_dmr_inv in H. cbv zeta in H.
  destruct H as [[_ ->]|[_ [cutoff [table [_ [Hsegs Hagg]]]]]]; [constructor|].
  pose proof (aggregate_mapping combine_pvalues multipletests_fdr_bh table dmp t Hdmp Hagg)
    as Hmapping.
  assert (Hids : map dmr_segment_id (dmr_rows t) = map (fun r => snd (snd r)) table).
  { transitivity (map snd (probe_segments t)).
    - unfold probe_segments. rewrite map_map. reflexivity.
    - rewrite Hmapping, map_map. reflexivity. }
  rewrite Hids. apply segments_inv in Hsegs. destruct Hsegs as [located [_ ->]].
  apply fill_na_Sorted.
  - apply Sorted_map. apply sort_Sorted. intros a b. apply segment_id_leb_total.
  - intros s Hs. apply in_map_iff in Hs. destruct Hs as [r [Hr Hin]].
    apply (Permutation_in _ (sort_Permutation _ _)) in Hin.
    unfold pd.join in Hin. apply in_flat_map in Hin. destruct Hin as [x [_ Hin]].
    assert (Hsome : In (Some s) (pd.lookup_all (fst x)
                      (map (fun r => (fst r, Some (snd r)))
                           (segment_id (cpg_ranges remove_probe_suffix betas annotation)
                              cutoff)))).
    { revert Hin.
      generalize (pd.lookup_all (fst x)
                    (map (fun r : string * Z => (fst r, Some (snd r)))
                         (segment_id (cpg_ranges remove_probe_suffix betas annotation)
                            cutoff))).
      intros [|b bs] Hin.
      - destruct Hin as [Hin|[]]. subst r. discriminate.
      - apply in_map_iff in Hin. destruct Hin as [b' [Hb' Hin]].
        subst r. cbn [snd] in Hr. subst b'. exact Hin. }
    unfold pd.lookup_all in Hsome. apply in_map_iff in Hsome.
    destruct Hsome as [row [Hrow Hin']]. apply filter_In in Hin'. destruct Hin' as [Hin' _].
    apply in_map_iff in Hin'. destruct Hin' as [[q s'] [Hq Hqs]]. subst row.
    cbn [fst snd] in Hrow. injection Hrow as ->.
    assert (s <= pd.max (map snd (segment_id (cpg_ranges remove_probe_suffix betas annotation)
                                    cutoff))); [|lia].
    apply max_ge. apply in_map_iff. exists (q, s). split; [reflexivity|exact Hqs].
Qed.

End row_order.

(** ** Witnesses *)

(** X1, witness: the four example probes, in two segments. *)
Lemma segment_ids_are_contiguous_example :
  example_ranges <> []
  /\ pd.max (map snd (segment_id example_ranges (ratio 1 2)))
     = Z.of_nat (pd.count_true (change_points example_ranges (ratio 1 2)))
  /\ (forall s, In s (map snd (segment_id example_ranges (ratio 1 2)))
                <-> 1 <= s <= pd.max (map snd (segment_id example_ranges (ratio 1 2)))).
Proof.
  assert (H : example_ranges <> []) by (vm_compute; discriminate).
  split; [exact H|].
  apply (segment_ids_are_contiguous example_ranges (ratio 1 2) H).
Defined.

(** X2, witness: the first two example probes are in segment 1. *)
Lemma segment_is_a_run_of_one_chromosome_example :
  nth 0 (map snd (segment_id example_ranges (ratio 1 2))) 0
  = nth 1 (map snd (segment_id example_ranges (ratio 1 2))) 0
  /\ nth 0 (map (fun r => Chromosome (fst (snd r))) example_ranges) EmptyString
     = nth 1 (map (fun r => Chromosome (fst (snd r))) example_ranges) EmptyString
  /\ Float.gt (nth 0 (beta_euclidian_dist example_ranges) nan) (ratio 1 2) = false.
Proof.
  assert (Hsame : nth 0 (map snd (segment_id example_ranges (ratio 1 2))) 0
                  = nth 1 (map snd (segment_id example_ranges (ratio 1 2))) 0)
    by (vm_compute; reflexivity).
  split; [exact Hsame|].
  destruct (segment_is_a_run_of_one_chromosome example_ranges (ratio 1 2) 0 1)
    as [Hchromosome Hdistance]; [lia|vm_compute; lia|exact Hsame|].
  split; [exact Hchromosome|apply Hdistance; lia].
Defined.

(** X4, witness: the first example probe of the first join. *)
Lemma first_join_rows_example :
  exists row,
    In row (cpg_ids_exact example_betas example_annotation)
    /\ Start (fst (snd row)) < End_ (fst (snd row))
    /\ forallb Float.notna (snd (snd row)) = true.
Proof.
  assert (Hin : In ("cg01", ({| Chromosome := "chr1"; Start := 100; End_ := 101;
                                Strand := None |},
                             [ratio 1 10; ratio 1 10; ratio 1 10]))
                   (cpg_ids_exact example_betas example_annotation))
    by (vm_compute; left; reflexivity).
  eexists. split; [exact Hin|].
  destruct (first_join_rows _ _ _ _ _ Hin) as [Hwidth [Hcomplete _]].
  split; [exact Hwidth|exact Hcomplete].
Defined.

(** X5, witness: the example with a DMP table without [p_value]. *)
Lemma p_value_column_is_required_example :
  pd.mem "p_value" (pd.columns dmp_without_p_value) = false
  /\ (forall table,
        result (aggregate combine_undefined adjust_nothing table dmp_without_p_value)
        = Raise (KeyError ["p_value"]))
  /\ (forall t,
        result (get_dmr strip_suffix quantile_linear combine_undefined adjust_nothing
                  example_betas example_annotation dmp_without_p_value None (ratio 1 2))
        = Return t ->
        t = empty_table).
Proof.
  assert (H : pd.mem "p_value" (pd.columns dmp_without_p_value) = false) by reflexivity.
  split; [exact H|].
  exact (p_value_column_is_required strip_suffix quantile_linear combine_undefined
           adjust_nothing example_betas example_annotation dmp_without_p_value None
           (ratio 1 2) H).
Defined.

(** X6, witness: the example with its DMP table and with the DMP table
    without the probe that has no p-value. *)
Lemma segments_do_not_depend_on_dmp_example :
  exists t t',
    result example_run = Return t
    /\ result (get_dmr strip_suffix quantile_linear combine_mean adjust_nothing
                 example_betas example_annotation (pd.dropna example_dmp) None (ratio 1 2))
       = Return t'
    /\ probe_segments t = probe_segments t'.
Proof.
  assert (H : exists t, result example_run = Return t)
    by (eexists; vm_compute; reflexivity).
  assert (H' : exists t',
             result (get_dmr strip_suffix quantile_linear combine_mean adjust_nothing
                       example_betas example_annotation (pd.dropna example_dmp) None
                       (ratio 1 2))
             = Return t')
    by (eexists; vm_compute; reflexivity).
  destruct H as [t H]. destruct H' as [t' H'].
  exists t, t'. split; [exact H|]. split; [exact H'|].
  apply (segments_do_not_depend_on_dmp strip_suffix quantile_linear combine_mean
           adjust_nothing example_betas example_annotation example_dmp
           (pd.dropna example_dmp) None (ratio 1 2) t t'); [| |exact H|exact H'];
    distinct_labels.
Defined.

(** X7, witness: the rows of the example. *)
Lemma segment_fields_of_a_row_example :
  exists t,
    result example_run = Return t
    /\ forall r, In r (dmr_rows t) ->
         dmr_segment_start r <= Start (dmr_range r)
         /\ End_ (dmr_range r) <= dmr_segment_end r.
Proof.
  assert (H : exists t, result example_run = Return t)
    by (eexists; vm_compute; reflexivity).
  destruct H as [t H]. exists t. split; [exact H|].
  apply (segment_fields_of_a_row strip_suffix quantile_linear combine_mean
           adjust_nothing example_betas example_annotation example_dmp None (ratio 1 2) t H).
Defined.

(** X8, witness: the last row of the example, the probe without a p-value
    in a segment of its own. *)
Lemma undefined_p_values_are_not_adjusted_example :
  exists t r,
    result example_run = Return t
    /\ In r (dmr_rows t)
    /\ Float.isna (dmr_segment_p_value r) = true
    /\ Float.isna (dmr_segment_p_value_adjusted r) = true.
Proof.
  assert (H : exists t r, result example_run = Return t /\ In r (dmr_rows t)
                          /\ Float.isna (dmr_segment_p_value r) = true).
  { eexists. eexists. split; [vm_compute; reflexivity|].
    split; [do 4 right; left; reflexivity|reflexivity]. }
  destruct H as [t [r [H [Hr Hna]]]]. exists t, r.
  split; [exact H|]. split; [exact Hr|]. split; [exact Hna|].
  exact (undefined_p_values_are_not_adjusted strip_suffix quantile_linear combine_mean
           adjust_nothing example_betas example_annotation example_dmp None (ratio 1 2)
           t r H Hr Hna).
Defined.

(** X9, witness: the fifth example probe has a missing beta value, and its
    fit fails. *)
Lemma a_failing_fit_ends_get_dmp_example :
  exists e,
    result (get_dmp dmatrix_of_columns OLS_complete last_task_first
              example_betas "~ age" example_sample_sheet true)
    = Raise e.
Proof.
  apply (a_failing_fit_ends_get_dmp dmatrix_of_columns OLS_complete last_task_first
           last_task_first_is_permutation example_betas "~ age" example_sample_sheet true
           example_design_matrix ("cg05", [ratio 9 10; nan; ratio 9 10])
           (LibraryError "MissingDataError")).
  - reflexivity.
  - intros info Hinfo. vm_compute in Hinfo. injection Hinfo as <-. reflexivity.
  - simpl. auto 10.
  - reflexivity.
Defined.

(** X10, witness: the rows of the example. *)
Lemma rows_are_ordered_by_segment_id_example :
  exists t,
    result example_run = Return t
    /\ Sorted Z.le (map dmr_segment_id (dmr_rows t)).
Proof.
  assert (H : exists t, result example_run = Return t)
    by (eexists; vm_compute; reflexivity).
  destruct H as [t H]. exists t. split; [exact H|].
  apply (rows_are_ordered_by_segment_id strip_suffix quantile_linear combine_mean
           adjust_nothing example_betas example_annotation example_dmp None (ratio 1 2) t);
    [distinct_labels|exact H].
Defined.

(** X23, witness: the example, when the combination of the p-values is
    undefined for every segment. *)
Lemma adjustment_of_no_p_value_ends_get_dmr_example :
  result (get_dmr strip_suffix quantile_linear combine_undefined adjust_nothing
            example_betas example_annotation example_dmp None (ratio 1 2))
  = Raise (LibraryError "ZeroDivisionError").
Proof.
  eapply (adjustment_of_no_p_value_ends_get_dmr strip_suffix quantile_linear
            combine_undefined adjust_nothing example_betas example_annotation example_dmp
            None (ratio 1 2)).
  - vm_compute. discriminate.
  - vm_compute. reflexivity.
  - vm_compute. reflexivity.
  - reflexivity.
  - vm_compute. reflexivity.
  - reflexivity.
Defined.

(** * Properties of sample.py *)

Lemma prog_result_bind {M A B : Type} (m : py.prog M A) (k : A -> py.prog M B) :
  py.result (py.bind m k) =
  match py.result m with
  | py.Returns a => py.result (k a)
  | py.Raises e => py.Raises e
  end.
Proof.
  destruct m as [t [a|e]]; cbn; [destruct (k a); reflexivity | reflexivity].
Qed.

Lemma prog_trace_bind {M A B : Type} (m : py.prog M A) (k : A -> py.prog M B) :
  py.trace (py.bind m k) =
  match py.result m with
  | py.Returns a => py.trace m ++ py.trace (k a)
  | py.Raises e => py.trace m
  end.
Proof.
  destruct m as [t [a|e]]; cbn; [destruct (k a); reflexivity | reflexivity].
Qed.

Lemma setitem_length_le {K V : Type} (eqb : K -> K -> bool) (k : K) (v : V) (d : list (K * V)) :
  (List.length d <= List.length (py.setitem eqb k v d) <= S (List.length d))%nat
  /\ (1 <= List.length (py.setitem eqb k v d))%nat.
Proof.
  induction d as [|[k' v'] d IH]; cbn; [lia|].
  destruct (eqb k' k); cbn; lia.
Qed.

Lemma getitem_setitem_same {K V : Type} (eqb : K -> K -> bool) (k : K) (v : V) (d : list (K * V)) :
  (forall a b, eqb a b = true <-> a = b) ->
  py.getitem eqb k (py.setitem eqb k v d) = Some v.
Proof.
  intros Heqb. assert (Hkk : eqb k k = true) by (apply Heqb; reflexivity).
  induction d as [|[k' v'] d IH]; cbn.
  - rewrite Hkk. reflexivity.
  - destruct (eqb k' k) eqn:E; cbn; [rewrite Hkk; reflexivity|].
    rewrite E. exact IH.
Qed.

Lemma getitem_setitem_other {K V : Type} (eqb : K -> K -> bool) (k k0 : K) (v : V)
    (d : list (K * V)) :
  (forall a b, eqb a b = true <-> a = b) -> k <> k0 ->
  py.getitem eqb k0 (py.setitem eqb k v d) = py.getitem eqb k0 d.
Proof.
  intros Heqb Hne.
  assert (Hk : eqb k k0 = false).
  { destruct (eqb k k0) eqn:E; [apply Heqb in E; contradiction | reflexivity]. }
  induction d as [|[k' v'] d IH]; cbn.
  - rewrite Hk. reflexivity.
  - destruct (eqb k' k) eqn:E; cbn.
    + apply Heqb in E. subst k'. rewrite !Hk. reflexivity.
    + destruct (eqb k' k0); [reflexivity | exact IH].
Qed.

Lemma string_eqb_iff (a b : string) : String.eqb a b = true <-> a = b.
Proof. apply String.eqb_eq. Qed.

Section read_samples_facts.

Variable Channel : Type.
Variable channels : list Channel.
Variable Channel_eqb : Channel -> Channel -> bool.
Variable format_channel : Channel -> string.
Variable IdatDataset : Type.
Variable read_idat : string -> py.answer IdatDataset.
Variable rglob : string -> string -> list string.
Variable Annotations : Type.
Variables Label Cell : Type.

Local Abbreviation Sample := (sample_py.Sample Channel IdatDataset Label Cell).
Local Abbreviation Samples := (sample_py.Samples Channel IdatDataset Annotations Label Cell).
Local Abbreviation read_channels :=
  (sample_py.read_channels Channel Channel_eqb format_channel IdatDataset read_idat rglob
     Label Cell).
Local Abbreviation read_lines :=
  (sample_py.read_lines Channel channels Channel_eqb format_channel IdatDataset read_idat
     rglob Label Cell).
Local Abbreviation read_samples :=
  (sample_py.read_samples Channel channels Channel_eqb format_channel IdatDataset read_idat
     rglob Annotations Label Cell).
Local Abbreviation pattern_of := (sample_py.pattern_of Channel format_channel).

Lemma read_lines_limit (datadir : string) (n : Z) (lines : list sample_py.sheet_line)
    (samples out : list (string * Sample)) :
  1 <= n -> Z.of_nat (List.length samples) < n ->
  py.result (read_lines datadir (Some n) lines samples) = py.Returns out ->
  Z.of_nat (List.length out) <= n.
Proof.
  intros Hn. revert samples.
  induction lines as [|line lines IH]; intros samples Hlen H.
  - cbn in H. injection H as <-. lia.
  - cbn [sample_py.read_lines] in H. rewrite prog_result_bind in H.
    destruct (py.result (read_channels datadir line channels _)) as [sample|e];
      [|discriminate].
    pose proof (setitem_length_le String.eqb (sample_py.sample_name line) sample samples)
      as [[_ Hup] _].
    unfold sample_py.limit_reached in H.
    destruct (Z.eqb_spec
      (Z.of_nat (List.length
         (py.setitem String.eqb (sample_py.sample_name line) sample samples))) n)
      as [E|E].
    + cbn in H. injection H as <-. lia.
    + apply IH in H; [exact H | lia].
Qed.

Lemma read_samples_result (self : Samples) (datadir : string) (max_samples : option Z)
    (self' : Samples) :
  py.result (read_samples self datadir max_samples) = py.Returns self' ->
  py.result
    (read_lines datadir max_samples (sample_py.sheet self) (sample_py.samples self))
  = py.Returns (sample_py.samples self')
  /\ sample_py.sheet self' = sample_py.sheet self
  /\ sample_py.annotation self' = sample_py.annotation self.
Proof.
  unfold sample_py.read_samples. intros H.
  rewrite prog_result_bind in H. cbn [sample_py.LOGGER.info py.log py.result snd] in H.
  rewrite prog_result_bind in H.
  destruct (py.result (read_lines datadir max_samples _ _)) as [out|e];
    [|discriminate].
  rewrite prog_result_bind in H. cbn in H. injection H as <-. cbn. auto.
Qed.

(** X12. [read_samples] with [max_samples] at least 1, on an object that
    holds fewer samples than that, leaves at most [max_samples] samples. *)
Theorem read_samples_max_samples (self self' : Samples) (datadir : string) (n : Z) :
  1 <= n ->
  Z.of_nat (List.length (sample_py.samples self)) < n ->
  py.result (read_samples self datadir (Some n)) = py.Returns self' ->
  Z.of_nat (List.length (sample_py.samples self')) <= n.
Proof.
  intros Hn Hlen H. apply read_samples_result in H as [H _].
  exact (read_lines_limit _ _ _ _ _ Hn Hlen H).
Qed.

Hypothesis Channel_eqb_eq : forall a b, Channel_eqb a b = true <-> a = b.

Lemma existsb_Channel_eqb (c : Channel) (l : list Channel) :
  existsb (Channel_eqb c) l = true <-> In c l.
Proof.
  rewrite existsb_exists. split.
  - intros [x [Hin E]]. apply Channel_eqb_eq in E. subst. exact Hin.
  - intros Hin. exists c. split; [exact Hin | apply Channel_eqb_eq; reflexivity].
Qed.

Lemma read_channels_inv (datadir : string) (line : sample_py.sheet_line)
    (todo : list Channel) (sample sample' : Sample) :
  py.result (read_channels datadir line todo sample) = py.Returns sample' ->
  sample_py.df sample' = sample_py.df sample
  /\ sample_py.full_df sample' = sample_py.full_df sample
  /\ forall c,
       py.getitem Channel_eqb c (sample_py.idata sample') =
       if existsb (Channel_eqb c) todo then
         match rglob datadir (pattern_of line c) with
         | [path] =>
             match read_idat path with
             | py.Returns dataset => Some dataset
             | py.Raises _ => None
             end
         | _ => py.getitem Channel_eqb c (sample_py.idata sample)
         end
       else py.getitem Channel_eqb c (sample_py.idata sample).
Proof.
  revert sample. induction todo as [|channel todo IH]; intros sample H.
  - cbn in H. injection H as <-. auto.
  - cbn [sample_py.read_channels] in H.
    destruct (rglob datadir (pattern_of line channel)) as [|path [|path' paths]] eqn:Hpaths.
    + rewrite prog_result_bind in H. cbn [sample_py.LOGGER.error py.log py.result snd] in H.
      apply IH in H as (Hdf & Hfull & Hidata). split; [exact Hdf|]. split; [exact Hfull|].
      intros c. rewrite Hidata. cbn [existsb].
      destruct (Channel_eqb c channel) eqn:E; [|reflexivity].
      apply Channel_eqb_eq in E. subst c. rewrite Hpaths. cbn [orb].
      destruct (existsb (Channel_eqb channel) todo); reflexivity.
    + rewrite prog_result_bind in H. cbn [sample_py.LOGGER.info py.log py.result snd] in H.
      rewrite prog_result_bind in H. cbn [py.lift py.result snd] in H.
      destruct (read_idat path) as [dataset|e] eqn:Hread; [|discriminate].
      apply IH in H as (Hdf & Hfull & Hidata). split; [exact Hdf|]. split; [exact Hfull|].
      intros c. rewrite Hidata. cbn [existsb sample_py.set_idata sample_py.idata].
      destruct (Channel_eqb c channel) eqn:E.
      * apply Channel_eqb_eq in E. subst c. rewrite Hpaths, Hread. cbn [orb].
        rewrite getitem_setitem_same by exact Channel_eqb_eq.
        destruct (existsb (Channel_eqb channel) todo); reflexivity.
      * cbn [orb]. rewrite getitem_setitem_other; [reflexivity | exact Channel_eqb_eq |].
        intros ->. assert (Channel_eqb c c = true) by (apply Channel_eqb_eq; reflexivity).
        congruence.
    + rewrite prog_result_bind in H. cbn [sample_py.LOGGER.error py.log py.result snd] in H.
      apply IH in H as (Hdf & Hfull & Hidata). split; [exact Hdf|]. split; [exact Hfull|].
      intros c. rewrite Hidata. cbn [existsb].
      destruct (Channel_eqb c channel) eqn:E; [|reflexivity].
      apply Channel_eqb_eq in E. subst c. rewrite Hpaths. cbn [orb].
      destruct (existsb (Channel_eqb channel) todo); reflexivity.
Qed.

Lemma read_channels_found (datadir : string) (line : sample_py.sheet_line)
    (todo : list Channel) (sample sample' : Sample) (c : Channel) (path : string) :
  py.result (read_channels datadir line todo sample) = py.Returns sample' ->
  In c todo -> rglob datadir (pattern_of line c) = [path] ->
  exists dataset, read_idat path = py.Returns dataset.
Proof.
  revert sample. induction todo as [|channel todo IH]; intros sample H Hin Hpath;
    [destruct Hin|].
  cbn [sample_py.read_channels] in H.
  destruct Hin as [->|Hin].
  - rewrite Hpath in H.
    rewrite prog_result_bind in H. cbn [sample_py.LOGGER.info py.log py.result snd] in H.
    rewrite prog_result_bind in H. cbn [py.lift py.result snd] in H.
    destruct (read_idat path) as [dataset|e]; [eauto | discriminate].
  - destruct (rglob datadir (pattern_of line channel)) as [|p [|p' ps]].
    + rewrite prog_result_bind in H. cbn [sample_py.LOGGER.error py.log py.result snd] in H.
      eauto.
    + rewrite prog_result_bind in H. cbn [sample_py.LOGGER.info py.log py.result snd] in H.
      rewrite prog_result_bind in H. cbn [py.lift py.result snd] in H.
      destruct (read_idat p) as [dataset|e]; [eauto | discriminate].
    + rewrite prog_result_bind in H. cbn [sample_py.LOGGER.error py.log py.result snd] in H.
      eauto.
Qed.

Lemma limit_not_reached (max_samples : option Z) (name : string) (sample : Sample)
    (samples : list (string * Sample)) :
  no_limit max_samples ->
  sample_py.limit_reached Channel IdatDataset Label Cell max_samples
    (py.setitem String.eqb name sample samples) = false.
Proof.
  destruct max_samples as [n|]; [|reflexivity]. cbn. intros Hn.
  pose proof (setitem_length_le String.eqb name sample samples) as [_ H].
  apply Z.eqb_neq. lia.
Qed.

Lemma read_lines_other (datadir : string) (max_samples : option Z)
    (lines : list sample_py.sheet_line) (samples out : list (string * Sample))
    (name : string) :
  py.result (read_lines datadir max_samples lines samples) = py.Returns out ->
  ~ In name (map sample_py.sample_name lines) ->
  py.getitem String.eqb name out = py.getitem String.eqb name samples.
Proof.
  revert samples. induction lines as [|line lines IH]; intros samples H Hname.
  - cbn in H. injection H as <-. reflexivity.
  - cbn [sample_py.read_lines] in H. rewrite prog_result_bind in H.
    destruct (py.result (read_channels datadir line channels _)) as [sample|e];
      [|discriminate].
    cbn [map] in Hname.
    assert (Hset : py.getitem String.eqb name
              (py.setitem String.eqb (sample_py.sample_name line) sample samples)
            = py.getitem String.eqb name samples).
    { apply getitem_setitem_other; [exact string_eqb_iff|]. intros E. apply Hname. left. exact E. }
    destruct (sample_py.limit_reached _ _ _ _ _ _).
    + cbn in H. injection H as <-. exact Hset.
    + apply IH in H; [|intros Hin; apply Hname; right; exact Hin]. congruence.
Qed.

Lemma read_lines_all (datadir : string) (max_samples : option Z)
    (lines : list sample_py.sheet_line) (samples out : list (string * Sample))
    (line : sample_py.sheet_line) :
  no_limit max_samples ->
  NoDup (map sample_py.sample_name lines) ->
  py.result (read_lines datadir max_samples lines samples) = py.Returns out ->
  In line lines ->
  exists sample,
    py.getitem String.eqb (sample_py.sample_name line) out = Some sample
    /\ py.result
         (read_channels datadir line channels
            (sample_py.new_Sample Channel IdatDataset Label Cell))
       = py.Returns sample.
Proof.
  intros Hmax. revert samples.
  induction lines as [|l lines IH]; intros samples Hnodup H Hin; [destruct Hin|].
  cbn [sample_py.read_lines] in H. rewrite prog_result_bind in H.
  destruct (py.result (read_channels datadir l channels _)) as [sample|e] eqn:Hread;
    [|discriminate].
  rewrite limit_not_reached in H by exact Hmax.
  cbn [map] in Hnodup. inversion Hnodup as [|? ? Hfresh Hrest]; subst.
  destruct Hin as [->|Hin].
  - exists sample. split; [|exact Hread].
    rewrite (read_lines_other _ _ _ _ _ _ H Hfresh).
    apply getitem_setitem_same. exact string_eqb_iff.
  - exact (IH _ Hrest H Hin).
Qed.

(** X13. Without a limit ([max_samples] is [None], or is 0 or negative),
    [read_samples] registers every line of a sheet with distinct sample
    names: the sample of a line has no table yet, and has the data of a
    channel exactly when one file, and not more, matches the pattern of the
    line and the channel. A line for which no file was found is registered
    as well, with no data. *)
Theorem read_samples_registers_every_line (self self' : Samples) (datadir : string)
    (max_samples : option Z) (line : sample_py.sheet_line) :
  no_limit max_samples ->
  NoDup (map sample_py.sample_name (sample_py.sheet self)) ->
  py.result (read_samples self datadir max_samples) = py.Returns self' ->
  In line (sample_py.sheet self) ->
  exists sample,
    py.getitem String.eqb (sample_py.sample_name line) (sample_py.samples self')
      = Some sample
    /\ sample_py.df sample = None
    /\ sample_py.full_df sample = None
    /\ forall channel dataset,
         py.getitem Channel_eqb channel (sample_py.idata sample) = Some dataset <->
         In channel channels
         /\ exists path, rglob datadir (pattern_of line channel) = [path]
                         /\ read_idat path = py.Returns dataset.
Proof.
  intros Hmax Hnodup H Hin. apply read_samples_result in H as [H _].
  destruct (read_lines_all _ _ _ _ _ _ Hmax Hnodup H Hin) as [sample [Hget Hread]].
  exists sample. split; [exact Hget|].
  pose proof (read_channels_inv _ _ _ _ _ Hread) as (Hdf & Hfull & Hidata).
  split; [exact Hdf|]. split; [exact Hfull|].
  intros channel dataset. rewrite Hidata. cbn [sample_py.new_Sample sample_py.idata py.getitem].
  destruct (existsb (Channel_eqb channel) channels) eqn:Hmem.
  - apply existsb_Channel_eqb in Hmem.
    destruct (rglob datadir (pattern_of line channel)) as [|path [|path' paths]] eqn:Hpaths.
    + split; [discriminate | intros [_ [p [E _]]]; discriminate].
    + destruct (read_channels_found _ _ _ _ _ _ _ Hread Hmem Hpaths) as [d Hd].
      rewrite Hd. split.
      * intros E. injection E as <-. split; [exact Hmem|]. exists path. auto.
      * intros [_ [p [E Hp]]]. injection E as <-. congruence.
    + split; [discriminate | intros [_ [p [E _]]]; discriminate].
  - split; [discriminate|]. intros [Hc _]. apply existsb_Channel_eqb in Hc. congruence.
Qed.

End read_samples_facts.

(** ** The columns that drop_optional_cols keeps *)

Lemma positions_absent (name : string) (cols : list string) (i : nat) :
  ~ In name cols -> sample_py.positions name cols i = [].
Proof.
  revert i. induction cols as [|c cols IH]; intros i Hout; [reflexivity|].
  cbn [sample_py.positions]. destruct (String.eqb_spec c name) as [->|_].
  - exfalso. apply Hout. left. reflexivity.
  - apply IH. intros Hin. apply Hout. right. exact Hin.
Qed.

Lemma positions_single (name : string) (cols : list string) (i : nat) :
  NoDup cols -> In name cols ->
  exists j, pd.position name cols = Some j
            /\ sample_py.positions name cols i = [(i + j)%nat]
            /\ nth_error cols j = Some name.
Proof.
  revert i. induction cols as [|c cols IH]; intros i Hnodup Hin; [destruct Hin|].
  inversion Hnodup as [|? ? Hfresh Hrest]; subst.
  cbn [sample_py.positions pd.position]. destruct (String.eqb_spec c name) as [->|Hne].
  - exists O. rewrite (positions_absent _ _ _ Hfresh), Nat.add_0_r. auto.
  - destruct Hin as [E|Hin]; [contradiction|].
    destruct (IH (S i) Hrest Hin) as [j (Hpos & Hps & Hnth)].
    exists (S j). rewrite Hpos, Hps. cbn. repeat split; [f_equal; f_equal; lia | exact Hnth].
Qed.

Lemma position_nth_error (name : string) (cols : list string) (j : nat) :
  pd.position name cols = Some j -> nth_error cols j = Some name.
Proof.
  revert j. induction cols as [|c cols IH]; intros j H; [discriminate|].
  cbn [pd.position] in H. destruct (String.eqb_spec c name) as [->|_].
  - injection H as <-. reflexivity.
  - destruct (pd.position name cols) as [k|]; [|discriminate].
    injection H as <-. cbn. apply IH. reflexivity.
Qed.

Lemma position_first (name : string) (cols : list string) (j : nat) :
  NoDup cols -> nth_error cols j = Some name -> pd.position name cols = Some j.
Proof.
  revert j. induction cols as [|c cols IH]; intros j Hnodup H; [destruct j; discriminate|].
  inversion Hnodup as [|? ? Hfresh Hrest]; subst.
  cbn [pd.position]. destruct j as [|j]; cbn in H.
  - injection H as ->. rewrite String.eqb_refl. reflexivity.
  - destruct (String.eqb_spec c name) as [->|_].
    + exfalso. apply Hfresh. exact (nth_error_In _ _ H).
    + rewrite (IH _ Hrest H). reflexivity.
Qed.

(** The cells of the columns [names], one per name, when the names are
    columns of a table without two columns of one name. *)
Lemma take_positions {X : Type} (cols names : list string) (row : list X) :
  NoDup cols -> (forall c, In c names -> In c cols) ->
  List.length row = List.length cols ->
  Forall2 (fun c x => exists j, pd.position c cols = Some j /\ nth_error row j = Some x)
    names
    (sample_py.take (flat_map (fun name => sample_py.positions name cols 0) names) row).
Proof.
  intros Hnodup Hin Hlen. induction names as [|c names IH]; [constructor|].
  cbn [flat_map]. unfold sample_py.take. rewrite flat_map_app.
  destruct (positions_single c cols 0 Hnodup (Hin c (or_introl eq_refl)))
    as [j (Hpos & Hps & Hnth)].
  rewrite Hps. cbn [Nat.add flat_map].
  assert (Hj : (j < List.length row)%nat).
  { rewrite Hlen. apply nth_error_Some. congruence. }
  destruct (nth_error row j) as [x|] eqn:Hx; [|apply nth_error_Some in Hj; contradiction].
  cbn [app]. constructor.
  - exists j. auto.
  - apply IH. intros c' Hc'. apply Hin. right. exact Hc'.
Qed.

Lemma Forall2_nth_error {X Y : Type} (P : X -> Y -> Prop) (l : list X) (l' : list Y)
    (i : nat) (x : X) :
  Forall2 P l l' -> nth_error l i = Some x -> exists y, nth_error l' i = Some y /\ P x y.
Proof.
  intros H. revert i. induction H as [|a b l l' Hab _ IH]; intros i Hi;
    [destruct i; discriminate|].
  destruct i as [|i]; cbn in Hi |- *.
  - injection Hi as ->. eauto.
  - exact (IH i Hi).
Qed.

Lemma Forall2_same_length {X Y : Type} (P : X -> Y -> Prop) (l : list X) (l' : list Y) :
  Forall2 P l l' -> List.length l' = List.length l.
Proof. induction 1; cbn; congruence. Qed.

Lemma required_cols_NoDup : NoDup sample_py.required_cols.
Proof. unfold sample_py.required_cols. distinct_labels. Qed.

Section drop_optional_cols_facts.

Variables Channel IdatDataset Label Cell : Type.

Local Abbreviation Sample := (sample_py.Sample Channel IdatDataset Label Cell).

(** X14. [drop_optional_cols] never raises. It returns [None], after one
    warning, exactly when the sample has no full table or its full table
    lacks one of the eight required columns; otherwise it logs nothing. *)
Theorem drop_optional_cols_none (self : Sample) :
  exists out,
    py.result (sample_py.drop_optional_cols self) = py.Returns out
    /\ (out = None <->
        forall full, sample_py.full_df self = Some full ->
          exists c, In c sample_py.required_cols /\ ~ In c (sample_py.columns full))
    /\ (out = None ->
        exists msg, py.trace (sample_py.drop_optional_cols self) = [(WARNING, msg)])
    /\ (out <> None -> py.trace (sample_py.drop_optional_cols self) = []).
Proof.
  unfold sample_py.drop_optional_cols.
  destruct (sample_py.full_df self) as [full|].
  - destruct (filter _ sample_py.required_cols) as [|c missing] eqn:Hmissing.
    + cbn. eexists. split; [reflexivity|]. split; [|split; [discriminate | reflexivity]].
      split; [discriminate|]. intros H. destruct (H full eq_refl) as [c [Hc Hout]].
      exfalso. assert (Hin : In c (filter (fun c => negb (pd.mem c (sample_py.columns full)))
                                sample_py.required_cols)).
      { apply filter_In. split; [exact Hc|]. apply negb_true_iff, mem_not_In. exact Hout. }
      rewrite Hmissing in Hin. destruct Hin.
    + cbn. eexists. split; [reflexivity|]. split; [|split; [eauto | congruence]].
      split; [|reflexivity]. intros _ full' E. injection E as <-.
      assert (Hin : In c (filter (fun c => negb (pd.mem c (sample_py.columns full)))
                            sample_py.required_cols)) by (rewrite Hmissing; left; reflexivity).
      apply filter_In in Hin as [Hc Hout]. apply negb_true_iff, mem_not_In in Hout.
      exists c. split; [exact Hc | exact Hout].
  - cbn. eexists. split; [reflexivity|]. split; [|split; [eauto | congruence]].
    split; [discriminate | reflexivity].
Qed.

(** X15. On a full table that has the eight required columns, no two columns
    of one name and a value per column in every row, [drop_optional_cols]
    returns a table with exactly the required columns, in the order of
    [required_cols], and the rows of the full table in their order: each with
    its label and, in every required column, the value it has in the full
    table. *)
Theorem drop_optional_cols_keeps_required (self : Sample)
    (full : sample_py.DataFrame Label Cell) :
  sample_py.full_df self = Some full ->
  NoDup (sample_py.columns full) ->
  (forall c, In c sample_py.required_cols -> In c (sample_py.columns full)) ->
  (forall r, In r (sample_py.rows full) ->
     List.length (snd r) = List.length (sample_py.columns full)) ->
  exists out,
    py.result (sample_py.drop_optional_cols self) = py.Returns (Some out)
    /\ sample_py.columns out = sample_py.required_cols
    /\ List.length (sample_py.rows out) = List.length (sample_py.rows full)
    /\ forall i r, nth_error (sample_py.rows full) i = Some r ->
         exists r', nth_error (sample_py.rows out) i = Some r'
           /\ fst r' = fst r
           /\ List.length (snd r') = 8%nat
           /\ forall c, In c sample_py.required_cols ->
                exists v, sample_py.cell (sample_py.columns out) r' c = Some v
                          /\ sample_py.cell (sample_py.columns full) r c = Some v.
Proof.
  intros Hfull Hnodup Hall Hrows.
  unfold sample_py.drop_optional_cols. rewrite Hfull.
  assert (Hmissing : filter (fun c => negb (pd.mem c (sample_py.columns full)))
                       sample_py.required_cols = []).
  { destruct (filter _ sample_py.required_cols) as [|c missing] eqn:E; [reflexivity|].
    assert (Hin : In c (filter (fun c => negb (pd.mem c (sample_py.columns full)))
                          sample_py.required_cols)) by (rewrite E; left; reflexivity).
    apply filter_In in Hin as [Hc Hout]. apply negb_true_iff, mem_not_In in Hout.
    exfalso. exact (Hout (Hall c Hc)). }
  rewrite Hmissing. cbn [List.length Nat.ltb Nat.leb].
  eexists. split; [reflexivity|].
  unfold sample_py.DataFrame_getitem. cbn [sample_py.columns sample_py.rows].
  pose proof (take_positions (sample_py.columns full) sample_py.required_cols
                (sample_py.columns full) Hnodup Hall eq_refl) as Hcols.
  assert (Hnames : sample_py.take
            (flat_map (fun name => sample_py.positions name (sample_py.columns full) 0)
               sample_py.required_cols) (sample_py.columns full)
          = sample_py.required_cols).
  { revert Hcols. generalize (sample_py.take
            (flat_map (fun name => sample_py.positions name (sample_py.columns full) 0)
               sample_py.required_cols) (sample_py.columns full)).
    generalize sample_py.required_cols.
    intros names taken H. induction H as [|c x names taken [j [Hpos Hnth]] _ IH];
      [reflexivity|].
    apply position_nth_error in Hpos. f_equal; congruence. }
  split; [exact Hnames|]. split; [apply length_map|].
  intros i r Hr. rewrite nth_error_map, Hr. cbn [option_map].
  eexists. split; [reflexivity|]. cbn [fst snd]. split; [reflexivity|].
  pose proof (take_positions (sample_py.columns full) sample_py.required_cols (snd r)
                Hnodup Hall (Hrows r (nth_error_In _ _ Hr))) as Hcells.
  split; [rewrite (Forall2_same_length _ _ _ Hcells); reflexivity|].
  intros c Hc. rewrite Hnames. unfold sample_py.cell. cbn [snd].
  destruct (In_nth_error _ _ Hc) as [k Hk].
  rewrite (position_first _ _ _ required_cols_NoDup Hk).
  destruct (Forall2_nth_error _ _ _ _ _ Hcells Hk) as [v [Hv [j [Hpos Hj]]]].
  exists v. rewrite Hpos. auto.
Qed.

Lemma drop_optional_cols_cases (self : Sample) :
  (py.result (sample_py.drop_optional_cols self) = py.Returns None
   /\ exists msg, py.trace (sample_py.drop_optional_cols self) = [(WARNING, msg)])
  \/ (exists out, py.result (sample_py.drop_optional_cols self) = py.Returns (Some out)
                  /\ py.trace (sample_py.drop_optional_cols self) = []).
Proof.
  unfold sample_py.drop_optional_cols.
  destruct (sample_py.full_df self) as [full|]; [|left; cbn; eauto].
  destruct (filter _ sample_py.required_cols) as [|c missing].
  - right. cbn. eauto.
  - left. cbn. eauto.
Qed.

(** X22. [Samples.drop_optional_cols] changes nothing: it never raises, it
    leaves the object and each of its samples as they are, the tables that
    [Sample.drop_optional_cols] returns being dropped, and all it does is to
    log a warning for each sample that has no full table with the required
    columns. *)
Theorem Samples_drop_optional_cols_changes_nothing (Annotations : Type)
    (self : sample_py.Samples Channel IdatDataset Annotations Label Cell) :
  py.result (sample_py.Samples_drop_optional_cols self) = py.Returns self
  /\ Forall (fun record => fst record = WARNING)
       (py.trace (sample_py.Samples_drop_optional_cols self))
  /\ List.length (py.trace (sample_py.Samples_drop_optional_cols self))
     = List.length
         (filter (fun e => match py.result (sample_py.drop_optional_cols (snd e)) with
                           | py.Returns (Some _) => false
                           | _ => true
                           end) (sample_py.samples self)).
Proof.
  unfold sample_py.Samples_drop_optional_cols.
  rewrite prog_result_bind, prog_trace_bind.
  assert (H : py.result (sample_py.drop_each (map snd (sample_py.samples self)))
              = py.Returns tt
              /\ Forall (fun record => fst record = WARNING)
                   (py.trace (sample_py.drop_each (map snd (sample_py.samples self))))
              /\ List.length (py.trace (sample_py.drop_each (map snd (sample_py.samples self))))
                 = List.length
                     (filter (fun e : string * Sample =>
                                match py.result (sample_py.drop_optional_cols (snd e)) with
                                | py.Returns (Some _) => false
                                | _ => true
                                end) (sample_py.samples self))).
  { induction (sample_py.samples self) as [|[name sample] l (IHr & IHw & IHn)];
      [cbn; auto|].
    cbn [map snd sample_py.drop_each filter].
    rewrite prog_result_bind, prog_trace_bind.
    destruct (drop_optional_cols_cases sample) as [[Hr [msg Ht]]|[out [Hr Ht]]];
      rewrite Hr, Ht.
    - split; [exact IHr|]. split; [constructor; [reflexivity | exact IHw]|].
      cbn [app List.length]. rewrite IHn. reflexivity.
    - split; [exact IHr|]. split; [exact IHw|]. cbn [app]. exact IHn. }
  destruct H as (Hr & Hw & Hn). rewrite Hr. cbn [py.ret py.result py.trace snd fst].
  rewrite app_nil_r. auto.
Qed.

End drop_optional_cols_facts.

(** ** The pivoted table of get_betas *)

Lemma column_eqb_eq (a b : string * string) : sample_py.column_eqb a b = true <-> a = b.
Proof.
  destruct a as [a1 a2], b as [b1 b2]. unfold sample_py.column_eqb. cbn [fst snd].
  rewrite andb_true_iff, !String.eqb_eq. split; [intros [-> ->]; reflexivity|].
  intros E. injection E as -> ->. auto.
Qed.

Lemma same_entry_eq (a b : sample_py.signal) :
  sample_py.same_entry a b = true <->
  (sample_py.probe_id a, sample_py.column_of a) = (sample_py.probe_id b, sample_py.column_of b).
Proof.
  unfold sample_py.same_entry. rewrite andb_true_iff, String.eqb_eq, column_eqb_eq.
  split; [intros [-> ->]; reflexivity|]. intros E. injection E as E1 E2.
  split; [exact E1|]. unfold sample_py.column_of. congruence.
Qed.

Lemma has_duplicates_NoDup (df : list sample_py.signal) :
  sample_py.has_duplicates df = false <->
  NoDup (map (fun s => (sample_py.probe_id s, sample_py.column_of s)) df).
Proof.
  induction df as [|s df IH]; cbn [sample_py.has_duplicates map]; [split; [constructor|reflexivity]|].
  rewrite orb_false_iff, IH. split.
  - intros [Hs Hdf]. constructor; [|exact Hdf]. intros Hin. apply in_map_iff in Hin as [s' [E Hs']].
    assert (Hex : existsb (sample_py.same_entry s) df = true).
    { apply existsb_exists. exists s'. split; [exact Hs'|]. apply same_entry_eq. congruence. }
    congruence.
  - intros H. inversion H as [|? ? Hfresh Hrest]; subst. split; [|exact Hrest].
    destruct (existsb (sample_py.same_entry s) df) eqn:Hex; [|reflexivity].
    apply existsb_exists in Hex as [s' [Hs' E]]. apply same_entry_eq in E.
    exfalso. apply Hfresh. rewrite E.
    exact (in_map (fun s => (sample_py.probe_id s, sample_py.column_of s)) df s' Hs').
Qed.

Lemma column_position_nth_error (key : string * string) (cols : list (string * string))
    (i : nat) :
  sample_py.column_position key cols = Some i -> nth_error cols i = Some key.
Proof.
  revert i. induction cols as [|c cols IH]; intros i H; [discriminate|].
  cbn [sample_py.column_position] in H. destruct (sample_py.column_eqb c key) eqn:E.
  - apply column_eqb_eq in E. injection H as <-. subst. reflexivity.
  - destruct (sample_py.column_position key cols) as [k|]; [|discriminate].
    injection H as <-. cbn. apply IH. reflexivity.
Qed.

Lemma column_position_present (key : string * string) (cols : list (string * string)) :
  In key cols -> exists i, sample_py.column_position key cols = Some i.
Proof.
  induction cols as [|c cols IH]; intros Hin; [destruct Hin|].
  cbn [sample_py.column_position]. destruct (sample_py.column_eqb c key) eqn:E; [eauto|].
  destruct Hin as [->|Hin].
  - assert (sample_py.column_eqb key key = true) by (apply column_eqb_eq; reflexivity).
    congruence.
  - destruct (IH Hin) as [i ->]. cbn. eauto.
Qed.

Lemma sort_nodup_In {X : Type} (leb : X -> X -> bool) (dec : forall a b : X, {a = b} + {a <> b})
    (l : list X) (x : X) :
  In x (pd.sort leb (nodup dec l)) <-> In x l.
Proof.
  split; intros H.
  - apply (nodup_In dec). exact (Permutation_in _ (sort_Permutation leb _) H).
  - apply (Permutation_in _ (Permutation_sym (sort_Permutation leb _))).
    apply nodup_In. exact H.
Qed.

Lemma zip_with_map_same {X A B C : Type} (f : A -> B -> C) (g : X -> A) (h : X -> B)
    (l : list X) :
  pd.zip_with f (map g l) (map h l) = map (fun x => f (g x) (h x)) l.
Proof. unfold pd.zip_with. induction l as [|x l IH]; cbn; [reflexivity | f_equal; exact IH]. Qed.

Lemma combine_map_same {X Y : Type} (g : X -> Y) (l : list X) :
  combine l (map g l) = map (fun x => (x, g x)) l.
Proof. induction l as [|x l IH]; cbn; [reflexivity | f_equal; exact IH]. Qed.

Lemma pivot_column_present (df : list sample_py.signal) (key : string * string) :
  In key (map sample_py.column_of df) ->
  sample_py.pivot_column (filled_table df) key
  = py.Returns (map (fun p => filled df p key) (pivot_probes df)).
Proof.
  intros Hin. unfold sample_py.pivot_column, filled_table, sample_py.pivot_fillna.
  cbn [sample_py.pivot_columns sample_py.pivot_rows].
  destruct (column_position_present key (pivot_keys df)) as [i Hi];
    [apply sort_nodup_In; exact Hin|].
  rewrite Hi. f_equal. rewrite !map_map. apply map_ext. intros p. cbn [snd fst].
  rewrite map_map. apply nth_error_nth.
  rewrite nth_error_map, (column_position_nth_error _ _ _ Hi). reflexivity.
Qed.

Lemma pivot_column_absent (df : list sample_py.signal) (key : string * string) :
  ~ In key (map sample_py.column_of df) ->
  sample_py.pivot_column (filled_table df) key = py.Raises py.KeyError.
Proof.
  intros Hout. unfold sample_py.pivot_column, filled_table, sample_py.pivot_fillna.
  cbn [sample_py.pivot_columns].
  destruct (sample_py.column_position key (pivot_keys df)) as [i|] eqn:Hi; [|reflexivity].
  exfalso. apply Hout. apply column_position_nth_error, nth_error_In in Hi.
  apply sort_nodup_In in Hi. exact Hi.
Qed.

Lemma four_signals_columns (df : list sample_py.signal) :
  four_signals df <->
  In ("R", "M") (map sample_py.column_of df) /\ In ("G", "M") (map sample_py.column_of df)
  /\ In ("R", "U") (map sample_py.column_of df) /\ In ("G", "U") (map sample_py.column_of df).
Proof.
  assert (Hcol : forall c m, In (c, m) (map sample_py.column_of df) <->
            exists s, In s df /\ sample_py.signal_channel s = c
                      /\ sample_py.methylation_state s = m).
  { intros c m. rewrite in_map_iff. unfold sample_py.column_of.
    split; intros [s H]; exists s.
    - destruct H as [E Hs]. injection E as <- <-. auto.
    - destruct H as (Hs & <- & <-). auto. }
  unfold four_signals. rewrite !Hcol. split.
  - intros H. repeat split; apply H; cbn; auto.
  - intros (Hrm & Hgm & Hru & Hgu) c m [<-|[<-|[]]] [<-|[<-|[]]]; assumption.
Qed.

Lemma beta_result (df : list sample_py.signal) :
  py.result (sample_py.beta df) =
  if sample_py.has_duplicates df then py.Raises py.ValueError
  else if in_dec sample_py.column_dec ("R", "M") (map sample_py.column_of df) then
    if in_dec sample_py.column_dec ("G", "M") (map sample_py.column_of df) then
      if in_dec sample_py.column_dec ("R", "U") (map sample_py.column_of df) then
        if in_dec sample_py.column_dec ("G", "U") (map sample_py.column_of df) then
          py.Returns (map (fun p => (p, beta_of df p)) (pivot_probes df))
        else py.Raises py.KeyError
      else py.Raises py.KeyError
    else py.Raises py.KeyError
  else py.Raises py.KeyError.
Proof.
  unfold sample_py.beta, sample_py.pivot. rewrite prog_result_bind.
  destruct (sample_py.has_duplicates df); [reflexivity|].
  cbn [py.lift py.result snd].
  fold (pivot_probes df). fold (pivot_keys df). fold (filled_table df).
  rewrite prog_result_bind. cbn [py.lift py.result snd].
  destruct (in_dec _ _ _) as [Hrm|Hrm];
    [rewrite (pivot_column_present _ _ Hrm) | rewrite (pivot_column_absent _ _ Hrm); reflexivity].
  rewrite prog_result_bind. cbn [py.lift py.result snd].
  destruct (in_dec _ _ _) as [Hgm|Hgm];
    [rewrite (pivot_column_present _ _ Hgm) | rewrite (pivot_column_absent _ _ Hgm); reflexivity].
  rewrite prog_result_bind. cbn [py.lift py.result snd].
  destruct (in_dec _ _ _) as [Hru|Hru];
    [rewrite (pivot_column_present _ _ Hru) | rewrite (pivot_column_absent _ _ Hru); reflexivity].
  rewrite prog_result_bind. cbn [py.lift py.result snd].
  destruct (in_dec _ _ _) as [Hgu|Hgu];
    [rewrite (pivot_column_present _ _ Hgu) | rewrite (pivot_column_absent _ _ Hgu); reflexivity].
  cbn [py.ret py.result snd]. f_equal.
  assert (Hindex : pd.index (sample_py.pivot_rows (filled_table df)) = pivot_probes df).
  { unfold filled_table, sample_py.pivot_fillna, pd.index.
    cbn [sample_py.pivot_rows]. rewrite !map_map. cbn [fst]. apply map_id. }
  rewrite Hindex. repeat (rewrite zip_with_map_same || rewrite map_map).
  rewrite combine_map_same. reflexivity.
Qed.

Section get_betas_facts.

Variables Channel IdatDataset Label Cell : Type.

Local Abbreviation Sample := (sample_py.Sample Channel IdatDataset Label Cell).

(** X16. [get_betas] returns, and then returns nothing, exactly when the
    sample has a table [df] in which no probe has two rows of one channel and
    one state, and each of the four pairs of a channel R or G and a state M
    or U is on some row; otherwise it raises. *)
Theorem get_betas_returns_iff (self : Sample) :
  py.result (sample_py.get_betas self) = py.Returns tt <->
  exists rows,
    sample_py.df self = Some rows
    /\ NoDup (map (fun s => (sample_py.probe_id s, sample_py.column_of s)) rows)
    /\ four_signals rows.
Proof.
  unfold sample_py.get_betas. destruct (sample_py.df self) as [rows|].
  - rewrite prog_result_bind, beta_result. split.
    + intros H. exists rows. split; [reflexivity|].
      rewrite four_signals_columns, <- has_duplicates_NoDup.
      destruct (sample_py.has_duplicates rows); [discriminate|]. split; [reflexivity|].
      repeat (destruct (in_dec _ _ _); [|discriminate]). auto.
    + intros [rows' [E [Hdup Hfour]]]. injection E as <-.
      apply has_duplicates_NoDup in Hdup.
      apply four_signals_columns in Hfour as (Hrm & Hgm & Hru & Hgu).
      rewrite Hdup.
      repeat (destruct (in_dec _ _ _); [|contradiction]). reflexivity.
  - split; [discriminate|]. intros [rows [E _]]. discriminate.
Qed.

End get_betas_facts.

(** X17. The beta values that [get_betas] computes (line 111) are one for
    each probe of the table, however many rows the probe has: no probe has
    two, every probe of the table has one, and no other probe has any. *)
Theorem one_beta_per_probe (df : list sample_py.signal) (betas : pd.labelled float) :
  py.result (sample_py.beta df) = py.Returns betas ->
  NoDup (pd.index betas)
  /\ forall p, In p (pd.index betas) <-> In p (map sample_py.probe_id df).
Proof.
  intros H. rewrite beta_result in H.
  destruct (sample_py.has_duplicates df); [discriminate|].
  repeat (destruct (in_dec _ _ _); [|discriminate]).
  injection H as <-.
  assert (Hindex : pd.index (map (fun p => (p, beta_of df p)) (pivot_probes df))
                   = pivot_probes df).
  { unfold pd.index. rewrite map_map. cbn [fst]. apply map_id. }
  rewrite Hindex. unfold pivot_probes. split.
  - apply (Permutation_NoDup (Permutation_sym (sort_Permutation String.leb _))).
    apply NoDup_nodup.
  - intros p. apply sort_nodup_In.
Qed.

(** * Properties of pylluminator/samples.py *)


Section samples_py_facts.

Variable Channel : Type.
Variable channels : list Channel.
Variable format_channel : Channel -> string.
Variable IdatDataset : Type.
Variable read_idat : string -> py.answer IdatDataset.
Variable Sample : Type.
Variable new_Sample : string -> py.answer Sample.
Variable set_idata : Sample -> Channel -> IdatDataset -> py.answer Sample.
Variable idata_is_None : Sample -> bool.
Variable Sample_attribute : string -> option bool.
Variable Args : Type.
Variable call : string -> Args -> Sample -> py.answer Sample.
Variable Series : Type.
Variable Sample_betas : Sample -> py.answer Series.
Variable Frame : Type.
Variable concat : list Series -> py.answer Frame.
Variable Annotations : Type.
Variable merge_args : Annotations -> Z -> bool -> Args.
Variables Datadir Path : Type.
Variable convert_to_path : Datadir -> Path.
Variable format_path : Path -> string.
Variable get_files_matching : Path -> string -> list string.
Variable Sheet : Type.
Variable iterrows : Sheet -> list samples_py.sheet_line.
Variable create_from_idats : Path -> py.answer (option Sheet).
Variable read_from_file : string -> py.answer (option Sheet).

Local Abbreviation Samples := (samples_py.Samples Sample Frame Annotations Sheet).
Local Abbreviation method :=
  (samples_py.method Sample Args call Series Sample_betas Frame concat Annotations Sheet).
Local Abbreviation call_attribute :=
  (samples_py.call_attribute Sample Sample_attribute Args call Series Sample_betas Frame
     concat Annotations Sheet).
Local Abbreviation read_channels :=
  (samples_py.read_channels Channel format_channel IdatDataset read_idat Sample set_idata
     Path get_files_matching).
Local Abbreviation read_lines :=
  (samples_py.read_lines Channel channels format_channel IdatDataset read_idat Sample
     new_Sample set_idata idata_is_None Path get_files_matching).
Local Abbreviation read_samples :=
  (samples_py.read_samples Channel channels format_channel IdatDataset read_idat Sample
     new_Sample set_idata idata_is_None Sample_attribute Args call Series Sample_betas Frame
     concat Annotations merge_args Datadir Path convert_to_path format_path
     get_files_matching Sheet iterrows create_from_idats read_from_file).

(** ** The methods that __getattr__ builds *)

Lemma for_each_sample_keys (f : Sample -> py.answer Sample) (d d' : list (string * Sample)) :
  samples_py.for_each_sample f d = py.Returns d' ->
  map fst d' = map fst d
  /\ Forall2 (fun old new => f (snd old) = py.Returns (snd new)) d d'.
Proof.
  revert d'. induction d as [|[name sample] d IH]; intros d' H; cbn in H.
  - injection H as <-. split; [reflexivity | constructor].
  - destruct (f sample) as [sample'|e] eqn:Hf; [|discriminate].
    destruct (samples_py.for_each_sample f d) as [d''|e]; [|discriminate].
    injection H as <-. destruct (IH d'' eq_refl) as [Hkeys Hall].
    split; [cbn; f_equal; exact Hkeys|]. constructor; [exact Hf | exact Hall].
Qed.

(** X21. A method that [__getattr__] builds, when it returns, leaves the
    names of the samples and their order, the annotation and the sheet as
    they are, and each sample as the method of [Sample] leaves it. The table
    of the betas is kept by the three mask functions only: every other
    method but [calculate_betas] sets it to [None]. *)
Theorem method_keeps_the_sample_names (self self' : Samples) (method_name : string)
    (args : Args) :
  py.result (method self method_name args) = py.Returns self' ->
  map fst (samples_py.samples self') = map fst (samples_py.samples self)
  /\ Forall2 (fun old new => call method_name args (snd old) = py.Returns (snd new))
       (samples_py.samples self) (samples_py.samples self')
  /\ samples_py.annotation self' = samples_py.annotation self
  /\ samples_py.sample_sheet self' = samples_py.sample_sheet self
  /\ (In method_name ["apply_quality_mask"; "apply_non_unique_mask"; "apply_xy_mask"] ->
      samples_py._betas_df self' = samples_py._betas_df self)
  /\ (method_name <> "calculate_betas" ->
      ~ In method_name ["apply_quality_mask"; "apply_non_unique_mask"; "apply_xy_mask"] ->
      samples_py._betas_df self' = Some None).
Proof.
  unfold samples_py.method. intros H.
  remember ["apply_quality_mask"; "apply_non_unique_mask"; "apply_xy_mask"] as masks
    eqn:Hmasks in *.
  rewrite prog_result_bind in H. cbn [samples_py.LOGGER.info py.log py.result snd] in H.
  rewrite prog_result_bind in H. cbn [py.lift py.result snd] in H.
  destruct (samples_py.for_each_sample (call method_name args) (samples_py.samples self))
    as [samples'|e] eqn:Heach; [|discriminate].
  apply for_each_sample_keys in Heach as [Hkeys Hall].
  rewrite prog_result_bind in H.
  destruct (String.eqb_spec method_name "calculate_betas") as [->|Hname].
  - rewrite prog_result_bind in H. cbn [samples_py.LOGGER.info py.log py.result snd] in H.
    rewrite prog_result_bind in H. cbn [py.lift py.result snd] in H.
    destruct (samples_py.collect_samples _ _) as [betas|e]; [|discriminate].
    rewrite prog_result_bind in H. cbn [py.lift py.result snd] in H.
    destruct (concat betas) as [betas_df|e]; [|discriminate].
    cbn in H. injection H as <-. cbn.
    repeat split; try assumption.
    + subst masks. intros [E|[E|[E|[]]]]; discriminate.
    + intros Hne. contradiction.
  - destruct (pd.mem method_name masks) eqn:Hmask; cbn in H; injection H as <-; cbn.
    + repeat split; try assumption.
      intros _ Hout. apply mem_In in Hmask. contradiction.
    + repeat split; try assumption.
      intros Hin. apply mem_In in Hin. congruence.
Qed.

Lemma method_length (self self' : Samples) (method_name : string) (args : Args) :
  py.result (method self method_name args) = py.Returns self' ->
  List.length (samples_py.samples self') = List.length (samples_py.samples self).
Proof.
  unfold samples_py.method. intros H.
  rewrite prog_result_bind in H. cbn [samples_py.LOGGER.info py.log py.result snd] in H.
  rewrite prog_result_bind in H. cbn [py.lift py.result snd] in H.
  destruct (samples_py.for_each_sample (call method_name args) (samples_py.samples self))
    as [samples'|e] eqn:Heach; [|discriminate].
  apply for_each_sample_keys in Heach as [Hkeys _].
  rewrite prog_result_bind in H.
  assert (Hlen : List.length samples' = List.length (samples_py.samples self)).
  { rewrite <- (length_map fst samples'), Hkeys. apply length_map. }
  destruct (String.eqb method_name "calculate_betas").
  - rewrite prog_result_bind in H. cbn [samples_py.LOGGER.info py.log py.result snd] in H.
    rewrite prog_result_bind in H. cbn [py.lift py.result snd] in H.
    destruct (samples_py.collect_samples _ _) as [betas|e]; [|discriminate].
    rewrite prog_result_bind in H. cbn [py.lift py.result snd] in H.
    destruct (concat betas) as [betas_df|e]; [|discriminate].
    cbn in H. injection H as <-. exact Hlen.
  - destruct (negb _); cbn in H; injection H as <-; exact Hlen.
Qed.

Lemma call_attribute_length (self self' : Samples) (name : string) (args : Args) :
  py.result (call_attribute self name args) = py.Returns self' ->
  List.length (samples_py.samples self') = List.length (samples_py.samples self).
Proof.
  unfold samples_py.call_attribute, samples_py.__getattr__. intros H.
  rewrite prog_result_bind in H.
  destruct (Sample_attribute name) as [callable|]; [|discriminate].
  destruct (callable && pd.mem name samples_py.supported_functions).
  - cbn [py.ret py.result snd] in H. exact (method_length _ _ _ _ H).
  - rewrite prog_result_bind in H. cbn in H. discriminate.
Qed.

(** ** The loop of read_samples *)

Lemma samples_read_lines_limit (datadir : Path) (n : Z) (lines : list samples_py.sheet_line)
    (samples_dict out : list (string * Sample)) :
  1 <= n -> Z.of_nat (List.length samples_dict) < n ->
  py.result (read_lines datadir (Some n) lines samples_dict) = py.Returns out ->
  Z.of_nat (List.length out) <= n.
Proof.
  intros Hn. revert samples_dict.
  induction lines as [|line lines IH]; intros samples_dict Hlen H.
  - cbn in H. injection H as <-. lia.
  - cbn [samples_py.read_lines] in H. rewrite prog_result_bind in H.
    cbn [py.lift py.result snd] in H.
    destruct (new_Sample (samples_py.sample_name line)) as [sample0|e]; [|discriminate].
    rewrite prog_result_bind in H.
    destruct (py.result (read_channels datadir line channels sample0)) as [sample|e];
      [|discriminate].
    destruct (idata_is_None sample).
    + rewrite prog_result_bind in H. cbn [samples_py.LOGGER.error py.log py.result snd] in H.
      exact (IH _ Hlen H).
    + pose proof (setitem_length_le String.eqb (samples_py.sample_name line) sample samples_dict)
        as [[_ Hup] _].
      unfold samples_py.limit_reached in H.
      destruct (Z.eqb_spec
        (Z.of_nat (List.length
           (py.setitem String.eqb (samples_py.sample_name line) sample samples_dict))) n)
        as [E|E].
      * cbn in H. injection H as <-. lia.
      * apply IH in H; [exact H | lia].
Qed.


Lemma read_samples_inv (datadir : Datadir) (sample_sheet_df : option Sheet)
    (sample_sheet_name : option string) (annotation : option Annotations)
    (max_samples : option Z) (min_beads : Z) (keep_idat : bool) (samples : Samples) :
  py.result (read_samples datadir sample_sheet_df sample_sheet_name annotation max_samples
               min_beads keep_idat) = py.Returns (Some samples) ->
  exists sheet samples_dict,
    py.result (read_lines (convert_to_path datadir) max_samples (iterrows sheet) [])
       = py.Returns samples_dict
    /\ List.length (samples_py.samples samples) = List.length samples_dict
    /\ (annotation = None ->
        samples = samples_py.set_samples
                    (samples_py.new_Samples (Annotations := Annotations) (Frame := Frame) (Some sheet))
                    samples_dict).
Proof.
  unfold samples_py.read_samples. intros H.
  rewrite prog_result_bind in H. cbn [samples_py.LOGGER.info py.log py.result snd] in H.
  assert (Hsheet : exists chosen : option Sheet,
            py.result
                 match chosen with
                 | None => py.ret (M := samples_py.message) None
                 | Some sheet =>
                     py.bind
                       (read_lines (convert_to_path datadir) max_samples (iterrows sheet) [])
                       (fun samples_dict =>
                        py.bind
                          match annotation with
                          | Some a =>
                              call_attribute
                                (samples_py.set_annotation
                                   (samples_py.set_samples
                                      (samples_py.new_Samples (Some sheet)) samples_dict) a)
                                "merge_annotation_info" (merge_args a min_beads keep_idat)
                          | None =>
                              py.ret
                                (samples_py.set_samples
                                   (samples_py.new_Samples (Some sheet)) samples_dict)
                          end
                          (fun samples0 =>
                           py.bind (samples_py.LOGGER.info samples_py.reading_done)
                             (fun _ => py.ret (Some samples0))))
                 end = py.Returns (Some samples)).
  { destruct sample_sheet_df as [df|], sample_sheet_name as [name|].
    - rewrite prog_result_bind in H. cbn in H. discriminate.
    - rewrite prog_result_bind in H. cbn [py.ret py.result snd] in H.
      exists (Some df). exact H.
    - rewrite prog_result_bind in H. cbn [py.lift py.result snd] in H.
      destruct (read_from_file _) as [chosen|e]; [exists chosen; exact H | discriminate].
    - rewrite prog_result_bind in H. rewrite prog_result_bind in H.
      cbn [samples_py.LOGGER.debug py.log py.lift py.result snd] in H.
      destruct (create_from_idats _) as [chosen|e]; [exists chosen; exact H | discriminate]. }
  destruct Hsheet as [[sheet|] Hrest]; [|discriminate].
  rewrite prog_result_bind in Hrest.
  destruct (py.result (read_lines _ _ _ _)) as [samples_dict|e] eqn:Hlines; [|discriminate].
  exists sheet, samples_dict. split; [exact Hlines|].
  rewrite prog_result_bind in Hrest.
  destruct annotation as [a|].
  - destruct (py.result (call_attribute _ _ _)) as [samples0|e] eqn:Hcall; [|discriminate].
    rewrite prog_result_bind in Hrest. cbn in Hrest. injection Hrest as <-.
    apply call_attribute_length in Hcall. split; [exact Hcall | discriminate].
  - cbn in Hrest. injection Hrest as <-. split; reflexivity.
Qed.

(** X18. [read_samples] returns [None] in three cases and no other: a sheet
    and the name of a sheet are both given; none is given and no sheet could
    be made from the idat files; a name alone is given and the file gave no
    sheet. *)
Theorem read_samples_returns_None_iff (datadir : Datadir) (sample_sheet_df : option Sheet)
    (sample_sheet_name : option string) (annotation : option Annotations)
    (max_samples : option Z) (min_beads : Z) (keep_idat : bool) :
  py.result (read_samples datadir sample_sheet_df sample_sheet_name annotation max_samples
               min_beads keep_idat) = py.Returns None <->
  (sample_sheet_df <> None /\ sample_sheet_name <> None)
  \/ (sample_sheet_df = None /\ sample_sheet_name = None
      /\ create_from_idats (convert_to_path datadir) = py.Returns None)
  \/ (sample_sheet_df = None
      /\ exists name, sample_sheet_name = Some name
           /\ read_from_file
                (String.append (format_path (convert_to_path datadir))
                   (String.append "/" name)) = py.Returns None).
Proof.
  assert (Htail : forall sheet,
    py.result
      (py.bind (read_lines (convert_to_path datadir) max_samples (iterrows sheet) [])
         (fun samples_dict =>
          py.bind
            match annotation with
            | Some a =>
                call_attribute
                  (samples_py.set_annotation
                     (samples_py.set_samples (samples_py.new_Samples (Some sheet))
                        samples_dict) a)
                  "merge_annotation_info" (merge_args a min_beads keep_idat)
            | None =>
                py.ret
                  (samples_py.set_samples (samples_py.new_Samples (Some sheet)) samples_dict)
            end
            (fun samples0 =>
             py.bind (samples_py.LOGGER.info samples_py.reading_done)
               (fun _ => py.ret (Some samples0))))) <> py.Returns None).
  { intros sheet H. rewrite prog_result_bind in H.
    destruct (py.result (read_lines _ _ _ _)) as [samples_dict|e]; [|discriminate].
    rewrite prog_result_bind in H.
    destruct annotation as [a|].
    - destruct (py.result (call_attribute _ _ _)) as [samples0|e]; [|discriminate].
      rewrite prog_result_bind in H. cbn in H. discriminate.
    - cbn in H. discriminate. }
  unfold samples_py.read_samples.
  rewrite prog_result_bind. cbn [samples_py.LOGGER.info py.log py.result snd].
  destruct sample_sheet_df as [df|], sample_sheet_name as [name|].
  - rewrite prog_result_bind. cbn. split; [|reflexivity].
    intros _. left. split; discriminate.
  - rewrite prog_result_bind. cbn [py.ret py.result snd]. split.
    + intros H. exfalso. exact (Htail df H).
    + intros [[_ H]|[(H & _)|(H & _)]]; [contradiction | discriminate | discriminate].
  - rewrite prog_result_bind. cbn [py.lift py.result snd]. split.
    + intros H. right. right. split; [reflexivity|]. exists name. split; [reflexivity|].
      destruct (read_from_file _) as [[sheet|]|e];
        [exfalso; exact (Htail sheet H) | reflexivity | discriminate].
    + intros [[H _]|[(_ & H & _)|(_ & n & E & H)]]; [contradiction | discriminate |].
      injection E as <-. rewrite H. reflexivity.
  - rewrite prog_result_bind. rewrite prog_result_bind.
    cbn [samples_py.LOGGER.debug py.log py.lift py.result snd]. split.
    + intros H. right. left. split; [reflexivity|]. split; [reflexivity|].
      destruct (create_from_idats _) as [[sheet|]|e];
        [exfalso; exact (Htail sheet H) | reflexivity | discriminate].
    + intros [[_ H]|[(_ & _ & H)|(_ & n & E & _)]]; [contradiction | | discriminate].
      rewrite H. reflexivity.
Qed.

(** X19. With [max_samples] at least 1, the object that [read_samples]
    returns holds at most [max_samples] samples, with or without an
    annotation. *)
Theorem loaded_samples_are_at_most_max_samples (datadir : Datadir)
    (sample_sheet_df : option Sheet) (sample_sheet_name : option string)
    (annotation : option Annotations) (n : Z) (min_beads : Z) (keep_idat : bool)
    (samples : Samples) :
  1 <= n ->
  py.result (read_samples datadir sample_sheet_df sample_sheet_name annotation (Some n)
               min_beads keep_idat) = py.Returns (Some samples) ->
  Z.of_nat (List.length (samples_py.samples samples)) <= n.
Proof.
  intros Hn H.
  destruct (read_samples_inv _ _ _ _ _ _ _ _ H) as [sheet [samples_dict (Hlines & Hlen & _)]].
  rewrite Hlen. apply (samples_read_lines_limit _ _ _ _ _ Hn) in Hlines; [exact Hlines|].
  cbn. lia.
Qed.


End samples_py_facts.

(** ** Witnesses for sample.py and samples.py *)

Lemma two_channels_eqb_eq (a b : two_channels) : two_channels_eqb a b = true <-> a = b.
Proof. destruct a, b; cbn; split; intros H; try reflexivity; discriminate. Qed.

(** X12, witness: the example sheet of two lines, read with a limit of one
    sample. *)
Lemma read_samples_max_samples_example :
  exists self',
    py.result (example_read_samples (Some 1)) = py.Returns self'
    /\ Z.of_nat (List.length (sample_py.samples self')) <= 1.
Proof.
  assert (H : exists self', py.result (example_read_samples (Some 1)) = py.Returns self')
    by (eexists; vm_compute; reflexivity).
  destruct H as [self' H]. exists self'. split; [exact H|].
  apply (read_samples_max_samples two_channels [Red; Grn] two_channels_eqb channel_name nat
           example_read_idat example_rglob unit string string no_samples self' "data" 1);
    [lia | cbn; lia | exact H].
Defined.

(** X13, witness: the second line of the example sheet, for which the
    directory has no file. *)
Lemma read_samples_registers_every_line_example :
  exists self',
    py.result (example_read_samples None) = py.Returns self'
    /\ exists sample,
         py.getitem String.eqb "normal" (sample_py.samples self') = Some sample
         /\ sample_py.df sample = None
         /\ sample_py.full_df sample = None.
Proof.
  assert (H : exists self', py.result (example_read_samples None) = py.Returns self')
    by (eexists; vm_compute; reflexivity).
  destruct H as [self' H]. exists self'. split; [exact H|].
  destruct (read_samples_registers_every_line two_channels [Red; Grn] two_channels_eqb
              channel_name nat example_read_idat example_rglob unit string string
              two_channels_eqb_eq no_samples self' "data" None
              {| sample_py.sentrix_id := "2071"; sample_py.sentrix_position := "R02C01";
                 sample_py.sample_name := "normal" |})
    as [sample (Hget & Hdf & Hfull & _)].
  - exact I.
  - cbn. distinct_labels.
  - exact H.
  - cbn. right. left. reflexivity.
  - exists sample. auto.
Defined.

(** X15, witness: the example table, of ten columns. *)
Lemma drop_optional_cols_keeps_required_example :
  exists out,
    py.result (sample_py.drop_optional_cols merged_sample) = py.Returns (Some out)
    /\ sample_py.columns out = sample_py.required_cols.
Proof.
  destruct (drop_optional_cols_keeps_required two_channels nat string string merged_sample
              example_full_df) as [out (Hout & Hcols & _)].
  - reflexivity.
  - cbn. distinct_labels.
  - intros c Hc. cbn in Hc |- *. tauto.
  - intros r [<-|[]]. reflexivity.
  - exists out. auto.
Defined.

(** X17, witness: the signals of the two example probes, in six rows. *)
Lemma one_beta_per_probe_example :
  exists betas,
    py.result (sample_py.beta example_signals) = py.Returns betas
    /\ NoDup (pd.index betas)
    /\ forall p, In p (pd.index betas) <-> In p (map sample_py.probe_id example_signals).
Proof.
  assert (H : exists betas, py.result (sample_py.beta example_signals) = py.Returns betas)
    by (eexists; vm_compute; reflexivity).
  destruct H as [betas H]. exists betas. split; [exact H|].
  exact (one_beta_per_probe example_signals betas H).
Defined.

(** X19, witness: the example sheet of three lines, read with an annotation
    and a limit of one sample. *)
Lemma loaded_samples_are_at_most_max_samples_example :
  exists samples,
    py.result (example_load (Some tt) (Some 1)) = py.Returns (Some samples)
    /\ Z.of_nat (List.length (samples_py.samples samples)) <= 1.
Proof.
  assert (H : exists samples,
            py.result (example_load (Some tt) (Some 1)) = py.Returns (Some samples))
    by (eexists; vm_compute; reflexivity).
  destruct H as [samples H]. exists samples. split; [exact H|].
  unfold example_load in H.
  eapply loaded_samples_are_at_most_max_samples; [|exact H]. lia.
Defined.


(** X21, witness: the method [poobah] on an object with one sample and a
    table of betas. *)
Lemma method_keeps_the_sample_names_example :
  exists self',
    py.result (example_method "poobah") = py.Returns self'
    /\ map fst (samples_py.samples self') = ["tumour"]
    /\ samples_py._betas_df self' = Some None.
Proof.
  assert (H : exists self', py.result (example_method "poobah") = py.Returns self')
    by (eexists; vm_compute; reflexivity).
  destruct H as [self' H]. exists self'. split; [exact H|].
  unfold example_method in H.
  destruct (method_keeps_the_sample_names _ _ _ _ _ _ _ _ _ _ _ _ _ H)
    as (Hkeys & _ & _ & _ & _ & Hnone).
  split; [exact Hkeys|]. apply Hnone; [discriminate|].
  cbn. intros [E|[E|[E|[]]]]; discriminate.
Defined.
